(** * repo_debian_generator: substitution generation, dependency resolution,
      changelog merge and multi-package aggregation

    A shallow embedding of [src/repo_debian_generator.py] and
    [src/repo_debian_generator_cmd.py].

    Conventions of the embedding:
    - a Python 3 [str] is a [string], one [ascii] per code point (code points
      below 256);
    - a Python [dict] is an insertion-ordered association list ([PyDict]);
    - logging, prompting and the calls to external collaborators are events of
      a writer; [sys.exit] and exceptions end a computation ([run]). *)

From stdpp Require Import base option list strings.
From stdpp Require Import sorting.
From Stdlib Require Import Ascii NArith ZArith Lia DecimalString.

Local Open Scope string_scope.
Local Open Scope list_scope.

(** ** Python string operations used by the generator *)

Module PyStr.

Definition LF : ascii := "010"%char.

(** [str.isspace] on one code point; also the class [\s] of [re] on [str]
    patterns and the characters removed by [str.strip()]. *)
Definition is_space (c : ascii) : bool :=
  match N_of_ascii c with
  | 9 | 10 | 11 | 12 | 13 | 28 | 29 | 30 | 31 | 32 | 133 | 160 => true
  | _ => false
  end%N.

(** [s.replace(old, new)] for one-character [old] and [new]. *)
Fixpoint replace (old new : ascii) (s : string) : string :=
  match s with
  | "" => ""
  | String c r => String (if Ascii.eqb c old then new else c) (replace old new r)
  end.

Fixpoint lstrip (s : string) : string :=
  match s with
  | "" => ""
  | String c r => if is_space c then lstrip r else s
  end.

Fixpoint rstrip (s : string) : string :=
  match s with
  | "" => ""
  | String c r =>
      match rstrip r with
      | "" => if is_space c then "" else String c ""
      | r' => String c r'
      end
  end.

(** [s.strip()] *)
Definition strip (s : string) : string := rstrip (lstrip s).

(** [s.startswith(p)], returning what follows the prefix. *)
Fixpoint strip_prefix (p s : string) : option string :=
  match p, s with
  | "", _ => Some s
  | String a p', String b s' => if Ascii.eqb a b then strip_prefix p' s' else None
  | String _ _, "" => None
  end.

(** [s.partition(sep)] when [sep] occurs in [s]: the text before the first
    occurrence and the text after it. *)
Fixpoint find_sep (sep s : string) : option (string * string) :=
  match strip_prefix sep s with
  | Some rest => Some ("", rest)
  | None =>
      match s with
      | "" => None
      | String c r =>
          match find_sep sep r with
          | Some (a, b) => Some (String c a, b)
          | None => None
          end
      end
  end.

(** [s.split(sep, 1)] for a non-empty [sep]. *)
Definition split1 (sep s : string) : list string :=
  match find_sep sep s with
  | Some (a, b) => [a; b]
  | None => [s]
  end.

(** [sep.join(l)] *)
Fixpoint join (sep : string) (l : list string) : string :=
  match l with
  | [] => ""
  | [x] => x
  | x :: r => x +:+ sep +:+ join sep r
  end.

(** [sub in s] *)
Definition contains (sub s : string) : Prop :=
  ∃ a b, s = a +:+ sub +:+ b.

(** [s[0]]: a one-character string, [IndexError] on the empty string. *)
Definition index0 (s : string) : option string :=
  match s with
  | "" => None
  | String c _ => Some (String c "")
  end.

(** The characters of [s] as the iteration over a [str] yields them. *)
Fixpoint chars (s : string) : list string :=
  match s with
  | "" => []
  | String c r => String c "" :: chars r
  end.

(** [c in s] for one character. *)
Fixpoint has_char (c : ascii) (s : string) : bool :=
  match s with
  | "" => false
  | String d r => Ascii.eqb c d || has_char c r
  end.

(** The shortest match of [.*?>] at the start of [s], as the number of
    characters it takes: [.] matches everything but a line feed. *)
Fixpoint tag_len (s : string) : option nat :=
  match s with
  | "" => None
  | String c r =>
      if Ascii.eqb c ">" then Some 1
      else if Ascii.eqb c LF then None
      else S <$> tag_len r
  end.

(** [re.compile(r'<.*?>').sub('', s)], scanning left to right; [skip] is the
    number of characters of the current match still to be dropped. *)
Fixpoint sub_markup (skip : nat) (s : string) : string :=
  match s with
  | "" => ""
  | String c r =>
      match skip with
      | S k => sub_markup k r
      | 0 =>
          if Ascii.eqb c "<" then
            match tag_len r with
            | Some n => sub_markup n r
            | None => String c (sub_markup 0 r)
            end
          else String c (sub_markup 0 r)
      end
  end.

(** [re.sub('\s+', ' ', s)]; [in_run] holds while the scan is inside a run
    of white space whose replacement has been emitted. *)
Fixpoint sub_spaces (in_run : bool) (s : string) : string :=
  match s with
  | "" => ""
  | String c r =>
      if is_space c then
        if in_run then sub_spaces true r else String " " (sub_spaces true r)
      else String c (sub_spaces false r)
  end.

End PyStr.

(** ** Leaf helpers of the generator *)

(** [debianize_string], lines 628-633. *)
Definition debianize_string (value : string) : string :=
  let value := PyStr.sub_markup 0 value in
  let value := PyStr.sub_spaces false value in
  let value := PyStr.strip value in
  value.

(** [sanitize_package_name], lines 636-637. *)
Definition sanitize_package_name (name : string) : string :=
  PyStr.replace "_" "-" name.

(** [format_description], lines 177-197. *)
Definition format_description (value : string) : string :=
  let value := debianize_string value in
  let parts := PyStr.split1 ". " value in
  match parts with
  | [p0; p1] =>
      if Nat.eqb (String.length p1) 0 then value
      else p0 +:+ "." +:+ String PyStr.LF " " +:+ PyStr.strip p1
  | _ => value
  end.

(** ** Python dictionaries: association lists in insertion order *)

Module PyDict.
Section Dict.
Context {K V : Type} `{EqDecision K}.

(** [d[k] = v]: an existing key keeps its place, a new key goes last. *)
Fixpoint setitem (d : list (K * V)) (k : K) (v : V) : list (K * V) :=
  match d with
  | [] => [(k, v)]
  | (k', v') :: r =>
      if decide (k' = k) then (k', v) :: r else (k', v') :: setitem r k v
  end.

(** [d.get(k)] *)
Fixpoint get (d : list (K * V)) (k : K) : option V :=
  match d with
  | [] => None
  | (k', v') :: r => if decide (k' = k) then Some v' else get r k
  end.

(** [d.keys()], in iteration order. *)
Definition keys (d : list (K * V)) : list K := fst <$> d.

(** [d.values()], in iteration order. *)
Definition values (d : list (K * V)) : list V := snd <$> d.
End Dict.

(** [dict.fromkeys(l)]: every value is [None]. *)
Definition fromkeys {K} `{EqDecision K} (l : list K) : list (K * unit) :=
  foldl (λ d k, setitem d k ()) [] l.
End PyDict.

Abbreviation dict K V := (list (K * V)) (only parsing).

Module PyList.
(** [l.index(x)]: the position of the first occurrence of [x]. *)
Fixpoint index {K} `{EqDecision K} (x : K) (l : list K) : option nat :=
  match l with
  | [] => None
  | y :: r => if decide (y = x) then Some 0 else S <$> index x r
  end.
End PyList.

(** [a or b] on an optional string: [None] and the empty string are falsy. *)
Definition str_or (a : option string) (b : string) : string :=
  match a with
  | Some (String c r) => String c r
  | _ => b
  end.

(** ** Data model *)

(** A maintainer of a package manifest ([catkin_pkg]'s [Person]). *)
Record Person := { person_name : string; person_email : string }.

(** A dependency of a package manifest: its key and its version constraints. *)
Record Dependency := {
  dep_name : string;
  dep_version_lt : option string;
  dep_version_lte : option string;
  dep_version_eq : option string;
  dep_version_gte : option string;
  dep_version_gt : option string;
  dep_evaluated_condition : option bool
}.

(** The attributes of a parsed package manifest that the embedded code reads. *)
Record Package := {
  pkg_name : string;
  pkg_version : string;
  pkg_description : string;
  pkg_maintainers : list Person
}.

(** One changelog entry: the tuple
    [(version, date, changes, releaser, releaser_email)]. *)
Record ChangelogEntry := {
  cl_version : string;
  cl_date : string;
  cl_changes : string;
  cl_releaser : string;
  cl_email : string
}.

(** The substitution map of one package: the keys that
    [generate_substitutions_from_package] sets, with the types it gives them. *)
Record Subs := {
  s_Name : string;
  s_Version : string;
  s_Description : string;
  s_Homepage : string;
  s_DebianInc : string;
  s_format : string;
  s_Package : string;
  s_InstallationPrefix : string;
  s_Depends : list string;
  s_BuildDepends : list string;
  s_Replaces : list string;
  s_Conflicts : list string;
  s_pass_install_scripts : option bool;
  s_Distribution : string;
  s_Date : string;
  s_YYYY : string;
  s_Maintainer : string;
  s_Maintainers : string;
  s_changelogs : list ChangelogEntry;
  s_debhelper_version : Z;
  s_Copyright : string
}.

(** The substitution map of the release unit: the keys that [merge_packages]
    sets in [repo_header]. *)
Record RepoHeader := {
  h_Package : string;
  h_DebianInc : string;
  h_format : string;
  h_InstallationPrefix : string;
  h_Maintainer : string;
  h_Maintainers : string;
  h_BuildDepends : list string;
  h_Homepage : string;
  h_Copyright : string;
  h_debhelper_version : Z;
  h_changelogs : list ChangelogEntry;
  h_Distribution : string
}.

(** [sub['BuildDepends'] = l] and [repo_header['BuildDepends'] = l]. *)
Definition s_set_BuildDepends (s : Subs) (l : list string) : Subs :=
  {| s_Name := s_Name s; s_Version := s_Version s;
     s_Description := s_Description s; s_Homepage := s_Homepage s;
     s_DebianInc := s_DebianInc s; s_format := s_format s;
     s_Package := s_Package s; s_InstallationPrefix := s_InstallationPrefix s;
     s_Depends := s_Depends s; s_BuildDepends := l;
     s_Replaces := s_Replaces s; s_Conflicts := s_Conflicts s;
     s_pass_install_scripts := s_pass_install_scripts s;
     s_Distribution := s_Distribution s; s_Date := s_Date s;
     s_YYYY := s_YYYY s; s_Maintainer := s_Maintainer s;
     s_Maintainers := s_Maintainers s; s_changelogs := s_changelogs s;
     s_debhelper_version := s_debhelper_version s;
     s_Copyright := s_Copyright s |}.

Definition h_set_BuildDepends (h : RepoHeader) (l : list string) : RepoHeader :=
  {| h_Package := h_Package h; h_DebianInc := h_DebianInc h;
     h_format := h_format h; h_InstallationPrefix := h_InstallationPrefix h;
     h_Maintainer := h_Maintainer h; h_Maintainers := h_Maintainers h;
     h_BuildDepends := l; h_Homepage := h_Homepage h;
     h_Copyright := h_Copyright h;
     h_debhelper_version := h_debhelper_version h;
     h_changelogs := h_changelogs h; h_Distribution := h_Distribution h |}.

(** A value of the aggregated view: a package's map or the header's. *)
Inductive ViewEntry :=
| PkgEntry (s : Subs)
| HeaderEntry (h : RepoHeader).

Abbreviation AggregatedView := (list (string * ViewEntry)) (only parsing).

(** ** Effects *)

Inductive exn :=
| Exception (type_name msg : string)
| KeyboardInterrupt
| EOFError.

(** The argument of [sys.exit]. *)
Inductive exit_arg :=
| ExitCode (n : Z)
| ExitMsg (msg : string).

(** What the run does to the outside: [warning] and [error] lines of
    [bloom.logging] ([info] and [debug] lines are left out), the operator
    prompt, and the calls to collaborators outside the repository. *)
Inductive event :=
| EvWarning (msg : string)
| EvError (msg : string)
| EvMaybeContinue (default msg : string)
| EvResolveRosdepKey (key os_name os_version ros_distro : string)
    (ignored : list string) (retry : bool)
| EvPlaceTemplateFiles (path build_type : string)
| EvProcessTemplateFiles (path : string) (subs : AggregatedView)
| EvRemove (path : string).

Inductive result (A : Type) :=
| Return (a : A)
| SysExit (arg : exit_arg)
| Raise (e : exn).
Arguments Return {A} a.
Arguments SysExit {A} arg.
Arguments Raise {A} e.

(** A computation: the events it emitted, in order, and how it ended. *)
Definition run (A : Type) : Type := list event * result A.

Definition run_bind {A B} (f : A → run B) (m : run A) : run B :=
  match m with
  | (ev, Return a) => let '(ev', r) := f a in (ev ++ ev', r)
  | (ev, SysExit arg) => (ev, SysExit arg)
  | (ev, Raise e) => (ev, Raise e)
  end.

#[global] Instance run_mret : MRet run := λ A a, ([], Return a).
#[global] Instance run_mbind : MBind run := λ A B f m, run_bind f m.

Definition emit (e : event) : run unit := ([e], Return ()).
Definition warning (msg : string) : run unit := emit (EvWarning msg).
Definition error (msg : string) : run unit := emit (EvError msg).
Definition sys_exit {A} (arg : exit_arg) : run A := ([], SysExit arg).
Definition raise {A} (e : exn) : run A := ([], Raise e).
Definition skip : run unit := mret ().

(** [error(msg, exit=True)]: the line is logged and the process ends with a
    failure status. *)
Definition error_exit {A} (msg : string) : run A :=
  error msg;; sys_exit (ExitMsg msg).

(** The handlers that close each [try] block of the two files:
    [except Exception as exc: error(type(exc).__name__ + ": " + str(exc),
    exit=True)] and [except (KeyboardInterrupt, EOFError): sys.exit(1)].
    [SystemExit] is not an [Exception] and passes through. *)
Definition try_except {A} (m : run A) : run A :=
  match m with
  | (ev, Raise (Exception type_name msg)) =>
      let '(ev', r) := error_exit (type_name +:+ ": " +:+ msg) in (ev ++ ev', r)
  | (ev, Raise _) => (ev, SysExit (ExitCode 1))
  | _ => m
  end.

(** The status the process ends with: [sys.exit(n)] gives [n], [sys.exit] of
    a message and an uncaught exception give 1. *)
Definition exit_status {A} (r : result A) : Z :=
  match r with
  | Return _ => 0
  | SysExit (ExitCode n) => n
  | SysExit (ExitMsg _) => 1
  | Raise _ => 1
  end.

(** ** Collaborators outside the repository *)

(** What [resolve_rosdep_key] returns:
    [(resolved_key, installer_key, default_installer_key)]; the first is
    [None] when the key has no rule and is among the ignored ones. *)
Definition rosdep_resolution : Type :=
  option (list string) * option string * option string.

(** One version of a parsed [CHANGELOG.rst], as [foreach_version] yields it. *)
Definition changelog_version (Date ChangeItem : Type) : Type :=
  string * Date * list ChangeItem.

Class Externals := {
  (** dates of [datetime] and the items of a changelog of [catkin_pkg] *)
  Date : Type;
  ChangeItem : Type;
  (** [bloom.generators.common.resolve_rosdep_key(key, os_name, os_version,
      ros_distro, ignored, retry)] *)
  resolve_rosdep_key :
    string → string → string → string → list string → bool → rosdep_resolution;
  (** [bloom.generators.common.default_fallback_resolver(key, peer_packages)] *)
  default_fallback_resolver : string → list string → run (list string);
  (** [bloom.util.maybe_continue(default, msg)]: the answer of the operator *)
  maybe_continue : string → string → bool;
  (** [parse_version(a) < parse_version(b)] of [pkg_resources] *)
  parse_version_lt : string → string → bool;
  (** [bloom.util.get_rfc_2822_date] *)
  get_rfc_2822_date : Date → string;
  (** [datetime.datetime.now()] *)
  datetime_now : Date;
  (** [to_unicode(item).splitlines()] for an item of a changelog *)
  item_lines : ChangeItem → list string;
  (** [str(m)] for a maintainer *)
  person_str : Person → string;
  (** the versions of the [CHANGELOG.rst] beside the manifest of a package,
      in the order of [foreach_version(reverse=True)]; [None] when there is
      no such file *)
  read_changelog : Package → option (list (changelog_version Date ChangeItem))
}.

Section Generator.
Context `{Externals}.

(** The call of the resolution service, recorded as an event. *)
Definition call_resolve_rosdep_key (key os_name os_version ros_distro : string)
    (ignored : list string) (retry : bool) : run rosdep_resolution :=
  emit (EvResolveRosdepKey key os_name os_version ros_distro ignored retry);;
  mret (resolve_rosdep_key key os_name os_version ros_distro ignored retry).

(** The prompt of the operator, recorded as an event. *)
Definition call_maybe_continue (default msg : string) : run bool :=
  emit (EvMaybeContinue default msg);;
  mret (maybe_continue default msg).

(** *** Dependency resolution *)

(** [missing_dep_resolver], lines 233-236. *)
Definition missing_dep_resolver (key : string) (peer_packages : list string)
    : run (list string) :=
  if bool_decide (key ∈ peer_packages) then mret [sanitize_package_name key]
  else default_fallback_resolver key peer_packages.

(** The loop of [resolve_dependencies], lines 251-260. *)
Fixpoint resolve_dependencies_loop (todo : list string)
    (os_name os_version ros_distro : string) (peer_packages : list string)
    (resolved_keys : dict string (list string))
    : run (dict string (list string)) :=
  match todo with
  | [] => mret resolved_keys
  | key :: todo =>
      '(resolved_key, installer_key, default_installer_key) ←
        call_resolve_rosdep_key key os_name os_version ros_distro
          peer_packages true;
      (* If resolve key fails use the key as the resolved key *)
      let resolved_key :=
        match resolved_key with
        | None => [key]
        | Some r => r
        end in
      resolve_dependencies_loop todo os_name os_version ros_distro
        peer_packages (PyDict.setitem resolved_keys key resolved_key)
  end.

(** [resolve_dependencies], lines 238-262.  The arguments [peer_packages]
    and [fallback_resolver] are received and not read. *)
Definition resolve_dependencies (keys : list Dependency)
    (os_name os_version : string) (ros_distro : option string)
    (peer_packages : option (list string))
    (fallback_resolver : option (string → list string → run (list string)))
    : run (dict string (list string)) :=
  let ros_distro := str_or ros_distro "melodic" in
  let resolved_keys := [] in
  let keys := dep_name <$> keys in
  let peer_packages := keys in
  resolve_dependencies_loop keys os_name os_version ros_distro peer_packages
    resolved_keys.

(** *** Changelog *)

(** [package.maintainers[0]] *)
Definition first_maintainer (package : Package) : run Person :=
  match pkg_maintainers package with
  | m :: _ => mret m
  | [] => raise (Exception "IndexError" "list index out of range")
  end.

(** The body of the loop of [get_changelogs], lines 217-225. *)
Definition changelog_entry (releaser_history : dict string (string * string))
    (maintainer : string * string)
    (v : changelog_version Date ChangeItem) : ChangelogEntry :=
  let '(version, date, changes) := v in
  let date_str := get_rfc_2822_date date in
  let changes_str :=
    concat ((λ item, (λ i, "  " +:+ i) <$> item_lines item) <$> changes) in
  let '(releaser, email) :=
    default maintainer (PyDict.get releaser_history version) in
  {| cl_version := version; cl_date := date_str;
     cl_changes := PyStr.join (String PyStr.LF "") changes_str;
     cl_releaser := releaser; cl_email := email |}.

(** [get_changelogs], lines 200-230. *)
Definition get_changelogs (package : Package)
    (releaser_history : option (dict string (string * string)))
    : run (list ChangelogEntry) :=
  releaser_history ←
    match releaser_history with
    | None =>
        warning ("No historical releaser history, using current maintainer name "
                 +:+ "and email for each versioned changelog entry.");;
        mret []
    | Some h => mret h
    end;
  match read_changelog package with
  | Some changelog =>
      m ← first_maintainer package;
      let maintainer := (person_name m, person_email m) in
      mret (changelog_entry releaser_history maintainer <$> changelog)
  | None =>
      warning ("No CHANGELOG.rst found for package '" +:+ pkg_name package
               +:+ "'");;
      mret []
  end.

(** The maintainers of [generate_substitutions_from_package], lines 387-391:
    the values of the keys ['Maintainer'] and ['Maintainers']. *)
Definition package_maintainers (package : Package) : run (string * string) :=
  let maintainers := person_str <$> pkg_maintainers package in
  match maintainers with
  | m0 :: _ => mret (m0, PyStr.join ", " maintainers)
  | [] => raise (Exception "IndexError" "list index out of range")
  end.

(** Lines 399-409: the sequence with the entry of the current version at its
    head when the history lacks that version. *)
Definition assemble_changelogs (package : Package)
    (changelogs : list ChangelogEntry) : run (list ChangelogEntry) :=
  if bool_decide (pkg_version package ∉ cl_version <$> changelogs) then
    m ← first_maintainer package;
    mret ({| cl_version := pkg_version package;
             cl_date := get_rfc_2822_date datetime_now;
             cl_changes :=
               "  * Autogenerated, no changelog for this version found in CHANGELOG.rst.";
             cl_releaser := person_name m;
             cl_email := person_email m |} :: changelogs)
  else mret changelogs.

(** Lines 419-425: the loop that looks for an entry newer than the release. *)
Fixpoint newer_entries_loop (package : Package)
    (changelogs : list ChangelogEntry) (bad_changelog : bool) : run bool :=
  match changelogs with
  | [] => mret bad_changelog
  | changelog :: rest =>
      if parse_version_lt (pkg_version package) (cl_version changelog) then
        error "";;
        error ("There is at least one changelog entry, '"
               +:+ cl_version changelog
               +:+ "', which has a newer version than the version of package '"
               +:+ pkg_name package +:+ "' being released, '"
               +:+ pkg_version package +:+ "'.");;
        newer_entries_loop package rest true
      else newer_entries_loop package rest bad_changelog
  end.

(** Lines 410-431: the checks of the assembled sequence and the gate. *)
Definition validate_changelogs (package : Package)
    (changelogs : list ChangelogEntry) : run unit :=
  let bad_changelog := false in
  first ←
    match changelogs with
    | c :: _ => mret c
    | [] => raise (Exception "IndexError" "list index out of range")
    end;
  bad_changelog ←
    (if bool_decide (pkg_version package ≠ cl_version first) then
       error "";;
       error ("The version of the first changelog entry '"
              +:+ pkg_version package
              +:+ "' is not the same as the version being currently released '"
              +:+ cl_version first +:+ "'.");;
       mret true
     else mret bad_changelog);
  newer_entries_loop package changelogs bad_changelog ≫= λ bad_changelog : bool,
  if bad_changelog then
    error ("This is almost certainly by mistake, you should really take a "
           +:+ "look at the changelogs for the package you are releasing.");;
    error "";;
    continue ← call_maybe_continue "n" "Continue anyways";
    if negb continue then sys_exit (ExitMsg "User quit.") else skip
  else skip.

(** The changelog of [generate_substitutions_from_package], lines 393-432:
    the value of the key ['changelogs']. *)
Definition package_changelogs (package : Package)
    (releaser_history : option (dict string (string * string)))
    : run (list ChangelogEntry) :=
  changelogs ← get_changelogs package releaser_history;
  (if bool_decide (changelogs ≠ [])
      && bool_decide (pkg_version package ∉ cl_version <$> changelogs) then
     warning "";;
     warning "A CHANGELOG.rst was found, but no changelog for this version was found.";;
     warning "You REALLY should have a entry (even a blank one) for each version of your package.";;
     warning ""
   else skip);;
  changelogs ← assemble_changelogs package changelogs;
  validate_changelogs package changelogs;;
  mret changelogs.

End Generator.

(** ** Multi-package aggregation *)

(** The signature of [get_subs] of the command: the package, then [os_name],
    [os_version], [ros_distro], [install_prefix] and [native]. *)
Definition get_subs_fn_t : Type :=
  Package → string → string → string → string → bool → run Subs.

(** The first loop of [merge_packages], lines 460-468. *)
Fixpoint merge_packages_collect (items : list (string * Package))
    (get_subs_fn : get_subs_fn_t)
    (os_name os_version ros_distro install_prefix : string) (native : bool)
    (all_subs : dict string Subs) : run (dict string Subs) :=
  match items with
  | [] => mret all_subs
  | (path, pkg) :: items =>
      all_subs ←
        try_except
          (subs ← get_subs_fn pkg os_name os_version ros_distro install_prefix
                    native;
           mret (PyDict.setitem all_subs (s_Name subs) subs));
      merge_packages_collect items get_subs_fn os_name os_version ros_distro
        install_prefix native all_subs
  end.

(** Lines 475-486: the header as the first map seeds it.  Its list of build
    dependencies is the list object of that map. *)
Definition seed_header (sub : Subs) : run RepoHeader :=
  maintainer ←
    match PyStr.index0 (s_Maintainers sub) with
    | Some c => mret c
    | None => raise (Exception "IndexError" "string index out of range")
    end;
  mret {| h_Package := sanitize_package_name "tesseract_core";
          h_DebianInc := s_DebianInc sub;
          h_format := s_format sub;
          h_InstallationPrefix := s_InstallationPrefix sub;
          h_Maintainer := maintainer;
          h_Maintainers := s_Maintainers sub;
          h_BuildDepends := s_BuildDepends sub;
          h_Homepage := s_Homepage sub;
          h_Copyright := s_Copyright sub;
          h_debhelper_version := s_debhelper_version sub;
          h_changelogs := s_changelogs sub;
          h_Distribution := s_Distribution sub |}.

(** Lines 488-490: a later map.  Both calls of [str.join] build a new string
    that is dropped; [list.extend] changes the list in place. *)
Definition extend_header (repo_header : RepoHeader) (sub : Subs) : RepoHeader :=
  let _ :=
    PyStr.join (h_Maintainers repo_header)
      (PyStr.chars (PyStr.join ", " (PyStr.chars (s_Maintainers sub)))) in
  let repo_header :=
    h_set_BuildDepends repo_header
      (h_BuildDepends repo_header ++ s_BuildDepends sub) in
  let _ :=
    PyStr.join (h_Copyright repo_header) (PyStr.chars (s_Copyright sub)) in
  repo_header.

(** The second loop of [merge_packages], lines 472-497; [None] is the empty
    [repo_header]. *)
Fixpoint merge_packages_header (items : list (string * Subs))
    (repo_header : option RepoHeader) (cnt : nat) : run (option RepoHeader) :=
  match items with
  | [] => mret repo_header
  | (pkg, sub) :: items =>
      repo_header ←
        try_except
          (if Nat.eqb 0 cnt then h ← seed_header sub; mret (Some h)
           else
             match repo_header with
             | Some h => mret (Some (extend_header h sub))
             | None => raise (Exception "KeyError" "'Maintainers'")
             end);
      merge_packages_header items repo_header (cnt + 1)
  end.

(** The list of the first map after the loop: [repo_header['BuildDepends']]
    was that same object while [extend] ran, so the first map sees every
    element added to it. *)
Definition alias_first (all_subs : dict string Subs) (shared : list string)
    : dict string Subs :=
  match all_subs with
  | (name, sub) :: rest => (name, s_set_BuildDepends sub shared) :: rest
  | [] => []
  end.

(** [merge_packages], lines 458-506.  Each map is taken to own its list of
    build dependencies, as the maps of [generate_substitutions_from_package]
    do ([sorted] builds a new list). *)
Definition merge_packages (pkgs_dict : dict string Package)
    (get_subs_fn : get_subs_fn_t)
    (os_name os_version ros_distro install_prefix : string) (native : bool)
    : run AggregatedView :=
  all_subs ←
    merge_packages_collect pkgs_dict get_subs_fn os_name os_version ros_distro
      install_prefix native [];
  repo_header ← merge_packages_header all_subs None 0;
  match repo_header with
  | None => raise (Exception "KeyError" "'BuildDepends'")
  | Some repo_header =>
      let all_subs := alias_first all_subs (h_BuildDepends repo_header) in
      (* Remove build depends in this repository *)
      let repo_header :=
        h_set_BuildDepends repo_header
          (filter (λ x, x ∉ PyDict.keys all_subs) (h_BuildDepends repo_header)) in
      (* Remove duplicates *)
      let repo_header :=
        h_set_BuildDepends repo_header
          (PyDict.keys (PyDict.fromkeys (h_BuildDepends repo_header))) in
      let all_subs : AggregatedView := prod_map id PkgEntry <$> all_subs in
      mret (PyDict.setitem all_subs (h_Package repo_header)
              (HeaderEntry repo_header))
  end.

(** ** The command *)

(** The parsed arguments of the command, [prepare_arguments], lines 67-83. *)
Record Args := {
  args_package_path : option string;
  args_place_template_files : bool;
  args_process_template_files : bool;
  args_os_name : option string;
  args_os_version : option string;
  args_ros_distro : option string;
  args_install_prefix : option string;
  args_native : bool
}.

(** The surroundings of one run of the command.  [place_template_files] and
    [process_template_files] work on the file system: only how their calls
    end is part of the embedding. *)
Class Surroundings := {
  (** [os.getcwd()] *)
  getcwd : string;
  (** [catkin_pkg.packages.find_packages(path)] *)
  find_packages : string → dict string Package;
  (** [create_default_installer_context().get_os_name_and_version()] *)
  get_os_name_and_version : string * string;
  (** [os.environ.get('ROS_DISTRO')] *)
  environ_ROS_DISTRO : option string;
  place_template_files : string → string → run unit;
  process_template_files : string → AggregatedView → run (list string)
}.

Section Command.
Context `{Surroundings}.

Definition call_place_template_files (path build_type : string) : run unit :=
  emit (EvPlaceTemplateFiles path build_type);;
  place_template_files path build_type.

Definition call_process_template_files (path : string)
    (subs : AggregatedView) : run (list string) :=
  emit (EvProcessTemplateFiles path subs);;
  process_template_files path subs.

(** Lines 174-175: [os.remove] of every template that was expanded. *)
Fixpoint remove_template_files (template_files : list string) : run unit :=
  match template_files with
  | [] => skip
  | template_file :: rest =>
      emit (EvRemove template_file);; remove_template_files rest
  end.

(** Lines 162-175 of [build_debian_pkg]; [None] is the local name
    [template_files] before its first assignment. *)
Definition expand_templates (_place_template_files _process_template_files : bool)
    (path build_type : string) (all_subs : AggregatedView) : run unit :=
  let template_files : option (list string) := None in
  (if _place_template_files then call_place_template_files path build_type
   else skip);;
  template_files ←
    (if _process_template_files then
       files ← call_process_template_files path all_subs; mret (Some files)
     else mret template_files);
  template_files ←
    (if negb _place_template_files && negb _process_template_files then
       call_place_template_files path build_type;;
       files ← call_process_template_files path all_subs; mret (Some files)
     else mret template_files);
  match template_files with
  | None =>
      raise (Exception "UnboundLocalError"
               "local variable 'template_files' referenced before assignment")
  | Some template_files => remove_template_files template_files
  end.

(** [build_debian_pkg], lines 126-180, with [args] given.  [get_subs_fn]
    stands for [get_subs_fn or get_subs]. *)
Definition build_debian_pkg (args : Args) (get_subs_fn : get_subs_fn_t)
    : run unit :=
  let package_path := str_or (args_package_path args) getcwd in
  let _place_template_files := args_place_template_files args in
  let _process_template_files := args_process_template_files args in
  let pkgs_dict := find_packages package_path in
  if Nat.eqb (length pkgs_dict) 0 then
    sys_exit (ExitMsg ("No packages found in path: '" +:+ package_path +:+ "'"))
  else
    (* if len(pkgs_dict) > 1: sys.exit("Multiple packages found, ...") is
       commented out in the source *)
    let '(os_name, os_version) := get_os_name_and_version in
    let ros_distro := default "indigo" environ_ROS_DISTRO in
    let os_name := str_or (args_os_name args) os_name in
    let os_version := str_or (args_os_version args) os_version in
    let ros_distro := str_or (args_ros_distro args) ros_distro in
    let install_prefix := str_or (args_install_prefix args) "/opt" in
    all_subs ←
      merge_packages pkgs_dict get_subs_fn os_name os_version ros_distro
        install_prefix (args_native args);
    let path := "" in
    let build_type := "cmake" in
    try_except
      (expand_templates _place_template_files _process_template_files path
         build_type all_subs).

(** [main], lines 182-190: [sys.exit(build_debian_pkg(args) or 0)]; the
    events of the run and the status the process ends with. *)
Definition main (args : Args) (get_subs_fn : get_subs_fn_t) : list event * Z :=
  let '(ev, r) := build_debian_pkg args get_subs_fn in (ev, exit_status r).

End Command.

(** ** Vocabulary of the statements *)

(** The error line that announces the gate. *)
Definition mistake_text : string :=
  "This is almost certainly by mistake, you should really take a "
  +:+ "look at the changelogs for the package you are releasing.".

(** Some entry is newer than the release, by the order of [parse_version]. *)
Definition has_newer `{Externals} (package : Package)
    (changelogs : list ChangelogEntry) : bool :=
  existsb (λ entry, parse_version_lt (pkg_version package) (cl_version entry))
    changelogs.

(** The entry that stands for a release the history does not mention. *)
Definition synthesized_entry `{Externals} (package : Package) (m : Person)
    : ChangelogEntry :=
  {| cl_version := pkg_version package;
     cl_date := get_rfc_2822_date datetime_now;
     cl_changes :=
       "  * Autogenerated, no changelog for this version found in CHANGELOG.rst.";
     cl_releaser := person_name m;
     cl_email := person_email m |}.

(** The list the header holds when the loop of [merge_packages] ends: the
    build dependencies of every map, in the order of the maps. *)
Definition merged_build_depends (all_subs : dict string Subs) : list string :=
  List.concat (s_BuildDepends <$> PyDict.values all_subs).

(** The header holds what every map brings: its maintainers string and its
    license text as parts of the header's, its build dependencies as
    elements of the header's list. *)
Definition header_holds_all (all_subs : dict string Subs) (h : RepoHeader)
    : Prop :=
  ∀ sub, sub ∈ PyDict.values all_subs →
    PyStr.contains (s_Maintainers sub) (h_Maintainers h)
    ∧ (∀ d, d ∈ s_BuildDepends sub → d ∈ h_BuildDepends h)
    ∧ PyStr.contains (s_Copyright sub) (h_Copyright h).

Ltac run_unfold :=
  unfold error_exit, error, warning, call_maybe_continue,
    call_resolve_rosdep_key, emit, sys_exit, raise, skip, mret, run_mret,
    mbind, run_mbind, run_bind.

(** ** Concrete surroundings, used by the examples *)

Module Scenario.

Definition digit (c : ascii) : option N :=
  let n := N_of_ascii c in
  if (48 <=? n)%N && (n <=? 57)%N then Some (n - 48)%N else None.

(** The numbers of a version written as dotted numbers; [cur] is the number
    being read. *)
Fixpoint parse_release (cur : N) (s : string) : list N :=
  match s with
  | "" => [cur]
  | String c r =>
      match digit c with
      | Some d => parse_release (cur * 10 + d)%N r
      | None => cur :: parse_release 0%N r
      end
  end.

(** The order of two releases, the shorter one padded with zeros. *)
Fixpoint release_lt (a b : list N) {struct b} : bool :=
  match a, b with
  | _, [] => false
  | [], y :: b' => (0 <? y)%N || release_lt [] b'
  | x :: a', y :: b' => (x <? y)%N || ((x =? y)%N && release_lt a' b')
  end.

Definition version_lt (a b : string) : bool :=
  release_lt (parse_release 0%N a) (parse_release 0%N b).

(** Collaborators with a resolution table [rosdep], an operator who always
    gives [answer], and one changelog for every package. *)
Definition externals (rosdep : string → option (list string)) (answer : bool)
    (changelog : option (list (string * string * list string))) : Externals :=
  {| Date := string;
     ChangeItem := string;
     resolve_rosdep_key := λ key _ _ _ _ _,
       match rosdep key with
       | Some r => (Some r, Some "apt", Some "apt")
       | None => (None, None, None)
       end;
     default_fallback_resolver := λ key _,
       error_exit ("Failed to resolve rosdep key '" +:+ key +:+ "', aborting.");
     maybe_continue := λ _ _, answer;
     parse_version_lt := version_lt;
     get_rfc_2822_date := id;
     datetime_now := "Tue, 03 Nov 2026 12:00:00 -0000";
     item_lines := λ item, [item];
     person_str := λ m, person_name m +:+ " <" +:+ person_email m +:+ ">";
     read_changelog := λ _, changelog |}.

Definition dep (name : string) : Dependency :=
  {| dep_name := name; dep_version_lt := None; dep_version_lte := None;
     dep_version_eq := None; dep_version_gte := None; dep_version_gt := None;
     dep_evaluated_condition := None |}.

Definition ann : Person :=
  {| person_name := "Ann"; person_email := "ann@example.org" |}.
Definition bob : Person :=
  {| person_name := "Bob"; person_email := "bob@example.org" |}.

Definition package (name version : string) (maintainers : list Person)
    : Package :=
  {| pkg_name := name; pkg_version := version; pkg_description := "";
     pkg_maintainers := maintainers |}.

(** A substitution map with the given name, maintainers, build dependencies
    and license text. *)
Definition subs (name maintainer maintainers : string)
    (build_depends : list string) (copyright : string) : Subs :=
  {| s_Name := name; s_Version := "1.2.0"; s_Description := "";
     s_Homepage := ""; s_DebianInc := "-0"; s_format := "quilt";
     s_Package := sanitize_package_name name; s_InstallationPrefix := "/opt";
     s_Depends := []; s_BuildDepends := build_depends; s_Replaces := [];
     s_Conflicts := []; s_pass_install_scripts := None;
     s_Distribution := "bionic"; s_Date := ""; s_YYYY := "";
     s_Maintainer := maintainer; s_Maintainers := maintainers;
     s_changelogs := []; s_debhelper_version := 9;
     s_Copyright := copyright |}.

(** Two packages of one release: [alpha] of Ann and [beta] of Bob, each
    with the other among its build dependencies. *)
Definition alpha_subs : Subs :=
  subs "alpha" "Ann <ann@example.org>" "Ann <ann@example.org>"
    ["beta"; "cmake"] "MIT".
Definition beta_subs : Subs :=
  subs "beta" "Bob <bob@example.org>" "Bob <bob@example.org>"
    ["alpha"; "boost"; "cmake"] "BSD".

Definition two_packages : dict string Package :=
  [("src/alpha", package "alpha" "1.2.0" [ann]);
   ("src/beta", package "beta" "1.2.0" [bob])].

Definition get_subs : get_subs_fn_t := λ pkg _ _ _ _ _,
  if String.eqb (pkg_name pkg) "alpha" then mret alpha_subs else mret beta_subs.

(** A work space holding [pkgs], where placing and processing the templates
    succeed. *)
Definition surroundings (pkgs : dict string Package) : Surroundings :=
  {| getcwd := "/ws";
     find_packages := λ _, pkgs;
     get_os_name_and_version := ("ubuntu", "bionic");
     environ_ROS_DISTRO := Some "melodic";
     place_template_files := λ _ _, skip;
     process_template_files := λ _ _, mret ["debian/control_header.em"] |}.

Definition no_args : Args :=
  {| args_package_path := None; args_place_template_files := false;
     args_process_template_files := false; args_os_name := None;
     args_os_version := None; args_ros_distro := None;
     args_install_prefix := None; args_native := false |}.

End Scenario.

(** ** Further code of the generator *)

(** *** Paths and sorting *)

Module PyPath.

(** The text of [p] up to and including its last ["/"], and the text after
    it: [p[:i]] and [p[i:]] for [i = p.rfind('/') + 1]. *)
Fixpoint rsplit_slash (p : string) : string * string :=
  match p with
  | "" => ("", "")
  | String c r =>
      let '(head, tail) := rsplit_slash r in
      if Ascii.eqb c "/" then
        if PyStr.has_char "/" r then (String c head, tail) else (String c "", r)
      else
        if PyStr.has_char "/" r then (String c head, tail) else ("", String c r)
  end.

(** [s.rstrip('/')] *)
Fixpoint rstrip_slash (s : string) : string :=
  match s with
  | "" => ""
  | String c r =>
      match rstrip_slash r with
      | "" => if Ascii.eqb c "/" then "" else String c ""
      | r' => String c r'
      end
  end.

(** [posixpath.dirname(p)]: the head, without its trailing slashes unless it
    is made of slashes only. *)
Definition dirname (p : string) : string :=
  let head := (rsplit_slash p).1 in
  match rstrip_slash head with
  | "" => head
  | stripped => stripped
  end.

(** [posixpath.basename(p)] *)
Definition basename (p : string) : string := (rsplit_slash p).2.

(** [s.endswith(c)] for one character. *)
Fixpoint ends_with_char (c : ascii) (s : string) : bool :=
  match s with
  | "" => false
  | String d "" => Ascii.eqb c d
  | String _ r => ends_with_char c r
  end.

(** [posixpath.join(a, b)] *)
Definition join (a b : string) : string :=
  match b with
  | String "/" _ => b
  | _ =>
      if (String.length a =? 0)%nat || ends_with_char "/" a then a +:+ b
      else a +:+ "/" +:+ b
  end.

End PyPath.

(** The order of [str]: by code points, a proper prefix first. *)
Definition str_le (a b : string) : Prop := String.leb a b = true.

#[global] Instance str_le_dec : RelDecision str_le.
Proof. intros a b. unfold str_le. apply _. Defined.

(** [sorted(set(l))]: the order in which the set is walked does not show in
    the sorted list. *)
Definition sorted_set (l : list string) : list string :=
  merge_sort str_le (remove_dups l).

(** [c * n] for one character. *)
Fixpoint str_repeat (c : ascii) (n : nat) : string :=
  match n with
  | 0 => ""
  | S n => String c (str_repeat c n)
  end.

(** [str(n)] for an integer. *)
Definition str_of_int (n : Z) : string :=
  DecimalString.NilZero.string_of_int (Z.to_int n).

(** *** The rest of the package manifest *)

Record Url := { url_type : string; url_str : string }.

(** A license of the manifest; [None] when it has no [file] attribute or the
    attribute is [None]. *)
Record License := { license_file : option string }.

(** The dependency lists of a manifest. *)
Record DependencyLists := {
  run_depends : list Dependency;
  buildtool_export_depends : list Dependency;
  build_depends : list Dependency;
  buildtool_depends : list Dependency;
  test_depends : list Dependency;
  replaces : list Dependency;
  conflicts : list Dependency
}.

(** What [generate_substitutions_from_package] reads beside the attributes
    of [Package], the resolution service and the changelog. *)
Class PackageSource := {
  (** [package.urls], with [str(url)] *)
  pkg_urls : Package → list Url;
  (** the dependency lists of the package once
      [evaluate_package_conditions(package, ros_distro)] has run *)
  evaluate_package_conditions : Package → string → DependencyLists;
  (** [package.licenses] *)
  pkg_licenses : Package → list License;
  (** [package.get_build_type()] *)
  pkg_get_build_type : Package → string;
  (** [package.filename] *)
  pkg_filename : Package → string;
  (** [os.path.isfile] of the [setup.cfg] beside the manifest *)
  setup_cfg_isfile : Package → bool;
  (** [setup_cfg.has_option(section, option)] once that file is read *)
  setup_cfg_has_option : Package → string → string → bool;
  (** [os.path.exists(path)] *)
  path_exists : string → bool;
  (** [open(path, 'r').read()] *)
  read_file : string → run string;
  (** [stamp.strftime(format)] for [stamp = datetime.datetime.now(tz.tzlocal())] *)
  stamp_strftime : string → string;
  (** [repr(key)] for a [str], as [str(KeyError(key))] shows it *)
  repr_str : string → string
}.

(** *** Formatting of the dependencies *)

(** The table [versions] of [format_depends], lines 155-161. *)
Definition versions : dict string string :=
  [("version_lt", "<<"); ("version_lte", "<="); ("version_eq", "=");
   ("version_gte", ">="); ("version_gt", ">>")].

(** [getattr(d, k, None)] for the names of the table. *)
Definition dep_getattr (d : Dependency) (k : string) : option string :=
  if String.eqb k "version_lt" then dep_version_lt d
  else if String.eqb k "version_lte" then dep_version_lte d
  else if String.eqb k "version_eq" then dep_version_eq d
  else if String.eqb k "version_gte" then dep_version_gte d
  else if String.eqb k "version_gt" then dep_version_gt d
  else None.

(** Lines 165-173: what one resolved name of [d] adds to [formatted]. *)
Definition format_resolved_dep (d : Dependency) (resolved_dep : string)
    : list string :=
  let version_depends :=
    filter (λ k, is_Some (dep_getattr d k)) (PyDict.keys versions) in
  match version_depends with
  | [] => [resolved_dep]
  | _ =>
      (λ v, resolved_dep +:+ " (" +:+ default "" (PyDict.get versions v)
            +:+ " " +:+ default "" (dep_getattr d v) +:+ ")")
        <$> version_depends
  end.

Section Formatting.
Context `{PackageSource}.

(** [resolved_deps[key]] *)
Definition resolved_getitem (resolved_deps : dict string (list string))
    (key : string) : run (list string) :=
  match PyDict.get resolved_deps key with
  | Some resolved => mret resolved
  | None => raise (Exception "KeyError" (repr_str key))
  end.

(** The loop of [format_depends], lines 163-173. *)
Fixpoint format_depends_loop (depends : list Dependency)
    (resolved_deps : dict string (list string)) (formatted : list string)
    : run (list string) :=
  match depends with
  | [] => mret formatted
  | d :: depends =>
      resolved ← resolved_getitem resolved_deps (dep_name d);
      format_depends_loop depends resolved_deps
        (formatted ++ List.concat (format_resolved_dep d <$> resolved))
  end.

(** [format_depends], lines 154-174. *)
Definition format_depends (depends : list Dependency)
    (resolved_deps : dict string (list string)) : run (list string) :=
  format_depends_loop depends resolved_deps [].

(** The lookups of one loop of [summarize_dependency_mapping],
    lines 144-145 and 150-151. *)
Fixpoint summarize_keys (keys : list string)
    (resolved_deps : dict string (list string)) : run unit :=
  match keys with
  | [] => skip
  | key :: keys =>
      resolved_getitem resolved_deps key;; summarize_keys keys resolved_deps
  end.

(** [summarize_dependency_mapping], lines 131-151: its lines go to [info];
    what is left are the lookups in [resolved_deps]. *)
Definition summarize_dependency_mapping (deps build_deps : list Dependency)
    (resolved_deps : dict string (list string)) : run unit :=
  if (length deps =? 0)%nat && (length build_deps =? 0)%nat then skip
  else
    (if negb (length deps =? 0)%nat
     then summarize_keys (dep_name <$> deps) resolved_deps else skip);;
    (if negb (length build_deps =? 0)%nat
     then summarize_keys (dep_name <$> build_deps) resolved_deps else skip).

End Formatting.

(** *** The substitutions of one package *)

Section Substitutions.
Context `{Externals} `{PackageSource}.

(** [dep.evaluated_condition is not False] *)
Definition condition_holds (dep : Dependency) : bool :=
  match dep_evaluated_condition dep with
  | Some false => false
  | _ => true
  end.

(** Lines 354-378: the build type; the value of ['pass_install_scripts'], or
    [None] when the key is not set. *)
Definition build_type_substitutions (package : Package) : run (option bool) :=
  let build_type := pkg_get_build_type package in
  if String.eqb build_type "catkin" then mret None
  else if String.eqb build_type "cmake" then mret None
  else if String.eqb build_type "ament_cmake" then mret None
  else if String.eqb build_type "ament_python" then
    (* Don't set the install-scripts flag if it's already set in setup.cfg. *)
    let pass_install_scripts := true in
    let pass_install_scripts :=
      if setup_cfg_isfile package then
        if setup_cfg_has_option package "install" "install-scripts"
           || setup_cfg_has_option package "install" "install_scripts"
        then false else pass_install_scripts
      else pass_install_scripts in
    mret (Some pass_install_scripts)
  else
    error_exit ("Build type '" +:+ build_type
                +:+ "' is not supported by this version of bloom.").

(** Lines 440-449: the loop over the licenses. *)
Fixpoint read_licenses (package : Package) (todo : list License)
    (licenses : list string) : run (list string) :=
  match todo with
  | [] => mret licenses
  | l :: todo =>
      match license_file l with
      | Some file =>
          let license_file :=
            PyPath.join (PyPath.dirname (pkg_filename package)) file in
          if negb (path_exists license_file) then
            error_exit ("License file '" +:+ license_file +:+ "' is not found.")
          else
            license_text ← read_file license_file;
            let license_text :=
              if negb (PyPath.ends_with_char PyStr.LF license_text)
              then license_text +:+ String PyStr.LF ""
              else license_text in
            read_licenses package todo (licenses ++ [license_text])
      | None => read_licenses package todo licenses
      end
  end.

(** The separator of the license texts, line 439. *)
Definition license_separator : string :=
  String PyStr.LF "" +:+ str_repeat "=" 80 +:+ String PyStr.LF (String PyStr.LF "").

(** [generate_substitutions_from_package], lines 292-455.  The closing
    [convertToUnicode] leaves the values of the map as they are: they are
    [str], [int], [bool], lists and tuples of [str]. *)
Definition generate_substitutions_from_package (package : Package)
    (os_name os_version ros_distro installation_prefix : string) (deb_inc : Z)
    (peer_packages : option (list string))
    (releaser_history : option (dict string (string * string)))
    (fallback_resolver : option (string → list string → run (list string)))
    (native : bool) : run Subs :=
  let peer_packages := default [] peer_packages in
  (* Name, Version, Description *)
  let Name := pkg_name package in
  let Version := pkg_version package in
  let Description := format_description (pkg_description package) in
  (* Websites *)
  let websites :=
    url_str <$> filter (λ url, url_type url = "website") (pkg_urls package) in
  let homepage := default "" (head websites) in
  (if String.eqb homepage "" then warning "No homepage set, defaulting to ''"
   else skip);;
  (* Debian Increment Number *)
  let DebianInc := if native then "" else "-" +:+ str_of_int deb_inc in
  (* Debian Package Format *)
  let format := if native then "native" else "quilt" in
  (* Package name *)
  let Package := sanitize_package_name (pkg_name package) in
  (* Resolve dependencies *)
  let lists := evaluate_package_conditions package ros_distro in
  let depends :=
    filter (λ dep, condition_holds dep = true)
      (run_depends lists ++ buildtool_export_depends lists) in
  let build_depends :=
    filter (λ dep, condition_holds dep = true)
      (build_depends lists ++ buildtool_depends lists ++ test_depends lists) in
  let unresolved_keys :=
    filter (λ dep, condition_holds dep = true)
      (depends ++ build_depends ++ replaces lists ++ conflicts lists) in
  resolved_deps ←
    resolve_dependencies unresolved_keys os_name os_version (Some ros_distro)
      (Some (peer_packages
             ++ (dep_name <$> (replaces lists ++ conflicts lists))))
      fallback_resolver;
  Depends ← format_depends depends resolved_deps;
  let Depends := sorted_set Depends in
  BuildDepends ← format_depends build_depends resolved_deps;
  let BuildDepends := sorted_set BuildDepends in
  Replaces ← format_depends (replaces lists) resolved_deps;
  let Replaces := sorted_set Replaces in
  Conflicts ← format_depends (conflicts lists) resolved_deps;
  let Conflicts := sorted_set Conflicts in
  (* Build-type specific substitutions. *)
  pass_install_scripts ← build_type_substitutions package;
  (* Set the distribution *)
  let Distribution := os_version in
  (* Use the time stamp to set the date strings *)
  let Date := stamp_strftime "%a, %d %b %Y %T %z" in
  let YYYY := stamp_strftime "%Y" in
  (* Maintainers *)
  '(Maintainer, Maintainers) ← package_maintainers package;
  (* Changelog *)
  changelogs ← package_changelogs package releaser_history;
  (* Use debhelper version 7 for oneric, otherwise 9 *)
  let debhelper_version := if bool_decide (os_version ∈ ["oneiric"]) then 7%Z else 9%Z in
  (* Summarize dependencies *)
  summarize_dependency_mapping depends build_depends resolved_deps;;
  (* Copyright *)
  licenses ← read_licenses package (pkg_licenses package) [];
  let Copyright := PyStr.join license_separator licenses in
  mret {| s_Name := Name; s_Version := Version; s_Description := Description;
          s_Homepage := homepage; s_DebianInc := DebianInc; s_format := format;
          s_Package := Package; s_InstallationPrefix := installation_prefix;
          s_Depends := Depends; s_BuildDepends := BuildDepends;
          s_Replaces := Replaces; s_Conflicts := Conflicts;
          s_pass_install_scripts := pass_install_scripts;
          s_Distribution := Distribution; s_Date := Date; s_YYYY := YYYY;
          s_Maintainer := Maintainer; s_Maintainers := Maintainers;
          s_changelogs := changelogs; s_debhelper_version := debhelper_version;
          s_Copyright := Copyright |}.

(** [get_subs] of the command, lines 86-94 of
    [src/repo_debian_generator_cmd.py]. *)
Definition get_subs : get_subs_fn_t :=
  λ pkg os_name os_version ros_distro install_prefix native,
    generate_substitutions_from_package pkg os_name os_version ros_distro
      install_prefix 0 None None None native.

End Substitutions.

(** *** Matching of branches *)

Module PyStr2.

(** [s.startswith(p)] *)
Definition startswith (p s : string) : bool :=
  match PyStr.strip_prefix p s with
  | Some _ => true
  | None => false
  end.

(** [s.split('/', 2)[-1]] *)
Definition split2_last (s : string) : string :=
  match PyStr.find_sep "/" s with
  | None => s
  | Some (_, r1) =>
      match PyStr.find_sep "/" r1 with
      | None => r1
      | Some (_, r2) => r2
      end
  end.

(** The text after the last of the occurrences of [sep] that [s.split(sep)]
    finds from here on, if it finds one; [skip] is the number of characters
    of the occurrence under the scan still to be passed. *)
Fixpoint last_piece (sep : string) (skip : nat) (s : string) : option string :=
  match s with
  | "" => None
  | String c r =>
      match skip with
      | S k => last_piece sep k r
      | 0 =>
          match PyStr.strip_prefix sep s with
          | Some rest =>
              Some (default rest (last_piece sep (String.length sep - 1) r))
          | None => last_piece sep 0 r
          end
      end
  end.

(** [s.split(sep)[-1]] for a non-empty [sep]. *)
Definition split_last (sep s : string) : string :=
  default s (last_piece sep 0 s).

Fixpoint lstrip_char (c : ascii) (s : string) : string :=
  match s with
  | "" => ""
  | String d r => if Ascii.eqb d c then lstrip_char c r else s
  end.

Fixpoint rstrip_char (c : ascii) (s : string) : string :=
  match s with
  | "" => ""
  | String d r =>
      match rstrip_char c r with
      | "" => if Ascii.eqb d c then "" else String d ""
      | r' => String d r'
      end
  end.

(** [s.strip(c)] for one character. *)
Definition strip_char (c : ascii) (s : string) : string :=
  rstrip_char c (lstrip_char c s).

End PyStr2.

(** [l.remove(x)] when [x] is in [l]: the first occurrence goes. *)
Fixpoint list_remove_first (x : string) (l : list string) : list string :=
  match l with
  | [] => []
  | y :: r => if decide (y = x) then r else y :: list_remove_first x r
  end.

(** Lines 592-596 of [match_branches_with_prefix]: the names that match. *)
Fixpoint matching_branches (prefix : string) (existing_branches : list string)
    (branches : list string) : list string :=
  match existing_branches with
  | [] => branches
  | branch :: rest =>
      let branch :=
        if PyStr2.startswith "remotes/origin/" branch
        then PyStr2.split2_last branch else branch in
      matching_branches prefix rest
        (if PyStr2.startswith prefix branch then branches ++ [branch]
         else branches)
  end.

(** Line 603: the branch stands for no package of upstream. *)
Definition not_a_package (prefix : string) (pkg_names : list string)
    (branch : string) : bool :=
  bool_decide
    (PyStr2.strip_char "/" (PyStr2.split_last prefix branch) ∉ pkg_names).

(** Lines 602-604: [for branch in branches: ... branches.remove(branch)].
    The iterator of a list holds a position [i]; each round reads
    [branches[i]] from the list as it is then and moves to [i + 1].  The list
    has at most [fuel] elements left to visit. *)
Fixpoint prune_loop (fuel : nat) (prefix : string) (pkg_names : list string)
    (branches : list string) (i : nat) : list string :=
  match fuel with
  | 0 => branches
  | S fuel =>
      match branches !! i with
      | None => branches
      | Some branch =>
          if not_a_package prefix pkg_names branch
          then prune_loop fuel prefix pkg_names
                 (list_remove_first branch branches) (i + 1)
          else prune_loop fuel prefix pkg_names branches (i + 1)
      end
  end.

Section Branches.
(** [list(set(l))]: the elements of [l], each once, in the order of the set. *)
Variable list_of_set : list string → list string.
(** [get_package_data('upstream')[0]] inside [with inbranch('upstream')]. *)
Variable upstream_pkg_names : run (list string).

(** [match_branches_with_prefix], lines 586-605; [get_branches] is the list
    that both calls of [get_branches()] give. *)
Definition match_branches_with_prefix (prefix : string)
    (get_branches : list string) (prune : bool) : run (list string) :=
  let branches := [] in
  (* Match branches *)
  let existing_branches := get_branches in
  let branches := matching_branches prefix existing_branches branches in
  let branches := list_of_set branches in
  if prune then
    (* Prune listed branches by packages in latest upstream *)
    pkg_names ← upstream_pkg_names;
    match branches, prefix with
    | _ :: _, "" => raise (Exception "ValueError" "empty separator")
    | _, _ => mret (prune_loop (length branches) prefix pkg_names branches 0)
    end
  else mret branches.

End Branches.

(** *** Conversion of the values of a map *)

(** The values that [convertToUnicode] tells apart; [POther] is a value of
    any other type, with the text of [str(type(obj))]. *)
Inductive pyobj :=
| PStr (s : string)
| PBytes (b : string)
| PList (l : list pyobj)
| PNone
| PTuple (l : list pyobj)
| PInt (n : Z)
| PBool (b : bool)
| POther (type_text : string).

Section Conversion.
(** [obj.decode('utf8')] for [bytes]. *)
Variable decode_utf8 : string → run string.

(** [convertToUnicode] of [src/repo_debian_generator.py], lines 265-289, on
    Python 3. *)
Fixpoint convertToUnicode (obj : pyobj) : run pyobj :=
  let each :=
    fix each (l : list pyobj) : run (list pyobj) :=
      match l with
      | [] => mret []
      | val :: rest =>
          val ← convertToUnicode val;
          rest ← each rest;
          mret (val :: rest)
      end in
  match obj with
  | PBytes b => s ← decode_utf8 b; mret (PStr s)
  | PStr _ => mret obj
  | PList l => l ← each l; mret (PList l)
  | PNone => mret PNone
  | PTuple l => l ← each l; mret (PTuple l)
  | PInt _ | PBool _ => mret obj
  | POther type_text =>
      raise (Exception "RuntimeError" ("need to deal with type " +:+ type_text))
  end.

(** [convertToUnicode] of [src/repo_debian_generator_cmd.py], lines 101-124:
    the same tests, and no [raise] behind them. *)
Fixpoint convertToUnicode_cmd (obj : pyobj) : run pyobj :=
  let each :=
    fix each (l : list pyobj) : run (list pyobj) :=
      match l with
      | [] => mret []
      | val :: rest =>
          val ← convertToUnicode_cmd val;
          rest ← each rest;
          mret (val :: rest)
      end in
  match obj with
  | PBytes b => s ← decode_utf8 b; mret (PStr s)
  | PStr _ => mret obj
  | PList l => l ← each l; mret (PList l)
  | PNone => mret PNone
  | PTuple l => l ← each l; mret (PTuple l)
  | PInt _ | PBool _ => mret obj
  | POther _ => mret PNone
  end.

End Conversion.

(** The values of the map of a package as [convertToUnicode] meets them. *)
Definition pyobj_of_strings (l : list string) : pyobj := PList (PStr <$> l).

Definition pyobj_of_changelog (c : ChangelogEntry) : pyobj :=
  PTuple [PStr (cl_version c); PStr (cl_date c); PStr (cl_changes c);
          PStr (cl_releaser c); PStr (cl_email c)].

Definition subs_values (s : Subs) : list pyobj :=
  [PStr (s_Name s); PStr (s_Version s); PStr (s_Description s);
   PStr (s_Homepage s); PStr (s_DebianInc s); PStr (s_format s);
   PStr (s_Package s); PStr (s_InstallationPrefix s);
   pyobj_of_strings (s_Depends s); pyobj_of_strings (s_BuildDepends s);
   pyobj_of_strings (s_Replaces s); pyobj_of_strings (s_Conflicts s)]
  ++ (match s_pass_install_scripts s with
      | Some b => [PBool b]
      | None => []
      end)
  ++ [PStr (s_Distribution s); PStr (s_Date s); PStr (s_YYYY s);
      PStr (s_Maintainer s); PStr (s_Maintainers s);
      PList (pyobj_of_changelog <$> s_changelogs s);
      PInt (s_debhelper_version s); PStr (s_Copyright s)].

(** *** Concrete package sources, used by the examples *)

Module Cases.

Definition no_lists : DependencyLists :=
  {| run_depends := []; buildtool_export_depends := []; build_depends := [];
     buildtool_depends := []; test_depends := []; replaces := [];
     conflicts := [] |}.

(** A dependency with the given outcome of its condition and constraints
    [>= gte] and [<< lt]. *)
Definition dep (name : string) (condition : option bool)
    (gte lt : option string) : Dependency :=
  {| dep_name := name; dep_version_lt := lt; dep_version_lte := None;
     dep_version_eq := None; dep_version_gte := gte; dep_version_gt := None;
     dep_evaluated_condition := condition |}.

(** A source where every package has the build type [build_type], the
    dependency lists [lists] and the licenses [licenses], in a file system
    that holds the files [files]. *)
Definition source (build_type : string) (lists : DependencyLists)
    (licenses : list License) (files : dict string string) : PackageSource :=
  {| pkg_urls := λ _,
       [ {| url_type := "bugtracker"; url_str := "https://example.org/issues" |};
         {| url_type := "website"; url_str := "https://example.org" |} ];
     evaluate_package_conditions := λ _ _, lists;
     pkg_licenses := λ _, licenses;
     pkg_get_build_type := λ _, build_type;
     pkg_filename := λ pkg, "/ws/src/" +:+ pkg_name pkg +:+ "/package.xml";
     setup_cfg_isfile := λ _, false;
     setup_cfg_has_option := λ _ _ _, false;
     path_exists := λ path, bool_decide (is_Some (PyDict.get files path));
     read_file := λ path,
       match PyDict.get files path with
       | Some text => mret text
       | None => raise (Exception "FileNotFoundError" path)
       end;
     stamp_strftime := λ format,
       if String.eqb format "%Y" then "2026"
       else "Tue, 03 Nov 2026 12:00:00 +0000";
     repr_str := λ key, "'" +:+ key +:+ "'" |}.

(** The resolution service knows [boost] and nothing else; the operator
    declines; the package has no changelog file. *)
Definition externals : Externals :=
  Scenario.externals
    (λ key, if String.eqb key "boost" then Some ["libboost-all-dev"] else None)
    false None.

Definition alpha : Package := Scenario.package "alpha" "1.2.0" [Scenario.ann].

(** [list(set(l))] in the order of first occurrence. *)
Definition list_of_set (l : list string) : list string :=
  PyDict.keys (PyDict.fromkeys l).

(** Dependency lists with versioned, duplicated and inactive entries. *)
Definition some_lists : DependencyLists :=
  {| run_depends :=
       [dep "boost" (Some true) (Some "1.58") (Some "2");
        dep "foo_bar" None None None;
        dep "win32" (Some false) None None];
     buildtool_export_depends := [];
     build_depends := [dep "cmake" None None None; dep "boost" None None None];
     buildtool_depends := [dep "cmake" (Some true) None None];
     test_depends := [];
     replaces := [dep "old_alpha" (Some true) None None];
     conflicts := [] |}.

(** Lists whose only entry is a replaces entry with a false condition. *)
Definition inactive_replaces : DependencyLists :=
  {| run_depends := []; buildtool_export_depends := []; build_depends := [];
     buildtool_depends := []; test_depends := [];
     replaces := [dep "old_alpha" (Some false) None None];
     conflicts := [] |}.

(** A package without maintainers. *)
Definition orphan : Package := Scenario.package "orphan" "0.1.0" [].

End Cases.

(** *** Vocabulary of the further statements *)

(** The strings of the dependencies [depends] under the mapping
    [resolved_deps]: for each dependency in turn, for each of its resolved
    names in turn, what [format_resolved_dep] gives. *)
Definition formatted_of (depends : list Dependency)
    (resolved_deps : dict string (list string)) : list string :=
  List.concat
    ((λ d, List.concat
             (format_resolved_dep d
                <$> default [] (PyDict.get resolved_deps (dep_name d))))
       <$> depends).

(** What the service makes of one key: its answer, or the key. *)
Definition resolution_of `{Externals} (os_name os_version ros_distro : string)
    (ignored : list string) (key : string) : list string :=
  default [key]
    (resolve_rosdep_key key os_name os_version ros_distro ignored true).1.1.

(** The constraint [name (op value)] of a control file. *)
Definition constraint (name op value : string) : string :=
  name +:+ " (" +:+ op +:+ " " +:+ value +:+ ")".

(** The number of constraints that a dependency declares. *)
Definition constraint_count (d : Dependency) : nat :=
  length (omap id [dep_version_lt d; dep_version_lte d; dep_version_eq d;
                   dep_version_gte d; dep_version_gt d]).

(** The dependencies of the manifest whose condition holds, by role: lines
    326-328, 329-331 and 333-335. *)
Definition active_depends (lists : DependencyLists) : list Dependency :=
  filter (λ dep, condition_holds dep = true)
    (run_depends lists ++ buildtool_export_depends lists).

Definition active_build_depends (lists : DependencyLists) : list Dependency :=
  filter (λ dep, condition_holds dep = true)
    (build_depends lists ++ buildtool_depends lists ++ test_depends lists).

Definition unresolved_keys (lists : DependencyLists) : list Dependency :=
  filter (λ dep, condition_holds dep = true)
    (active_depends lists ++ active_build_depends lists ++ replaces lists
     ++ conflicts lists).

(** The build types that the generator knows. *)
Definition supported_build_types : list string :=
  ["catkin"; "cmake"; "ament_cmake"; "ament_python"].

(** The line that reports a build type the generator does not know. *)
Definition unsupported_text (build_type : string) : string :=
  "Build type '" +:+ build_type
  +:+ "' is not supported by this version of bloom.".

(** An event of template handling. *)
Definition template_event (e : event) : bool :=
  match e with
  | EvPlaceTemplateFiles _ _ | EvProcessTemplateFiles _ _ | EvRemove _ => true
  | _ => false
  end.

(** The path at which the file of a license is looked for, line 442. *)
Definition license_path `{PackageSource} (package : Package) (file : string)
    : string :=
  PyPath.join (PyPath.dirname (pkg_filename package)) file.

(** The line that reports a license file that does not exist. *)
Definition license_missing_text (path : string) : string :=
  "License file '" +:+ path +:+ "' is not found.".

(** The maps that [get_subs_fn] returns for the packages [items], in their
    order. *)
Definition maps_of_packages (get_subs_fn : get_subs_fn_t)
    (os_name os_version ros_distro install_prefix : string) (native : bool)
    (items : list (string * Package)) (maps : list Subs) : Prop :=
  Forall2
    (λ item sub,
       ∃ ev, get_subs_fn item.2 os_name os_version ros_distro install_prefix
               native = (ev, Return sub))
    items maps.

(** The last of the maps whose ['Name'] is [name]. *)
Definition last_named (name : string) (maps : list Subs) : option Subs :=
  last (filter (λ sub, s_Name sub = name) maps).

(** The line that the handlers of the [try] blocks log for an exception. *)
Definition exception_text (type_name msg : string) : string :=
  type_name +:+ ": " +:+ msg.

(** Packages and [get_subs_fn]s for the aggregation. *)
Module MergeCases.

(** A map that records the version of its package as its one build
    dependency. *)
Definition by_version : get_subs_fn_t := λ pkg _ _ _ _ _,
  mret (Scenario.subs (pkg_name pkg) "Ann <ann@example.org>"
          "Ann <ann@example.org>" [pkg_version pkg] "MIT").

(** Two packages named [alpha] with [beta] between them. *)
Definition twice : dict string Package :=
  [("src/alpha", Scenario.package "alpha" "1.2.0" [Scenario.ann]);
   ("src/beta", Scenario.package "beta" "1.0.0" [Scenario.bob]);
   ("old/alpha", Scenario.package "alpha" "0.9.0" [Scenario.ann])].

(** [get_subs_fn] fails for [beta] with a [KeyError]. *)
Definition failing : get_subs_fn_t :=
  λ pkg os_name os_version ros_distro install_prefix native,
    if String.eqb (pkg_name pkg) "beta"
    then raise (Exception "KeyError" "'old_beta'")
    else Scenario.get_subs pkg os_name os_version ros_distro install_prefix
           native.

(** Maps without maintainers. *)
Definition anonymous : get_subs_fn_t := λ pkg _ _ _ _ _,
  mret (Scenario.subs (pkg_name pkg) "" "" [] "MIT").

(** The arguments of [--place-template-files] and of
    [--process-template-files]. *)
Definition place_only : Args :=
  {| args_package_path := None; args_place_template_files := true;
     args_process_template_files := false; args_os_name := None;
     args_os_version := None; args_ros_distro := None;
     args_install_prefix := None; args_native := false |}.

End MergeCases.

(** *** Vocabulary of the statements on branches and values *)

(** What the scan of the branches that [prune] makes comes to: the branches
    are examined in turn, and after a branch that is removed the next one is
    passed over and stays. *)
Fixpoint prune_scan (prefix : string) (pkg_names : list string)
    (branches : list string) : list string :=
  match branches with
  | [] => []
  | branch :: rest =>
      if not_a_package prefix pkg_names branch then
        match rest with
        | [] => []
        | passed :: rest => passed :: prune_scan prefix pkg_names rest
        end
      else branch :: prune_scan prefix pkg_names rest
  end.

(** The value holds [str], [None], [int] and [bool] alone, in lists and
    tuples. *)
Fixpoint unicode_only (obj : pyobj) : bool :=
  match obj with
  | PStr _ | PNone | PInt _ | PBool _ => true
  | PBytes _ | POther _ => false
  | PList l | PTuple l => forallb unicode_only l
  end.

(** The value holds no value of another type than those
    [convertToUnicode] tests for. *)
Fixpoint known_types (obj : pyobj) : bool :=
  match obj with
  | PStr _ | PNone | PInt _ | PBool _ | PBytes _ => true
  | POther _ => false
  | PList l | PTuple l => forallb known_types l
  end.

(** Branches for the examples. *)
Module BranchCases.

Definition remote_and_local : list string :=
  ["master"; "remotes/origin/debian/melodic/foo"; "debian/melodic/foo";
   "debian/melodic/bar"; "release/melodic/foo"].

Definition three : list string :=
  ["debian/melodic/baz"; "debian/melodic/qux"; "debian/melodic/foo"].

End BranchCases.

(** *** Vocabulary of the statements on descriptions *)

(** Every white space character of [s] is a space that follows a character
    which is no white space; with [prev] set, the start of [s] counts as
    following a white space. *)
Fixpoint spaced (prev : bool) (s : string) : bool :=
  match s with
  | "" => true
  | String c r =>
      if PyStr.is_space c then Ascii.eqb c " " && negb prev && spaced true r
      else spaced false r
  end.

(** The last character of [s] is white space. *)
Fixpoint last_is_space (s : string) : bool :=
  match s with
  | "" => false
  | String c "" => PyStr.is_space c
  | String _ r => last_is_space r
  end.

(** [w] holds no white space. *)
Fixpoint no_space (w : string) : bool :=
  match w with
  | "" => true
  | String c r => negb (PyStr.is_space c) && no_space r
  end.

(** *** Template files *)

Module Templates.

(** [s.endswith(suffix)] *)
Definition endswith (suffix s : string) : bool :=
  (String.length suffix <=? String.length s)%nat
  && String.eqb
       (String.substring (String.length s - String.length suffix)
          (String.length suffix) s)
       suffix.

(** [s[:-n]] for [n > 0] *)
Definition drop_last (n : nat) (s : string) : string :=
  String.substring 0 (String.length s - n) s.

(** What a path names: a file with its text and its permission bits, or a
    directory. *)
Inductive node :=
| File (text : string) (mode : N)
| Dir (mode : N).

Definition node_mode (n : node) : N :=
  match n with
  | File _ mode | Dir mode => mode
  end.

(** [os.chmod] of what the path names. *)
Definition node_chmod (n : node) (mode : N) : node :=
  match n with
  | File text _ => File text mode
  | Dir _ => Dir mode
  end.

(** [pkg['Package']] for a value of the aggregated view. *)
Definition entry_Package (entry : ViewEntry) : string :=
  match entry with
  | PkgEntry s => s_Package s
  | HeaderEntry h => h_Package h
  end.

(** The files and directories, by their path as the code writes it: the
    folder that [process_template_files] is handed is written relative, all
    the paths under it absolute, and the code never writes one file both
    ways. *)
Definition FS : Type := list (string * node).

(** What the template code takes from outside. *)
Class TemplateSystem := {
  (** [os.path.abspath(p)] *)
  abspath : string → string;
  (** [os.listdir(p)]: the names in the directory, in the order that the
      system gives them *)
  listdir : FS → string → run (list string);
  (** [em.expand(template, **subs)] *)
  em_expand : string → ViewEntry → run string;
  (** the permission bits of a file that [open] creates *)
  default_mode : N;
  (** [repr] of a path, in the text of an [OSError] *)
  path_repr : string → string
}.

(** A computation on the file system: the file system it leaves, also when
    it fails, and the run. *)
Definition fsrun (A : Type) : Type := FS → FS * run A.

Definition fs_bind {A B} (f : A → fsrun B) (m : fsrun A) : fsrun B :=
  λ fs,
    match m fs with
    | (fs', (ev, Return a)) =>
        let '(fs'', (ev', r)) := f a fs' in (fs'', (ev ++ ev', r))
    | (fs', (ev, SysExit arg)) => (fs', (ev, SysExit arg))
    | (fs', (ev, Raise e)) => (fs', (ev, Raise e))
    end.

#[global] Instance fsrun_mret : MRet fsrun := λ A a fs, (fs, mret a).
#[global] Instance fsrun_mbind : MBind fsrun := λ A B f m, fs_bind f m.

(** A run that leaves the file system as it is. *)
Definition fs_lift {A} (m : run A) : fsrun A := λ fs, (fs, m).

Section Templates.
Context `{TemplateSystem}.

Definition is_a_directory {A} (p : string) : run A :=
  raise (Exception "IsADirectoryError"
           ("[Errno 21] Is a directory: " +:+ path_repr p)).

Definition no_such_file {A} (p : string) : run A :=
  raise (Exception "FileNotFoundError"
           ("[Errno 2] No such file or directory: " +:+ path_repr p)).

(** [os.path.exists(p)] *)
Definition fs_exists (p : string) : fsrun bool :=
  λ fs, (fs, mret (bool_decide (is_Some (PyDict.get fs p)))).

(** [os.path.isdir(p)] *)
Definition fs_isdir (p : string) : fsrun bool :=
  λ fs,
    (fs, mret (match PyDict.get fs p with Some (Dir _) => true | _ => false end)).

(** [open(p, 'r').read()] *)
Definition fs_read (p : string) : fsrun string :=
  λ fs,
    (fs, match PyDict.get fs p with
         | Some (File text _) => mret text
         | Some (Dir _) => is_a_directory p
         | None => no_such_file p
         end).

(** [io.open(p, 'w').write(text)]: the file is made or emptied first. *)
Definition fs_write (p text : string) : fsrun unit :=
  λ fs,
    match PyDict.get fs p with
    | Some (File _ mode) => (PyDict.setitem fs p (File text mode), mret ())
    | Some (Dir _) => (fs, is_a_directory p)
    | None => (PyDict.setitem fs p (File text default_mode), mret ())
    end.

(** [io.open(p, 'a').write(text)]: the text goes behind what the file
    holds. *)
Definition fs_append (p text : string) : fsrun unit :=
  λ fs,
    match PyDict.get fs p with
    | Some (File old mode) =>
        (PyDict.setitem fs p (File (old +:+ text) mode), mret ())
    | Some (Dir _) => (fs, is_a_directory p)
    | None => (PyDict.setitem fs p (File text default_mode), mret ())
    end.

(** [shutil.copymode(src, dst)]: the permission bits of [src] are read and
    set on [dst]. *)
Definition fs_copymode (src dst : string) : fsrun unit :=
  λ fs,
    match PyDict.get fs src with
    | None => (fs, no_such_file src)
    | Some from =>
        match PyDict.get fs dst with
        | None => (fs, no_such_file dst)
        | Some to =>
            (PyDict.setitem fs dst (node_chmod to (node_mode from)), mret ())
        end
    end.

(** The loop of lines 512-545 over the names of the folder; [recurse] is
    the call of the function on a folder inside. *)
Fixpoint process_items (recurse : string → fsrun (list string))
    (path : string) (master : ViewEntry) (items : list string)
    (processed_items : list string) : fsrun (list string) :=
  match items with
  | [] => mret processed_items
  | item :: items =>
      if negb (String.eqb item "control_package.em") then
        let full_path := abspath (PyPath.join path item) in
        if bool_decide (PyPath.basename full_path ∈ ["."; ".."; ".git"; ".svn"])
        then process_items recurse path master items processed_items
        else
          fs_isdir full_path ≫= λ isdir : bool,
          (if isdir then
             sub_items ← recurse full_path;
             mret (processed_items ++ (PyPath.join full_path <$> sub_items))
           else mret processed_items) ≫= λ processed_items : list string,
          if negb (endswith ".em" full_path)
          then process_items recurse path master items processed_items
          else
            fs_read full_path ≫= λ template : string,
            (* Remove extension *)
            let template_path := drop_last (String.length ".em") full_path in
            let template_path :=
              if String.eqb item "control_header.em"
              then drop_last (String.length "_header.em") full_path
              else template_path in
            (* Expand template *)
            fs_lift (em_expand template master) ≫= λ result : string,
            (* Don't write an empty file *)
            if (String.length result =? 0)%nat
               && bool_decide (PyPath.basename template_path ∈ ["copyright"])
            then
              process_items recurse path master items
                (processed_items ++ [full_path])
            else
              (* Write the result *)
              fs_write template_path result ≫= λ _ : unit,
              (* Copy the permissions *)
              fs_copymode full_path template_path ≫= λ _ : unit,
              process_items recurse path master items
                (processed_items ++ [full_path])
      else process_items recurse path master items processed_items
  end.

(** Lines 559-566: one text behind the other, for every value of the view
    but those whose ['Package'] is that of the header. *)
Fixpoint append_packages (template template_path : string)
    (subs : list (string * ViewEntry)) : fsrun unit :=
  match subs with
  | [] => mret ()
  | (key, pkg) :: subs =>
      (if negb (String.eqb (entry_Package pkg) "tesseract-core") then
         fs_lift (em_expand template pkg) ≫= λ result : string,
         (* Write the result *)
         fs_append template_path result
       else mret ()) ≫= λ _ : unit,
      append_packages template template_path subs
  end.

(** Lines 547-572: [control_package.em], once for each package of the
    view. *)
Definition control_package_block (path : string) (subs : AggregatedView)
    (processed_items : list string) : fsrun (list string) :=
  let item := "control_package.em" in
  let full_path := abspath (PyPath.join path item) in
  fs_exists full_path ≫= λ found : bool,
  if found then
    fs_read full_path ≫= λ template : string,
    (* Remove extension *)
    let template_path := drop_last (String.length "_package.em") full_path in
    append_packages template template_path subs ≫= λ _ : unit,
    mret (processed_items ++ [full_path])
  else mret processed_items.

(** [__process_template_folder], lines 509-574; [depth] is the number of
    calls inside one another that the interpreter still allows. *)
Fixpoint process_template_folder (depth : nat) (path : string)
    (subs : AggregatedView) : fsrun (list string) :=
  (λ fs, (fs, listdir fs path)) ≫= λ items : list string,
  let processed_items := [] in
  fs_lift (match PyDict.get subs "tesseract-core" with
           | Some master => mret master
           | None => raise (Exception "KeyError" "'tesseract-core'")
           end) ≫= λ master : ViewEntry,
  process_items
    (match depth with
     | 0 => λ _, fs_lift (raise (Exception "RecursionError"
                                   "maximum recursion depth exceeded"))
     | S depth => λ full_path, process_template_folder depth full_path subs
     end)
    path master items processed_items ≫= λ processed_items : list string,
  (* Now process the control_package.em for each package in the repository *)
  control_package_block path subs processed_items.

(** [process_template_files], lines 577-583. *)
Definition process_template_files (depth : nat) (path : string)
    (subs : AggregatedView) : fsrun (list string) :=
  let debian_dir := PyPath.join path "debian" in
  fs_exists debian_dir ≫= λ found : bool,
  if negb found then
    fs_lift (sys_exit (ExitMsg ("No debian directory found at '" +:+ debian_dir
                                +:+ "', cannot process templates.")))
  else process_template_folder depth debian_dir subs.

End Templates.

End Templates.

(** A folder of templates for the examples. *)
Module TemplateCases.

Definition files : Templates.FS :=
  [("debian", Templates.Dir 493);
   ("/ws/debian", Templates.Dir 493);
   ("/ws/debian/control_package.em", Templates.File "Package: @(Package);" 420);
   ("/ws/debian/rules.em", Templates.File "rules of @(Package);" 493);
   ("/ws/debian/control_header.em", Templates.File "Source: @(Package);" 420);
   ("/ws/debian/copyright.em", Templates.File "" 420);
   ("/ws/debian/README", Templates.File "read me" 420);
   ("/ws/debian/source", Templates.Dir 493);
   ("/ws/debian/source/format.em", Templates.File "3.0 (@(Package));" 420)].

(** An engine that puts the ['Package'] of the map behind the text of the
    template, and nothing for an empty template. *)
Definition system : Templates.TemplateSystem :=
  {| Templates.abspath := λ p,
       if PyStr2.startswith "/" p then p else "/ws/" +:+ p;
     Templates.listdir := λ fs p,
       if String.eqb p "debian" then
         mret ["control_package.em"; "rules.em"; ".git"; "control_header.em";
               "copyright.em"; "README"; "source"]
       else if String.eqb p "/ws/debian/source" then mret ["format.em"]
       else raise (Exception "NotADirectoryError" p);
     Templates.em_expand := λ template entry,
       mret (if (String.length template =? 0)%nat then ""
             else template +:+ Templates.entry_Package entry +:+ ";");
     Templates.default_mode := 420;
     Templates.path_repr := λ p, "'" +:+ p +:+ "'" |}.

End TemplateCases.

(** *** Vocabulary of the statements on templates *)

(** The values of the view for which [control_package.em] is expanded. *)
Definition stanza_entries (subs : list (string * ViewEntry)) : list ViewEntry :=
  filter (λ entry, Templates.entry_Package entry ≠ "tesseract-core")
    (PyDict.values subs).

(** The texts, one behind the other. *)
Definition texts_in_a_row (texts : list string) : string :=
  foldr String.append "" texts.

(** The text and the permission bits of the file at [p]; those of a file
    still to be made when there is none. *)
Definition file_text (fs : Templates.FS) (p : string) : string :=
  match PyDict.get fs p with
  | Some (Templates.File text _) => text
  | _ => ""
  end.

Definition file_mode `{Templates.TemplateSystem} (fs : Templates.FS)
    (p : string) : N :=
  match PyDict.get fs p with
  | Some n => Templates.node_mode n
  | None => Templates.default_mode
  end.

(** The path names a template. *)
Definition is_template (p : string) : Prop := ∃ stem, p = stem +:+ ".em".

(** A view for the examples on templates. *)
Module ViewCases.

Definition header : RepoHeader :=
  {| h_Package := "tesseract-core"; h_DebianInc := "-0"; h_format := "quilt";
     h_InstallationPrefix := "/opt"; h_Maintainer := "A";
     h_Maintainers := "Ann <ann@example.org>";
     h_BuildDepends := ["cmake"; "boost"]; h_Homepage := "";
     h_Copyright := "MIT"; h_debhelper_version := 9; h_changelogs := [];
     h_Distribution := "bionic" |}.

Definition view : list (string * ViewEntry) :=
  [("alpha", PkgEntry Scenario.alpha_subs);
   ("beta", PkgEntry Scenario.beta_subs);
   ("tesseract-core", HeaderEntry header)].

End ViewCases.

(** * Properties *)

(** ** Strings *)

Section StringFacts.

Lemma append_nil_l (s : string) : "" +:+ s = s.
Proof. reflexivity. Qed.

Lemma append_cons c (a b : string) : String c a +:+ b = String c (a +:+ b).
Proof. reflexivity. Qed.

Lemma replace_length old new s :
  String.length (PyStr.replace old new s) = String.length s.
Proof. induction s as [|c s IH]; simpl; [done | by rewrite IH]. Qed.

Lemma replace_get old new s i :
  String.get i (PyStr.replace old new s)
  = (λ c, if Ascii.eqb c old then new else c) <$> String.get i s.
Proof.
  revert i; induction s as [|c s IH]; intros i; simpl; [done |].
  destruct i as [|i]; simpl; [done | apply IH].
Qed.

Lemma replace_has_char old new s :
  old ≠ new → PyStr.has_char old (PyStr.replace old new s) = false.
Proof.
  intros Hne. induction s as [|c s IH]; [done |].
  cbn [PyStr.replace PyStr.has_char]. rewrite IH, orb_false_r.
  destruct (Ascii.eqb c old) eqn:E.
  - apply Ascii.eqb_neq. done.
  - apply Ascii.eqb_neq. apply Ascii.eqb_neq in E. congruence.
Qed.

Lemma replace_absent old new s :
  PyStr.has_char old s = false → PyStr.replace old new s = s.
Proof.
  induction s as [|c s IH]; [done |].
  cbn [PyStr.replace PyStr.has_char]. intros [E1 E2]%orb_false_elim.
  rewrite Ascii.eqb_sym, E1. by rewrite IH.
Qed.

Lemma strip_prefix_Some p s r :
  PyStr.strip_prefix p s = Some r → s = p +:+ r.
Proof.
  revert s; induction p as [|a p IH]; intros [|b s]; simpl;
    rewrite ?append_nil_l, ?append_cons; try congruence.
  destruct (Ascii.eqb a b) eqn:E; [|done].
  apply Ascii.eqb_eq in E as ->. intros Hr. by rewrite (IH _ Hr).
Qed.

Lemma strip_prefix_append p r : PyStr.strip_prefix p (p +:+ r) = Some r.
Proof.
  induction p as [|a p IH]; rewrite ?append_nil_l, ?append_cons; simpl;
    [by destruct r |].
  by rewrite Ascii.eqb_refl.
Qed.

Lemma find_sep_Some sep s a b :
  PyStr.find_sep sep s = Some (a, b) → s = a +:+ sep +:+ b.
Proof.
  revert a; induction s as [|c s IH]; intros a; simpl.
  - destruct (PyStr.strip_prefix sep "") eqn:E; [|done].
    intros [= <- <-]. rewrite append_nil_l. by apply strip_prefix_Some.
  - destruct (PyStr.strip_prefix sep (String c s)) eqn:E.
    + intros [= <- <-]. rewrite append_nil_l. by apply strip_prefix_Some.
    + destruct (PyStr.find_sep sep s) as [[a' b']|] eqn:F; [|done].
      intros [= <- <-]. rewrite append_cons. f_equal. by apply IH.
Qed.

Lemma find_sep_None sep s :
  PyStr.find_sep sep s = None → ¬ PyStr.contains sep s.
Proof.
  induction s as [|c s IH]; simpl.
  - destruct (PyStr.strip_prefix sep "") eqn:E; [done |].
    intros _ (a & b & Hab). destruct a; [|done]. rewrite append_nil_l in Hab.
    rewrite Hab, strip_prefix_append in E. done.
  - destruct (PyStr.strip_prefix sep (String c s)) eqn:E; [done |].
    destruct (PyStr.find_sep sep s) as [[a' b']|] eqn:F; [done |].
    intros _ (a & b & Hab). destruct a as [|c' a].
    + rewrite append_nil_l in Hab. rewrite Hab, strip_prefix_append in E. done.
    + rewrite append_cons in Hab. injection Hab as -> Hs.
      apply IH; [done |]. by exists a, b.
Qed.

Lemma find_sep_contains sep s :
  PyStr.contains sep s ↔ is_Some (PyStr.find_sep sep s).
Proof.
  split.
  - intros Hc. destruct (PyStr.find_sep sep s) eqn:E; [done |].
    by apply find_sep_None in E.
  - intros [[a b] E]. exists a, b. by apply find_sep_Some.
Qed.

Lemma is_space_LF : PyStr.is_space PyStr.LF = true.
Proof. reflexivity. Qed.

Lemma has_char_cons c d r :
  PyStr.has_char c (String d r) = Ascii.eqb c d || PyStr.has_char c r.
Proof. reflexivity. Qed.

Lemma sub_spaces_single_line in_run s :
  PyStr.has_char PyStr.LF (PyStr.sub_spaces in_run s) = false.
Proof.
  revert in_run; induction s as [|c s IH]; intros in_run; [done |].
  cbn [PyStr.sub_spaces]. destruct (PyStr.is_space c) eqn:E.
  - destruct in_run; rewrite ?has_char_cons, IH; done.
  - rewrite has_char_cons, IH, orb_false_r. apply Ascii.eqb_neq.
    intros <-. by rewrite is_space_LF in E.
Qed.

Lemma lstrip_has_char c s :
  PyStr.has_char c s = false → PyStr.has_char c (PyStr.lstrip s) = false.
Proof.
  induction s as [|d s IH]; [done |].
  rewrite has_char_cons. intros [E1 E2]%orb_false_elim.
  cbn [PyStr.lstrip].
  destruct (PyStr.is_space d); [by apply IH | by rewrite has_char_cons, E1, E2].
Qed.

Lemma rstrip_has_char c s :
  PyStr.has_char c s = false → PyStr.has_char c (PyStr.rstrip s) = false.
Proof.
  induction s as [|d s IH]; [done |].
  rewrite has_char_cons. intros [E1 E2]%orb_false_elim. specialize (IH E2).
  cbn [PyStr.rstrip]. destruct (PyStr.rstrip s) as [|e r].
  - destruct (PyStr.is_space d); [done | by rewrite has_char_cons, E1].
  - by rewrite has_char_cons, E1, IH.
Qed.

Lemma debianize_string_single_line value :
  PyStr.has_char PyStr.LF (debianize_string value) = false.
Proof.
  unfold debianize_string, PyStr.strip.
  apply rstrip_has_char, lstrip_has_char, sub_spaces_single_line.
Qed.

End StringFacts.

(** C9: sanitizing a package name is idempotent, and it replaces every
    underscore by the hyphen of the target packaging system: the result has
    the length of the name, holds at each position the character of the name
    with ["_"] turned into ["-"], and holds no ["_"]. *)
Theorem sanitize_package_name_idempotent (x : string) :
  sanitize_package_name (sanitize_package_name x) = sanitize_package_name x
  ∧ String.length (sanitize_package_name x) = String.length x
  ∧ (∀ i, String.get i (sanitize_package_name x)
          = (λ c, if Ascii.eqb c "_" then "-"%char else c) <$> String.get i x)
  ∧ PyStr.has_char "_" (sanitize_package_name x) = false.
Proof.
  unfold sanitize_package_name. split_and!.
  - apply replace_absent, replace_has_char. done.
  - apply replace_length.
  - intros i. apply replace_get.
  - by apply replace_has_char.
Qed.

(** C8, as stated, fails: the description ["Foo.<LF>Bar"] holds no [". "],
    yet collapsing its line feed makes the break, and the formatter returns
    two lines, not the collapsed text ["Foo. Bar"]. *)
Lemma format_description_break_from_line_feed :
  let value := String "F" (String "o" (String "o" (String "."
                 (String PyStr.LF "Bar")))) in
  ¬ PyStr.contains ". " value
  ∧ debianize_string value = "Foo. Bar"
  ∧ format_description value ≠ debianize_string value
  ∧ PyStr.has_char PyStr.LF (format_description value) = true.
Proof.
  split_and!.
  - apply find_sep_None. reflexivity.
  - reflexivity.
  - vm_compute. discriminate.
  - reflexivity.
Qed.

(** C8, amended: when the markup-stripped, whitespace-collapsed text of the
    description holds no [". "], the formatter returns that text unchanged,
    on a single line; ["Foo. Bar baz."] becomes the synopsis ["Foo."] and,
    on a second line, the rest indented by one space. *)
Theorem format_description_spec (value : string) :
  (¬ PyStr.contains ". " (debianize_string value) →
     format_description value = debianize_string value
     ∧ PyStr.has_char PyStr.LF (format_description value) = false)
  ∧ format_description "Foo. Bar baz."
    = "Foo." +:+ String PyStr.LF "" +:+ " Bar baz.".
Proof.
  split; [|reflexivity].
  intros Hno.
  assert (format_description value = debianize_string value) as ->.
  { unfold format_description, PyStr.split1.
    destruct (PyStr.find_sep ". " (debianize_string value)) as [[a b]|] eqn:E;
      [|done].
    exfalso. apply Hno. apply find_sep_contains. by rewrite E. }
  split; [done | apply debianize_string_single_line].
Qed.

Lemma format_description_spec_witness :
  ¬ PyStr.contains ". " (debianize_string "A <b>fast</b>   planner v1.2")
  ∧ format_description "A <b>fast</b>   planner v1.2" = "A fast planner v1.2"
  ∧ PyStr.has_char PyStr.LF (format_description "A <b>fast</b>   planner v1.2")
    = false.
Proof.
  assert (¬ PyStr.contains ". " (debianize_string "A <b>fast</b>   planner v1.2"))
    as Hno by (apply find_sep_None; reflexivity).
  split; [exact Hno |].
  destruct (format_description_spec "A <b>fast</b>   planner v1.2") as [Hs _].
  destruct (Hs Hno) as [-> Hl]. split; [reflexivity | exact Hl].
Defined.

(** ** Computations *)

Section RunFacts.
Context {A B : Type}.

Lemma bind_unfold (m : run A) (f : A → run B) : (m ≫= f) = run_bind f m.
Proof. reflexivity. Qed.

Lemma bind_Return ev (a : A) (f : A → run B) :
  ((ev, Return a) ≫= f) = (ev ++ (f a).1, (f a).2).
Proof. rewrite bind_unfold. simpl. by destruct (f a). Qed.

Lemma bind_mret (a : A) (f : A → run B) : (mret a ≫= f) = f a.
Proof. unfold mret, run_mret. rewrite bind_Return. by destruct (f a). Qed.

Lemma bind_inv_Return (m : run A) (f : A → run B) ev b :
  (m ≫= f) = (ev, Return b) →
  ∃ ev1 a ev2, m = (ev1, Return a) ∧ f a = (ev2, Return b) ∧ ev = ev1 ++ ev2.
Proof.
  rewrite bind_unfold. destruct m as [ev1 [a|arg|e]]; simpl; [|done..].
  destruct (f a) as [ev2 r] eqn:E. intros [= <- ->]. by exists ev1, a, ev2.
Qed.

Lemma try_except_inv_Return (m : run A) ev a :
  try_except m = (ev, Return a) → m = (ev, Return a).
Proof. destruct m as [ev1 [a1|arg|[ty msg| |]]]; simpl; congruence. Qed.

End RunFacts.

(** ** Dictionaries *)

Section DictFacts.
Context {K V : Type} `{EqDecision K}.
Implicit Types (d : list (K * V)) (k : K) (v : V).

Lemma get_setitem d k v k' :
  PyDict.get (PyDict.setitem d k v) k'
  = if decide (k = k') then Some v else PyDict.get d k'.
Proof.
  induction d as [|[k0 v0] d IH]; simpl.
  - repeat case_decide; congruence.
  - destruct (decide (k0 = k)) as [->|Hne]; simpl.
    + repeat case_decide; congruence.
    + rewrite IH. repeat case_decide; congruence.
Qed.

Lemma keys_setitem d k v :
  PyDict.keys (PyDict.setitem d k v)
  = if decide (k ∈ PyDict.keys d) then PyDict.keys d else PyDict.keys d ++ [k].
Proof.
  unfold PyDict.keys. induction d as [|[k0 v0] d IH]; csimpl; [done |].
  destruct (decide (k0 = k)) as [->|Hne]; csimpl.
  - rewrite decide_True; [done | by left].
  - rewrite IH. destruct (decide (k ∈ d.*1)) as [Hin|Hnin].
    + rewrite decide_True; [done | by right].
    + rewrite decide_False; [done |]. by intros [?|?]%elem_of_cons.
Qed.

Lemma get_is_Some d k : is_Some (PyDict.get d k) ↔ k ∈ PyDict.keys d.
Proof.
  unfold PyDict.keys. induction d as [|[k0 v0] d IH]; csimpl.
  - split; [by intros [? ?] | by intros ?%elem_of_nil].
  - destruct (decide (k0 = k)) as [->|Hne].
    + split; [intros _; by left | by eauto].
    + rewrite IH. split; [by right |]. by intros [?|?]%elem_of_cons.
Qed.

End DictFacts.

(** ** Dependency resolution *)

Section ResolveFacts.
Context `{Externals}.

Lemma call_resolve_rosdep_key_run key os_name os_version ros_distro ignored
    retry :
  call_resolve_rosdep_key key os_name os_version ros_distro ignored retry
  = ([EvResolveRosdepKey key os_name os_version ros_distro ignored retry],
     Return (resolve_rosdep_key key os_name os_version ros_distro ignored
               retry)).
Proof. reflexivity. Qed.

Lemma resolve_dependencies_loop_spec todo os_name os_version ros_distro
    peer_packages resolved_keys :
  ∃ resolved,
    resolve_dependencies_loop todo os_name os_version ros_distro peer_packages
      resolved_keys
    = ((λ key, EvResolveRosdepKey key os_name os_version ros_distro
                 peer_packages true) <$> todo,
       Return resolved)
    ∧ ∀ key, PyDict.get resolved key
             = if decide (key ∈ todo)
               then Some (default [key]
                            (resolve_rosdep_key key os_name os_version
                               ros_distro peer_packages true).1.1)
               else PyDict.get resolved_keys key.
Proof.
  revert resolved_keys. induction todo as [|k todo IH]; intros resolved_keys.
  - exists resolved_keys. split; [done |]. intros key.
    rewrite decide_False; [done | by intros ?%elem_of_nil].
  - cbn [resolve_dependencies_loop].
    rewrite call_resolve_rosdep_key_run, bind_Return.
    destruct (resolve_rosdep_key k os_name os_version ros_distro
                peer_packages true) as [[rk ik] dk] eqn:E.
    destruct (IH (PyDict.setitem resolved_keys k (default [k] rk)))
      as (resolved & Hrun & Hget).
    exists resolved. split.
    + replace (match rk with Some r => r | None => [k] end)
        with (default [k] rk) by (by destruct rk).
      by rewrite Hrun.
    + intros key. rewrite Hget, get_setitem.
      destruct (decide (key ∈ todo)) as [Hin|Hnin].
      * rewrite decide_True; [done | by right].
      * destruct (decide (k = key)) as [<-|Hne].
        -- rewrite decide_True; [|by left]. by rewrite E.
        -- rewrite decide_False; [done |]. by intros [?|?]%elem_of_cons.
Qed.

End ResolveFacts.

(** C1, as stated, fails: with ["foo_bar"] among the peer names, [resolve]
    still asks the service about it, and since the service knows no rule the
    result is the name itself, underscore kept, not ["foo-bar"]. *)
Lemma resolve_dependencies_peer_not_sanitized :
  let peer_packages := Some ["foo_bar"] in
  ∃ ev resolved_keys,
    @resolve_dependencies (Scenario.externals (λ _, None) false None)
      [Scenario.dep "foo_bar"] "ubuntu" "bionic" (Some "melodic")
      peer_packages None
    = (ev, Return resolved_keys)
    ∧ "foo_bar" ∈ default [] peer_packages
    ∧ EvResolveRosdepKey "foo_bar" "ubuntu" "bionic" "melodic" ["foo_bar"] true
      ∈ ev
    ∧ PyDict.get resolved_keys "foo_bar" = Some ["foo_bar"]
    ∧ PyDict.get resolved_keys "foo_bar"
      ≠ Some [sanitize_package_name "foo_bar"].
Proof.
  eexists _, _. split; [reflexivity |].
  split_and!; [by left | by left | reflexivity | discriminate].
Qed.

(** C1, amended: for every dependency key whose name is in the peer names
    passed to resolution, [resolve] consults the resolution service for that
    key, handing it the names of all the keys as the names to ignore, and
    returns the answer of the service, or the one-element list of the key
    name as it is (not sanitized) when the service reports not-found.  The
    peer names and the fallback resolver passed in are not read. *)
Theorem resolve_dependencies_consults_service `{Externals}
    (keys : list Dependency) (os_name os_version : string)
    (ros_distro : option string) (peer_packages : option (list string))
    (fallback_resolver : option (string → list string → run (list string)))
    (key : string) :
  key ∈ dep_name <$> keys →
  key ∈ default [] peer_packages →
  let service :=
    resolve_rosdep_key key os_name os_version (str_or ros_distro "melodic")
      (dep_name <$> keys) true in
  ∃ ev resolved_keys,
    resolve_dependencies keys os_name os_version ros_distro peer_packages
      fallback_resolver
    = (ev, Return resolved_keys)
    ∧ EvResolveRosdepKey key os_name os_version (str_or ros_distro "melodic")
        (dep_name <$> keys) true ∈ ev
    ∧ PyDict.get resolved_keys key = Some (default [key] service.1.1)
    ∧ ∀ peer_packages' fallback_resolver',
        resolve_dependencies keys os_name os_version ros_distro peer_packages'
          fallback_resolver'
        = (ev, Return resolved_keys).
Proof.
  intros Hkey _ service. unfold resolve_dependencies.
  destruct (resolve_dependencies_loop_spec (dep_name <$> keys) os_name
              os_version (str_or ros_distro "melodic") (dep_name <$> keys) [])
    as (resolved & Hrun & Hget).
  eexists _, resolved. split; [exact Hrun |]. split_and!.
  - apply (list_elem_of_fmap_2
             (λ key, EvResolveRosdepKey key os_name os_version
                       (str_or ros_distro "melodic") (dep_name <$> keys) true)).
    exact Hkey.
  - rewrite Hget. by rewrite decide_True.
  - intros _ _. exact Hrun.
Qed.

Lemma resolve_dependencies_consults_service_witness :
  ∃ ev resolved_keys,
    @resolve_dependencies
      (Scenario.externals
         (λ key, if String.eqb key "tf2_ros" then Some ["ros-melodic-tf2-ros"]
                 else None) false None)
      [Scenario.dep "tf2_ros"; Scenario.dep "cmake"] "ubuntu" "bionic" None
      (Some ["tf2_ros"]) None
    = (ev, Return resolved_keys)
    ∧ PyDict.get resolved_keys "tf2_ros" = Some ["ros-melodic-tf2-ros"].
Proof.
  destruct (@resolve_dependencies_consults_service
              (Scenario.externals
                 (λ key, if String.eqb key "tf2_ros"
                         then Some ["ros-melodic-tf2-ros"] else None)
                 false None)
              [Scenario.dep "tf2_ros"; Scenario.dep "cmake"] "ubuntu" "bionic"
              None (Some ["tf2_ros"]) None "tf2_ros")
    as (ev & resolved_keys & Hrun & _ & Hget & _).
  - by left.
  - by left.
  - exists ev, resolved_keys. split; [exact Hrun | exact Hget].
Defined.

(** C6: [resolve] always returns a mapping, whatever the keys; and for a key
    that is not among the peer names and for which the resolution service
    reports not-found, the mapping holds exactly the one-element list of the
    key name. *)
Theorem resolve_dependencies_not_found `{Externals}
    (keys : list Dependency) (os_name os_version : string)
    (ros_distro : option string) (peer_packages : option (list string))
    (fallback_resolver : option (string → list string → run (list string)))
    (key : string) :
  ∃ ev resolved_keys,
    resolve_dependencies keys os_name os_version ros_distro peer_packages
      fallback_resolver
    = (ev, Return resolved_keys)
    ∧ (key ∈ dep_name <$> keys →
       key ∉ default [] peer_packages →
       (resolve_rosdep_key key os_name os_version (str_or ros_distro "melodic")
          (dep_name <$> keys) true).1.1 = None →
       PyDict.get resolved_keys key = Some [key]).
Proof.
  unfold resolve_dependencies.
  destruct (resolve_dependencies_loop_spec (dep_name <$> keys) os_name
              os_version (str_or ros_distro "melodic") (dep_name <$> keys) [])
    as (resolved & Hrun & Hget).
  eexists _, resolved. split; [exact Hrun |].
  intros Hkey _ Hnone. rewrite Hget, decide_True by done. by rewrite Hnone.
Qed.

Lemma resolve_dependencies_not_found_witness :
  ∃ ev resolved_keys,
    @resolve_dependencies (Scenario.externals (λ _, None) false None)
      [Scenario.dep "foo_bar"; Scenario.dep "cmake"] "ubuntu" "bionic" None
      (Some ["foo_bar"]) None
    = (ev, Return resolved_keys)
    ∧ PyDict.get resolved_keys "cmake" = Some ["cmake"].
Proof.
  destruct (@resolve_dependencies_not_found
              (Scenario.externals (λ _, None) false None)
              [Scenario.dep "foo_bar"; Scenario.dep "cmake"] "ubuntu" "bionic"
              None (Some ["foo_bar"]) None "cmake")
    as (ev & resolved_keys & Hrun & Hget).
  exists ev, resolved_keys. split; [exact Hrun |]. apply Hget.
  - right. by left.
  - simpl. intros Hin%list_elem_of_singleton. discriminate.
  - reflexivity.
Defined.

(** ** Changelog *)

Section ChangelogFacts.
Context `{Externals}.

Lemma has_newer_true package changelogs :
  has_newer package changelogs = true
  ↔ ∃ entry, entry ∈ changelogs
      ∧ parse_version_lt (pkg_version package) (cl_version entry) = true.
Proof.
  unfold has_newer. rewrite existsb_exists.
  split; intros (entry & Hin & Hlt); exists entry;
    (split; [by apply list_elem_of_In | done]).
Qed.

Lemma newer_entries_loop_spec package changelogs bad_changelog :
  ∃ ev,
    newer_entries_loop package changelogs bad_changelog
    = (ev, Return (bad_changelog || has_newer package changelogs))
    ∧ (has_newer package changelogs = false → ev = []).
Proof.
  revert bad_changelog.
  induction changelogs as [|c rest IH]; intros bad_changelog.
  - exists []. split; [by rewrite orb_false_r | done].
  - cbn [newer_entries_loop has_newer existsb].
    destruct (parse_version_lt (pkg_version package) (cl_version c)).
    + destruct (IH true) as (ev & Hrun & Hev).
      run_unfold. rewrite Hrun.
      eexists. split; [by rewrite orb_true_r | done].
    + destruct (IH bad_changelog) as (ev & Hrun & Hev).
      exists ev. by rewrite Hrun.
Qed.

(** How the checks of the assembled sequence end: a flagged sequence puts
    the closing error lines and the prompt, whose default is ["n"], behind
    the other lines, and the answer decides; a sequence that is not flagged
    logs nothing. *)
Lemma validate_changelogs_spec package first rest :
  let bad_changelog :=
    bool_decide (pkg_version package ≠ cl_version first)
    || has_newer package (first :: rest) in
  ∃ ev,
    validate_changelogs package (first :: rest)
    = (if bad_changelog
       then ev ++ [EvError mistake_text; EvError "";
                   EvMaybeContinue "n" "Continue anyways"]
       else [],
       if bad_changelog && negb (maybe_continue "n" "Continue anyways")
       then SysExit (ExitMsg "User quit.")
       else Return ()).
Proof.
  intros bad_changelog. unfold validate_changelogs, bad_changelog.
  run_unfold. cbn -[newer_entries_loop has_newer].
  destruct (bool_decide (pkg_version package ≠ cl_version first)) eqn:Hfirst.
  - destruct (newer_entries_loop_spec package (first :: rest) true)
      as (ev & Hrun & _).
    rewrite Hrun. cbn [orb andb].
    eexists (_ :: _ :: ev).
    by destruct (maybe_continue "n" "Continue anyways").
  - destruct (newer_entries_loop_spec package (first :: rest) false)
      as (ev & Hrun & Hev).
    rewrite Hrun. cbn [orb andb].
    destruct (has_newer package (first :: rest)) eqn:Hnewer.
    + exists ev. by destruct (maybe_continue "n" "Continue anyways").
    + exists []. rewrite Hev by done. done.
Qed.

Lemma changelog_warnings_run (cond : bool) (m : run unit) ev :
  m = (ev, Return ()) →
  ∃ ev', (if cond then m else skip) = (ev', Return ()).
Proof. intros ->. destruct cond; by eexists. Qed.

(** The changelog of a package whose history was read: the warnings, then
    the assembled sequence, handed out unless the gate ends the run. *)
Lemma package_changelogs_run package releaser_history ev0 history changelogs :
  get_changelogs package releaser_history = (ev0, Return history) →
  assemble_changelogs package history = ([], Return changelogs) →
  ∃ ev,
    package_changelogs package releaser_history
    = (ev,
       match (validate_changelogs package changelogs).2 with
       | Return _ => Return changelogs
       | SysExit arg => SysExit arg
       | Raise e => Raise e
       end)
    ∧ ∀ e, e ∈ (validate_changelogs package changelogs).1 → e ∈ ev.
Proof.
  intros Hget Hasm. unfold package_changelogs.
  rewrite Hget, bind_Return.
  destruct (bool_decide (history ≠ [])
            && bool_decide (pkg_version package ∉ cl_version <$> history));
    run_unfold; rewrite Hasm;
    destruct (validate_changelogs package changelogs) as [evv [[]|arg|e]];
    cbn; (eexists; split; [reflexivity |]);
    intros e' Hin; rewrite ?app_nil_r; apply elem_of_app; right;
    repeat first [exact Hin | apply list_elem_of_further].
Qed.

End ChangelogFacts.

(** C4: once the sequence is assembled, a first entry whose version is not
    the current one, or any entry whose version is above the current one by
    the order of [parse_version], makes the run log its error lines and ask
    the operator, with ["n"] as the default answer, whether to continue; the
    run goes on only if the answer is yes, and ends with ["User quit."]
    otherwise.  So it is for the history of the single entry ["1.3.0"] and
    the current version ["1.2.0"]. *)
Theorem changelog_validation_flags `{Externals}
    (package : Package) (first : ChangelogEntry) (rest : list ChangelogEntry)
    (releaser_history : option (dict string (string * string)))
    (ev0 : list event) (entry : ChangelogEntry) (m : Person) (ms : list Person) :
  ((pkg_version package ≠ cl_version first
    ∨ ∃ newer, newer ∈ first :: rest
        ∧ parse_version_lt (pkg_version package) (cl_version newer) = true) →
   ∃ ev,
     validate_changelogs package (first :: rest)
     = (ev ++ [EvError mistake_text; EvError "";
               EvMaybeContinue "n" "Continue anyways"],
        if maybe_continue "n" "Continue anyways" then Return ()
        else SysExit (ExitMsg "User quit.")))
  ∧ (pkg_version package = "1.2.0" →
     cl_version entry = "1.3.0" →
     parse_version_lt "1.2.0" "1.3.0" = true →
     pkg_maintainers package = m :: ms →
     get_changelogs package releaser_history = (ev0, Return [entry]) →
     ∃ ev,
       package_changelogs package releaser_history
       = (ev,
          if maybe_continue "n" "Continue anyways"
          then Return [synthesized_entry package m; entry]
          else SysExit (ExitMsg "User quit."))
       ∧ EvError mistake_text ∈ ev
       ∧ EvMaybeContinue "n" "Continue anyways" ∈ ev).
Proof.
  assert (∀ first rest,
    (pkg_version package ≠ cl_version first
     ∨ has_newer package (first :: rest) = true) →
    ∃ ev,
      validate_changelogs package (first :: rest)
      = (ev ++ [EvError mistake_text; EvError "";
                EvMaybeContinue "n" "Continue anyways"],
         if maybe_continue "n" "Continue anyways" then Return ()
         else SysExit (ExitMsg "User quit."))) as Hflag.
  { clear first rest. intros first rest Hbad.
    destruct (validate_changelogs_spec package first rest) as (ev & Hrun).
    assert (bool_decide (pkg_version package ≠ cl_version first)
            || has_newer package (first :: rest) = true) as Hb.
    { destruct Hbad as [Hne|Hnewer].
      - by rewrite (bool_decide_eq_true_2 _ Hne).
      - by rewrite Hnewer, orb_true_r. }
    rewrite Hb in Hrun. exists ev. rewrite Hrun.
    by destruct (maybe_continue "n" "Continue anyways"). }
  split.
  - intros Hbad. apply Hflag. destruct Hbad as [Hne|Hnewer]; [by left |].
    right. by apply has_newer_true.
  - intros Hv He Hlt Hm Hget.
    assert (assemble_changelogs package [entry]
            = ([], Return [synthesized_entry package m; entry])) as Hasm.
    { unfold assemble_changelogs, first_maintainer. rewrite Hm.
      rewrite bool_decide_eq_true_2; [reflexivity |].
      csimpl. rewrite Hv, He. intros Hin%list_elem_of_singleton. discriminate. }
    destruct (package_changelogs_run package releaser_history ev0 [entry] _
                Hget Hasm) as (ev & Hrun & Hev).
    destruct (Hflag (synthesized_entry package m) [entry]) as (evv & Hval).
    { right. apply has_newer_true. exists entry. split; [by right; left |].
      by rewrite Hv, He. }
    rewrite Hval in Hrun, Hev. cbn [fst snd] in Hrun, Hev.
    exists ev. split_and!.
    + rewrite Hrun. by destruct (maybe_continue "n" "Continue anyways").
    + apply Hev. apply elem_of_app. right. by left.
    + apply Hev. apply elem_of_app. right. by right; right; left.
Qed.

Lemma changelog_validation_flags_witness :
  let ext :=
    Scenario.externals (λ _, None) false
      (Some [("1.3.0", "Mon, 02 Nov 2026 09:00:00 -0000", ["* new planner"])]) in
  ∃ ev,
    @package_changelogs ext (Scenario.package "alpha" "1.2.0" [Scenario.ann])
      None
    = (ev, SysExit (ExitMsg "User quit."))
    ∧ EvMaybeContinue "n" "Continue anyways" ∈ ev.
Proof.
  intros ext.
  destruct (@changelog_validation_flags ext
              (Scenario.package "alpha" "1.2.0" [Scenario.ann])
              (@synthesized_entry ext
                 (Scenario.package "alpha" "1.2.0" [Scenario.ann]) Scenario.ann)
              [] None
              [EvWarning ("No historical releaser history, using current maintainer name "
                          +:+ "and email for each versioned changelog entry.")]
              {| cl_version := "1.3.0";
                 cl_date := "Mon, 02 Nov 2026 09:00:00 -0000";
                 cl_changes := "  * new planner";
                 cl_releaser := "Ann"; cl_email := "ann@example.org" |}
              Scenario.ann [])
    as [_ Hpart].
  destruct Hpart as (ev & Hrun & _ & Hprompt); try reflexivity.
  exists ev. split; [exact Hrun | exact Hprompt].
Defined.

(** C5: when the history that was read does not hold the current version,
    the assembled sequence is the history behind a synthesized entry whose
    version is the current one, whose text is the fixed autogenerated marker
    and whose releaser is the first maintainer of the package; that sequence
    is what the run hands out, unless an entry newer than the release makes
    the gate end it.  With no history (no changelog file, or a history
    without entries) the sequence is that one entry. *)
Theorem changelog_synthesized_head `{Externals}
    (package : Package)
    (releaser_history : option (dict string (string * string)))
    (ev0 : list event) (history : list ChangelogEntry)
    (m : Person) (ms : list Person) :
  get_changelogs package releaser_history = (ev0, Return history) →
  pkg_maintainers package = m :: ms →
  pkg_version package ∉ cl_version <$> history →
  let synthesized :=
    {| cl_version := pkg_version package;
       cl_date := get_rfc_2822_date datetime_now;
       cl_changes :=
         "  * Autogenerated, no changelog for this version found in CHANGELOG.rst.";
       cl_releaser := person_name m;
       cl_email := person_email m |} in
  assemble_changelogs package history = ([], Return (synthesized :: history))
  ∧ (∃ ev,
       package_changelogs package releaser_history
       = (ev,
          if has_newer package (synthesized :: history)
             && negb (maybe_continue "n" "Continue anyways")
          then SysExit (ExitMsg "User quit.")
          else Return (synthesized :: history)))
  ∧ (read_changelog package = None → history = [])
  ∧ (history = [] →
     assemble_changelogs package history = ([], Return [synthesized])).
Proof.
  intros Hget Hm Hnotin synthesized.
  assert (assemble_changelogs package history
          = ([], Return (synthesized :: history))) as Hasm.
  { unfold assemble_changelogs, first_maintainer. rewrite Hm.
    by rewrite (bool_decide_eq_true_2 _ Hnotin). }
  split_and!.
  - exact Hasm.
  - destruct (package_changelogs_run package releaser_history ev0 history _
                Hget Hasm) as (ev & Hrun & _).
    destruct (validate_changelogs_spec package synthesized history)
      as (evv & Hval).
    rewrite Hval in Hrun. cbn [snd] in Hrun.
    rewrite (bool_decide_eq_false_2 (pkg_version package ≠ cl_version synthesized))
      in Hrun by (intros Hne; by apply Hne).
    cbn [orb] in Hrun. exists ev. rewrite Hrun.
    by destruct (has_newer package (synthesized :: history) && _).
  - intros Hnone. unfold get_changelogs in Hget. rewrite Hnone in Hget.
    destruct releaser_history; run_unfold; cbn in Hget; congruence.
  - intros ->. exact Hasm.
Qed.

Lemma changelog_synthesized_head_witness :
  let ext := Scenario.externals (λ _, None) false None in
  ∃ ev,
    @package_changelogs ext (Scenario.package "alpha" "1.2.0" [Scenario.ann])
      None
    = (ev,
       Return [ {| cl_version := "1.2.0";
                   cl_date := "Tue, 03 Nov 2026 12:00:00 -0000";
                   cl_changes :=
                     "  * Autogenerated, no changelog for this version found in CHANGELOG.rst.";
                   cl_releaser := "Ann";
                   cl_email := "ann@example.org" |} ]).
Proof.
  intros ext.
  destruct (@changelog_synthesized_head ext
              (Scenario.package "alpha" "1.2.0" [Scenario.ann]) None
              [EvWarning ("No historical releaser history, using current maintainer name "
                          +:+ "and email for each versioned changelog entry.");
               EvWarning "No CHANGELOG.rst found for package 'alpha'"]
              [] Scenario.ann [])
    as (_ & (ev & Hrun) & _).
  - reflexivity.
  - reflexivity.
  - apply not_elem_of_nil.
  - exists ev. exact Hrun.
Defined.

(** ** Lists in first-seen order *)

Section FirstSeen.
Context {K : Type} `{EqDecision K}.
Implicit Types (l r : list K) (x y : K).

Lemma index_is_Some x l : is_Some (PyList.index x l) ↔ x ∈ l.
Proof.
  induction l as [|z l IH]; csimpl.
  - split; [by intros [? ?] | by intros ?%elem_of_nil].
  - destruct (decide (z = x)) as [->|Hne].
    + split; [intros _; by left | by eauto].
    + rewrite fmap_is_Some, IH. split; [by right |].
      by intros [?|?]%elem_of_cons.
Qed.

Lemma index_lt x l p : PyList.index x l = Some p → p < length l.
Proof.
  revert p. induction l as [|z l IH]; intros p; csimpl; [done |].
  destruct (decide (z = x)); [intros [= <-]; lia |].
  destruct (PyList.index x l) as [q|]; [|done].
  intros [= <-]. specialize (IH q eq_refl). lia.
Qed.

Lemma index_app_l x l r : x ∈ l → PyList.index x (l ++ r) = PyList.index x l.
Proof.
  induction l as [|z l IH]; csimpl; [by intros ?%elem_of_nil |].
  destruct (decide (z = x)); [done |].
  intros [?|Hin]%elem_of_cons; [congruence |]. by rewrite IH.
Qed.

Lemma index_app_r x l r :
  x ∉ l →
  PyList.index x (l ++ r) = (λ n, length l + n) <$> PyList.index x r.
Proof.
  induction l as [|z l IH]; csimpl.
  - intros _. by destruct (PyList.index x r).
  - intros Hnin. apply not_elem_of_cons in Hnin as [Hne Hnin].
    rewrite decide_False by done. rewrite IH by done.
    by destruct (PyList.index x r).
Qed.

Lemma index_snoc_new x l : x ∉ l → PyList.index x (l ++ [x]) = Some (length l).
Proof.
  intros Hnin. rewrite index_app_r by done. csimpl.
  rewrite decide_True by done. csimpl. f_equal. lia.
Qed.

Lemma keys_fromkeys_acc (d : list (K * unit)) l :
  PyDict.keys (foldl (λ d k, PyDict.setitem d k ()) d l)
  = foldl (λ ks k, if decide (k ∈ ks) then ks else ks ++ [k])
      (PyDict.keys d) l.
Proof.
  revert d. induction l as [|x l IH]; intros d; csimpl; [done |].
  by rewrite IH, keys_setitem.
Qed.

(** Filtering and then [list(dict.fromkeys(...))]: what one more element at
    the end of the list adds. *)
Lemma keys_fromkeys_filter_snoc (P : K → Prop) `{∀ x, Decision (P x)} l x :
  PyDict.keys (PyDict.fromkeys (filter P (l ++ [x])))
  = let r := PyDict.keys (PyDict.fromkeys (filter P l)) in
    if decide (P x) then (if decide (x ∈ r) then r else r ++ [x]) else r.
Proof.
  unfold PyDict.fromkeys. rewrite !keys_fromkeys_acc, filter_app, foldl_app.
  rewrite filter_cons, filter_nil. csimpl. by destruct (decide (P x)).
Qed.

(** The elements that pass the filter, each once, ordered by their first
    occurrence in the list. *)
Lemma keys_fromkeys_filter_spec (P : K → Prop) `{∀ x, Decision (P x)} l :
  let r := PyDict.keys (PyDict.fromkeys (filter P l)) in
  NoDup r
  ∧ (∀ x, x ∈ r ↔ x ∈ l ∧ P x)
  ∧ (∀ i j x y, r !! i = Some x → r !! j = Some y → i < j →
       ∃ p q, PyList.index x l = Some p ∧ PyList.index y l = Some q ∧ p < q).
Proof.
  induction l as [|z l IH] using rev_ind.
  - cbn. split_and!.
    + constructor.
    + intros x. split; [by intros ?%elem_of_nil | by intros [?%elem_of_nil _]].
    + intros i j x y Hi. by rewrite lookup_nil in Hi.
  - rewrite keys_fromkeys_filter_snoc. cbn zeta in *.
    set (r := PyDict.keys (PyDict.fromkeys (filter P l))) in *.
    destruct IH as (Hnd & Hin & Hord).
    assert (∀ i j x y, r !! i = Some x → r !! j = Some y → i < j →
              ∃ p q, PyList.index x (l ++ [z]) = Some p
                ∧ PyList.index y (l ++ [z]) = Some q ∧ p < q) as Hord'.
    { intros i j x y Hi Hj Hlt.
      destruct (Hord i j x y Hi Hj Hlt) as (p & q & Hp & Hq & Hpq).
      exists p, q. rewrite !index_app_l; [done | |].
      - apply index_is_Some. by rewrite Hq.
      - apply index_is_Some. by rewrite Hp. }
    destruct (decide (P z)) as [HP|HP]; [destruct (decide (z ∈ r)) as [Hz|Hz] |].
    + split_and!; [done | | done].
      intros x. rewrite Hin, elem_of_app, list_elem_of_singleton.
      split; [intros [? ?]; by auto |]. intros [[?| ->] ?]; [done |].
      by apply Hin in Hz.
    + split_and!.
      * apply NoDup_app. split_and!; [done | | apply NoDup_singleton].
        intros x Hx ->%list_elem_of_singleton. done.
      * intros x. rewrite !elem_of_app, Hin, list_elem_of_singleton.
        split; [intros [[? ?]| ->]; by auto |]. intros [[?| ->] ?]; by auto.
      * intros i j x y Hi Hj Hlt.
        assert (j < length r ∨ (j = length r ∧ y = z)) as [Hjr|[-> ->]].
        { apply lookup_app_Some in Hj as [Hj|[Hge Hj]].
          - left. by apply lookup_lt_Some in Hj.
          - right. apply list_lookup_singleton_Some in Hj as [Hj ->].
            split; [lia | done]. }
        -- rewrite lookup_app_l in Hi by lia. rewrite lookup_app_l in Hj by done.
           by eapply Hord'.
        -- rewrite lookup_app_l in Hi by done.
           assert (x ∈ l) as Hxl.
           { apply (Hin x). by eapply list_elem_of_lookup_2. }
           assert (z ∉ l) as Hzl.
           { intros Hzl. apply Hz, Hin. done. }
           apply index_is_Some in Hxl as [p Hp].
           exists p, (length l). rewrite index_app_l, index_snoc_new; [| done |].
           ++ split_and!; [done.. |]. by eapply index_lt.
           ++ apply index_is_Some. by rewrite Hp.
    + split_and!; [done | | done].
      intros x. rewrite Hin, elem_of_app, list_elem_of_singleton.
      split; [intros [? ?]; by auto |]. intros [[?| ->] ?]; done.
Qed.

End FirstSeen.

(** ** Aggregation *)

Section MergeFacts.

Lemma h_set_BuildDepends_id h : h_set_BuildDepends h (h_BuildDepends h) = h.
Proof. by destruct h. Qed.

Lemma h_set_BuildDepends_twice h l l' :
  h_set_BuildDepends (h_set_BuildDepends h l) l' = h_set_BuildDepends h l'.
Proof. reflexivity. Qed.

Lemma foldl_extend_header h (subs : list Subs) :
  foldl extend_header h subs
  = h_set_BuildDepends h
      (h_BuildDepends h ++ List.concat (s_BuildDepends <$> subs)).
Proof.
  revert h. induction subs as [|sub subs IH]; intros h; csimpl.
  - by rewrite app_nil_r, h_set_BuildDepends_id.
  - rewrite IH. unfold extend_header. cbn. by rewrite <-app_assoc.
Qed.

Lemma merge_packages_header_later items h n :
  merge_packages_header items (Some h) (S n)
  = ([], Return (Some (foldl extend_header h (PyDict.values items)))).
Proof.
  revert h n. induction items as [|[name sub] items IH]; intros h n; [done |].
  cbn [merge_packages_header Nat.eqb]. run_unfold. cbn [try_except app].
  replace (S n + 1) with (S (S n)) by lia. by rewrite IH.
Qed.

(** What the first map seeds. *)
Lemma seed_header_inv sub ev h :
  seed_header sub = (ev, Return h) →
  ∃ c r,
    s_Maintainers sub = String c r
    ∧ ev = []
    ∧ h_Package h = "tesseract-core"
    ∧ h_Maintainer h = String c ""
    ∧ h_Maintainers h = s_Maintainers sub
    ∧ h_BuildDepends h = s_BuildDepends sub
    ∧ h_Copyright h = s_Copyright sub.
Proof.
  unfold seed_header. destruct (s_Maintainers sub) as [|c r] eqn:E;
    run_unfold; cbn; [done |].
  intros [= <- <-]. by exists c, r.
Qed.

Lemma seed_header_total sub c r :
  s_Maintainers sub = String c r → ∃ h, seed_header sub = ([], Return h).
Proof. intros E. unfold seed_header. rewrite E. by eexists. Qed.

(** The loop over the maps: it returns only for a first map whose
    ['Maintainers'] has a first character, and then with the header that
    map seeds, holding the build dependencies of all the maps. *)
Lemma merge_packages_header_inv all_subs ev repo_header :
  merge_packages_header all_subs None 0 = (ev, Return repo_header) →
  (all_subs = [] ∧ repo_header = None)
  ∨ ∃ name sub rest h0,
      all_subs = (name, sub) :: rest
      ∧ seed_header sub = ([], Return h0)
      ∧ repo_header
        = Some (h_set_BuildDepends h0 (merged_build_depends all_subs)).
Proof.
  destruct all_subs as [|[name sub] rest].
  - intros [= <- <-]. by left.
  - intros Hrun. right. cbn [merge_packages_header Nat.eqb] in Hrun.
    apply bind_inv_Return in Hrun as (ev1 & oh & ev2 & Htry & Hrest & ->).
    apply try_except_inv_Return in Htry.
    apply bind_inv_Return in Htry as (ev3 & h0 & ev4 & Hseed & Hret & ->).
    injection Hret as <- <-.
    destruct (seed_header_inv _ _ _ Hseed) as (c & r & _ & -> & _ & _ & _ & Hbd & _).
    cbn [Nat.add] in Hrest. rewrite merge_packages_header_later in Hrest.
    injection Hrest as <- <-.
    exists name, sub, rest, h0. split_and!; [done.. |].
    rewrite foldl_extend_header. unfold merged_build_depends.
    csimpl. by rewrite Hbd.
Qed.

(** The loop returns whenever the ['Maintainers'] of the first map has a
    first character. *)
Lemma merge_packages_header_first name sub rest c r :
  s_Maintainers sub = String c r →
  ∃ h, merge_packages_header ((name, sub) :: rest) None 0 = ([], Return (Some h)).
Proof.
  intros HM. destruct (seed_header_total sub c r HM) as (h0 & Hseed).
  cbn [merge_packages_header Nat.eqb]. rewrite Hseed. run_unfold.
  cbn [try_except app Nat.add]. rewrite merge_packages_header_later.
  by eexists.
Qed.

Lemma merge_packages_returns pkgs_dict get_subs_fn os_name os_version
    ros_distro install_prefix native ev0 name sub rest c r :
  merge_packages_collect pkgs_dict get_subs_fn os_name os_version ros_distro
    install_prefix native [] = (ev0, Return ((name, sub) :: rest)) →
  s_Maintainers sub = String c r →
  ∃ view,
    merge_packages pkgs_dict get_subs_fn os_name os_version ros_distro
      install_prefix native = (ev0, Return view).
Proof.
  intros Hcollect HM. unfold merge_packages. rewrite Hcollect, bind_Return.
  destruct (merge_packages_header_first name sub rest c r HM) as (h & ->).
  rewrite bind_Return. cbn [fst snd]. rewrite !app_nil_r. by eexists.
Qed.

Lemma keys_alias_first all_subs shared :
  PyDict.keys (alias_first all_subs shared) = PyDict.keys all_subs.
Proof. by destruct all_subs as [|[name sub] rest]. Qed.

(** How a run of [merge_packages] that returns is made. *)
Lemma merge_packages_inv pkgs_dict get_subs_fn os_name os_version ros_distro
    install_prefix native ev0 all_subs ev view :
  merge_packages_collect pkgs_dict get_subs_fn os_name os_version ros_distro
    install_prefix native [] = (ev0, Return all_subs) →
  merge_packages pkgs_dict get_subs_fn os_name os_version ros_distro
    install_prefix native = (ev, Return view) →
  ∃ name sub rest h0,
    all_subs = (name, sub) :: rest
    ∧ seed_header sub = ([], Return h0)
    ∧ view
      = PyDict.setitem
          (prod_map id PkgEntry
             <$> alias_first all_subs (merged_build_depends all_subs))
          "tesseract-core"
          (HeaderEntry
             (h_set_BuildDepends h0
                (PyDict.keys
                   (PyDict.fromkeys
                      (filter (λ x, x ∉ PyDict.keys all_subs)
                         (merged_build_depends all_subs)))))).
Proof.
  intros Hcollect Hrun. unfold merge_packages in Hrun.
  apply bind_inv_Return in Hrun as (ev1 & all_subs' & ev2 & Hc & Hrun & ->).
  rewrite Hcollect in Hc. injection Hc as <- <-.
  apply bind_inv_Return in Hrun as (ev3 & repo_header & ev4 & Hloop & Hfin & ->).
  destruct (merge_packages_header_inv _ _ _ Hloop)
    as [[-> ->]|(name & sub & rest & h0 & -> & Hseed & ->)]; [done |].
  unfold mret, run_mret in Hfin. cbv beta iota zeta in Hfin.
  injection Hfin as _ <-. exists name, sub, rest, h0.
  split_and!; [done.. |].
  destruct (seed_header_inv _ _ _ Hseed) as (c & r & _ & _ & HP & _).
  rewrite HP. reflexivity.
Qed.

(** The two calls of [str.join] leave the header as the first map seeded it:
    its ['Maintainers'] and its ['Copyright'] are those of the first map. *)
Remark merge_packages_keeps_first_strings pkgs_dict get_subs_fn os_name
    os_version ros_distro install_prefix native ev0 all_subs ev view :
  merge_packages_collect pkgs_dict get_subs_fn os_name os_version ros_distro
    install_prefix native [] = (ev0, Return all_subs) →
  merge_packages pkgs_dict get_subs_fn os_name os_version ros_distro
    install_prefix native = (ev, Return view) →
  ∃ name sub rest h,
    all_subs = (name, sub) :: rest
    ∧ PyDict.get view "tesseract-core" = Some (HeaderEntry h)
    ∧ h_Maintainers h = s_Maintainers sub
    ∧ h_Copyright h = s_Copyright sub.
Proof.
  intros Hcollect Hrun.
  destruct (merge_packages_inv _ _ _ _ _ _ _ _ _ _ _ Hcollect Hrun)
    as (name & sub & rest & h0 & Hall & Hseed & ->).
  destruct (seed_header_inv _ _ _ Hseed)
    as (c & r & _ & _ & _ & _ & HM & _ & HC).
  exists name, sub, rest. eexists. split; [done |].
  split; [by rewrite get_setitem, decide_True |]. by split.
Qed.

Lemma merge_packages_collect_keys items get_subs_fn os_name os_version
    ros_distro install_prefix native acc ev all_subs :
  merge_packages_collect items get_subs_fn os_name os_version ros_distro
    install_prefix native acc = (ev, Return all_subs) →
  (∀ name, name ∈ PyDict.keys acc → name ∈ PyDict.keys all_subs)
  ∧ ∀ path pkg ev' subs,
      (path, pkg) ∈ items →
      get_subs_fn pkg os_name os_version ros_distro install_prefix native
      = (ev', Return subs) →
      s_Name subs ∈ PyDict.keys all_subs.
Proof.
  revert acc ev. induction items as [|[path0 pkg0] items IH]; intros acc ev.
  - intros [= <- <-]. split; [done |]. by intros ? ? ? ? ?%elem_of_nil.
  - cbn [merge_packages_collect]. intros Hrun.
    apply bind_inv_Return in Hrun as (ev1 & acc' & ev2 & Htry & Hrest & ->).
    apply try_except_inv_Return in Htry.
    apply bind_inv_Return in Htry as (ev3 & subs0 & ev4 & Hsubs & Hret & ->).
    injection Hret as <- <-.
    destruct (IH _ _ Hrest) as [Hacc Hitems].
    assert (∀ name, name ∈ PyDict.keys (PyDict.setitem acc (s_Name subs0) subs0)
              ↔ name = s_Name subs0 ∨ name ∈ PyDict.keys acc) as Hkeys.
    { intros name. rewrite keys_setitem. case_decide.
      - split; [by auto | by intros [->|?]].
      - rewrite elem_of_app, list_elem_of_singleton. tauto. }
    split.
    + intros name Hname. apply Hacc, Hkeys. by right.
    + intros path pkg ev' subs [Heq|Hin]%elem_of_cons Hget.
      * injection Heq as -> ->. rewrite Hsubs in Hget.
        injection Hget as _ <-. apply Hacc, Hkeys. by left.
      * by eapply Hitems.
Qed.

Lemma get_header view h :
  PyDict.get (PyDict.setitem view "tesseract-core" (HeaderEntry h))
    "tesseract-core"
  = Some (HeaderEntry h).
Proof. rewrite get_setitem. by rewrite decide_True. Qed.

End MergeFacts.

(** C2, as stated, fails: for the two maps of [alpha] and [beta] the header
    keeps the maintainers string and the license text of [alpha] alone, and
    its list lacks the build dependency ["alpha"] of [beta], which names a
    package of the release. *)
Lemma merge_packages_header_misses_later_maps :
  ∃ view h,
    merge_packages Scenario.two_packages Scenario.get_subs "ubuntu" "bionic"
      "melodic" "/opt" false
    = ([], Return view)
    ∧ merge_packages_collect Scenario.two_packages Scenario.get_subs "ubuntu"
        "bionic" "melodic" "/opt" false []
      = ([], Return [("alpha", Scenario.alpha_subs); ("beta", Scenario.beta_subs)])
    ∧ PyDict.get view "tesseract-core" = Some (HeaderEntry h)
    ∧ h_Maintainers h = "Ann <ann@example.org>"
    ∧ ¬ PyStr.contains (s_Maintainers Scenario.beta_subs) (h_Maintainers h)
    ∧ h_BuildDepends h = ["cmake"; "boost"]
    ∧ "alpha" ∈ s_BuildDepends Scenario.beta_subs
    ∧ ("alpha" ∉ h_BuildDepends h)
    ∧ h_Copyright h = "MIT"
    ∧ ¬ PyStr.contains (s_Copyright Scenario.beta_subs) (h_Copyright h)
    ∧ ¬ (header_holds_all
           [("alpha", Scenario.alpha_subs); ("beta", Scenario.beta_subs)] h).
Proof.
  eexists _, _. split; [reflexivity |].
  assert ("alpha" ∉ ["cmake"; "boost"]) as Hnotin.
  { intros Hin. apply elem_of_cons in Hin as [?|Hin]; [done |].
    apply list_elem_of_singleton in Hin. done. }
  split_and!; try reflexivity.
  - apply find_sep_None. reflexivity.
  - by left.
  - exact Hnotin.
  - apply find_sep_None. reflexivity.
  - intros Hall. destruct (Hall Scenario.beta_subs) as (_ & Hbd & _).
    { right. by left. }
    apply Hnotin, Hbd. by left.
Qed.

(** C2, amended: for every input of two or more maps (and for a single map
    too), the list of build dependencies of the header holds every build
    dependency of every map that is not the name of a package of the
    release, not only those of the first map. *)
Theorem merge_packages_build_depends_of_all
    (pkgs_dict : dict string Package) (get_subs_fn : get_subs_fn_t)
    (os_name os_version ros_distro install_prefix : string) (native : bool)
    (ev0 ev : list event) (all_subs : dict string Subs)
    (view : AggregatedView) :
  merge_packages_collect pkgs_dict get_subs_fn os_name os_version ros_distro
    install_prefix native [] = (ev0, Return all_subs) →
  merge_packages pkgs_dict get_subs_fn os_name os_version ros_distro
    install_prefix native = (ev, Return view) →
  ∃ h,
    PyDict.get view "tesseract-core" = Some (HeaderEntry h)
    ∧ ∀ sub d,
        sub ∈ PyDict.values all_subs →
        d ∈ s_BuildDepends sub →
        d ∉ PyDict.keys all_subs →
        d ∈ h_BuildDepends h.
Proof.
  intros Hcollect Hrun.
  destruct (merge_packages_inv _ _ _ _ _ _ _ _ _ _ _ Hcollect Hrun)
    as (name & sub0 & rest & h0 & Hall & Hseed & ->).
  eexists. split; [apply get_header |].
  intros sub d Hsub Hd Hnot. cbn [h_BuildDepends h_set_BuildDepends].
  apply (keys_fromkeys_filter_spec (λ x, x ∉ PyDict.keys all_subs)).
  split; [|done]. unfold merged_build_depends.
  apply list_elem_of_In, in_concat. exists (s_BuildDepends sub).
  split; [|by apply list_elem_of_In].
  apply list_elem_of_In. by apply list_elem_of_fmap_2.
Qed.

Lemma merge_packages_build_depends_of_all_witness :
  ∃ view h,
    merge_packages Scenario.two_packages Scenario.get_subs "ubuntu" "bionic"
      "melodic" "/opt" false
    = ([], Return view)
    ∧ PyDict.get view "tesseract-core" = Some (HeaderEntry h)
    ∧ "boost" ∈ h_BuildDepends h.
Proof.
  destruct (merge_packages_build_depends_of_all Scenario.two_packages
              Scenario.get_subs "ubuntu" "bionic" "melodic" "/opt" false
              [] [] _ _ eq_refl eq_refl)
    as (h & Hget & Hall).
  eexists _, h. split; [reflexivity |]. split; [exact Hget |].
  apply (Hall Scenario.beta_subs "boost").
  - right. by left.
  - right. by left.
  - intros Hin. apply elem_of_cons in Hin as [?|Hin]; [done |].
    apply list_elem_of_singleton in Hin. done.
Defined.

(** C3: whatever maps are aggregated, the list of build dependencies of the
    returned header holds no name of a package of the release (so neither of
    two packages that depend on each other), holds no element twice, and
    holds exactly the other build dependencies of the maps, ordered by their
    first occurrence in the maps.  A header is returned whenever the
    ['Maintainers'] string of the first map is not empty. *)
Theorem merge_packages_build_depends_clean
    (pkgs_dict : dict string Package) (get_subs_fn : get_subs_fn_t)
    (os_name os_version ros_distro install_prefix : string) (native : bool)
    (ev0 : list event) (all_subs : dict string Subs) :
  merge_packages_collect pkgs_dict get_subs_fn os_name os_version ros_distro
    install_prefix native [] = (ev0, Return all_subs) →
  (∀ name sub rest c r,
     all_subs = (name, sub) :: rest →
     s_Maintainers sub = String c r →
     ∃ view,
       merge_packages pkgs_dict get_subs_fn os_name os_version ros_distro
         install_prefix native = (ev0, Return view))
  ∧ ∀ ev view,
      merge_packages pkgs_dict get_subs_fn os_name os_version ros_distro
        install_prefix native = (ev, Return view) →
      ∃ h,
        PyDict.get view "tesseract-core" = Some (HeaderEntry h)
        ∧ (∀ name, name ∈ PyDict.keys all_subs → name ∉ h_BuildDepends h)
        ∧ (∀ path pkg ev' subs,
             (path, pkg) ∈ pkgs_dict →
             get_subs_fn pkg os_name os_version ros_distro install_prefix native
             = (ev', Return subs) →
             s_Name subs ∉ h_BuildDepends h)
        ∧ NoDup (h_BuildDepends h)
        ∧ (∀ x, x ∈ h_BuildDepends h
                ↔ x ∈ merged_build_depends all_subs
                  ∧ x ∉ PyDict.keys all_subs)
        ∧ (∀ i j x y,
             h_BuildDepends h !! i = Some x →
             h_BuildDepends h !! j = Some y →
             i < j →
             ∃ p q,
               PyList.index x (merged_build_depends all_subs) = Some p
               ∧ PyList.index y (merged_build_depends all_subs) = Some q
               ∧ p < q).
Proof.
  intros Hcollect. split.
  { intros name sub rest c r -> HM. by eapply merge_packages_returns. }
  intros ev view Hrun.
  destruct (merge_packages_inv _ _ _ _ _ _ _ _ _ _ _ Hcollect Hrun)
    as (name & sub0 & rest & h0 & Hall & Hseed & ->).
  destruct (keys_fromkeys_filter_spec (λ x, x ∉ PyDict.keys all_subs)
              (merged_build_depends all_subs)) as (Hnd & Hin & Hord).
  assert (∀ name, name ∈ PyDict.keys all_subs →
            name ∉ PyDict.keys (PyDict.fromkeys
                     (filter (λ x, x ∉ PyDict.keys all_subs)
                        (merged_build_depends all_subs)))) as Hnames.
  { intros n Hn Hbd. apply Hin in Hbd as [_ Hnot]. done. }
  eexists. split; [apply get_header |].
  cbn [h_BuildDepends h_set_BuildDepends]. split_and!; [done | | done..].
  intros path pkg ev' subs Hpkg Hsubs. apply Hnames.
  destruct (merge_packages_collect_keys _ _ _ _ _ _ _ _ _ _ Hcollect)
    as [_ Hkeys].
  by eapply Hkeys.
Qed.

Lemma merge_packages_build_depends_clean_witness :
  ∃ view h,
    merge_packages Scenario.two_packages Scenario.get_subs "ubuntu" "bionic"
      "melodic" "/opt" false
    = ([], Return view)
    ∧ PyDict.get view "tesseract-core" = Some (HeaderEntry h)
    ∧ "beta" ∈ s_BuildDepends Scenario.alpha_subs
    ∧ "alpha" ∈ s_BuildDepends Scenario.beta_subs
    ∧ h_BuildDepends h = ["cmake"; "boost"]
    ∧ NoDup (h_BuildDepends h).
Proof.
  destruct (merge_packages_build_depends_clean Scenario.two_packages
              Scenario.get_subs "ubuntu" "bionic" "melodic" "/opt" false
              [] _ eq_refl)
    as [Hret Hclean].
  destruct (Hret _ _ _ "A"%char "nn <ann@example.org>" eq_refl eq_refl)
    as (view & Hrun).
  destruct (Hclean _ _ Hrun) as (h & Hget & _ & _ & Hnd & _).
  exists view, h. split; [exact Hrun |]. split; [exact Hget |].
  split; [by left |]. split; [by left |]. split; [|exact Hnd].
  injection Hrun as <-. cbv in Hget. injection Hget as <-. reflexivity.
Defined.

(** C10: the ['Maintainer'] of the header is the first character of the
    ['Maintainers'] string of the first map, the result of indexing that
    string at position 0; for a map made from a package manifest that string
    is the maintainers joined by [", "], so the header holds the first
    character of the first maintainer, not the maintainer, which the key
    ['Maintainer'] of the map holds. *)
Theorem merge_packages_maintainer_first_character
    (pkgs_dict : dict string Package) (get_subs_fn : get_subs_fn_t)
    (os_name os_version ros_distro install_prefix : string) (native : bool)
    (ev0 ev : list event) (all_subs : dict string Subs)
    (view : AggregatedView) :
  merge_packages_collect pkgs_dict get_subs_fn os_name os_version ros_distro
    install_prefix native [] = (ev0, Return all_subs) →
  merge_packages pkgs_dict get_subs_fn os_name os_version ros_distro
    install_prefix native = (ev, Return view) →
  ∃ name sub rest c r h,
    all_subs = (name, sub) :: rest
    ∧ PyDict.get view "tesseract-core" = Some (HeaderEntry h)
    ∧ s_Maintainers sub = String c r
    ∧ h_Maintainer h = String c ""
    ∧ PyStr.index0 (s_Maintainers sub) = Some (h_Maintainer h)
    ∧ ∀ (ext : Externals) package evp,
        package_maintainers package
        = (evp, Return (s_Maintainer sub, s_Maintainers sub)) →
        (∃ m ms,
           pkg_maintainers package = m :: ms
           ∧ s_Maintainer sub = person_str m
           ∧ s_Maintainers sub = PyStr.join ", " (person_str <$> m :: ms))
        ∧ (String.length (s_Maintainer sub) ≠ 1 →
           h_Maintainer h ≠ s_Maintainer sub).
Proof.
  intros Hcollect Hrun.
  destruct (merge_packages_inv _ _ _ _ _ _ _ _ _ _ _ Hcollect Hrun)
    as (name & sub & rest & h0 & Hall & Hseed & ->).
  destruct (seed_header_inv _ _ _ Hseed)
    as (c & r & HM & _ & _ & Hm & _).
  exists name, sub, rest, c, r. eexists.
  split; [done |]. split; [apply get_header |].
  cbn [h_Maintainer h_set_BuildDepends]. rewrite Hm.
  split_and!; [done | done | by rewrite HM |].
  intros ext package evp Hpm. split.
  - unfold package_maintainers in Hpm.
    destruct (pkg_maintainers package) as [|m ms]; [done |].
    csimpl in Hpm. injection Hpm as _ H1 H2. by exists m, ms.
  - intros Hlen Heq. apply Hlen. by rewrite <-Heq.
Qed.

Lemma merge_packages_maintainer_first_character_witness :
  ∃ view h,
    merge_packages Scenario.two_packages Scenario.get_subs "ubuntu" "bionic"
      "melodic" "/opt" false
    = ([], Return view)
    ∧ PyDict.get view "tesseract-core" = Some (HeaderEntry h)
    ∧ s_Maintainers Scenario.alpha_subs = "Ann <ann@example.org>"
    ∧ h_Maintainer h = "A".
Proof.
  destruct (merge_packages_maintainer_first_character Scenario.two_packages
              Scenario.get_subs "ubuntu" "bionic" "melodic" "/opt" false
              [] [] _ _ eq_refl eq_refl)
    as (name & sub & rest & c & r & h & Hall & Hget & HM & Hm & _).
  eexists _, h. split; [reflexivity |]. split; [exact Hget |].
  split; [reflexivity |].
  injection Hall as _ <- _. injection HM as <- _. exact Hm.
Defined.

(** ** The command *)

Lemma remove_template_files_run `{Surroundings} (template_files : list string) :
  remove_template_files template_files = (EvRemove <$> template_files, Return ()).
Proof.
  induction template_files as [|f rest IH]; [done |].
  cbn [remove_template_files]. run_unfold. by rewrite IH.
Qed.

(** C7, as stated, fails: with the two packages [alpha] and [beta] at the
    package path the command does not stop; it aggregates both, expands the
    templates with the aggregated view and ends with status 0. *)
Lemma build_debian_pkg_accepts_two_packages :
  ∃ ev view sa sb,
    @main (Scenario.surroundings Scenario.two_packages) Scenario.no_args
      Scenario.get_subs
    = (ev, 0%Z)
    ∧ 1 < length (@find_packages
                    (Scenario.surroundings Scenario.two_packages) "/ws")
    ∧ EvProcessTemplateFiles "" view ∈ ev
    ∧ PyDict.get view "alpha" = Some (PkgEntry sa)
    ∧ PyDict.get view "beta" = Some (PkgEntry sb).
Proof.
  eexists _, _, _, _. split; [reflexivity |].
  split_and!; [cbn; lia | right; by left | reflexivity | reflexivity].
Qed.

(** C7, amended: when no package is found at the package path, the command
    ends with a non-zero status and the message that no packages were found;
    when more than one package is found it does not stop there: once the
    packages found are aggregated, the templates are placed or processed
    with the aggregated view. *)
Theorem build_debian_pkg_package_count `{Surroundings}
    (args : Args) (get_subs_fn : get_subs_fn_t) :
  let package_path := str_or (args_package_path args) getcwd in
  let os_name := str_or (args_os_name args) get_os_name_and_version.1 in
  let os_version := str_or (args_os_version args) get_os_name_and_version.2 in
  let ros_distro :=
    str_or (args_ros_distro args) (default "indigo" environ_ROS_DISTRO) in
  let install_prefix := str_or (args_install_prefix args) "/opt" in
  (length (find_packages package_path) = 0 →
   build_debian_pkg args get_subs_fn
   = ([], SysExit (ExitMsg ("No packages found in path: '" +:+ package_path
                            +:+ "'")))
   ∧ main args get_subs_fn = ([], 1%Z))
  ∧ (1 < length (find_packages package_path) →
     ∀ ev view,
       merge_packages (find_packages package_path) get_subs_fn os_name
         os_version ros_distro install_prefix (args_native args)
       = (ev, Return view) →
       ∃ ev' r,
         build_debian_pkg args get_subs_fn = (ev ++ ev', r)
         ∧ (EvPlaceTemplateFiles "" "cmake" ∈ ev'
            ∨ EvProcessTemplateFiles "" view ∈ ev')).
Proof.
  intros package_path os_name os_version ros_distro install_prefix. split.
  - intros Hlen. unfold main, build_debian_pkg. fold package_path.
    rewrite Hlen. done.
  - intros Hlen ev view Hmerge. unfold build_debian_pkg. fold package_path.
    destruct (length (find_packages package_path)) as [|n] eqn:E; [lia |].
    cbn [Nat.eqb].
    unfold os_name, os_version, ros_distro, install_prefix in Hmerge.
    destruct get_os_name_and_version as [os_name0 os_version0].
    cbn [fst snd] in Hmerge. rewrite Hmerge, bind_Return.
    eexists _, _. split; [reflexivity |].
    unfold expand_templates, call_place_template_files,
      call_process_template_files.
    destruct (args_place_template_files args),
      (args_process_template_files args); cbn [negb andb].
    all: run_unfold.
    all: repeat match goal with
         | |- context [place_template_files ?a ?b] =>
             destruct (place_template_files a b) as [? [[]| |[| |]]]
         | |- context [process_template_files ?a ?b] =>
             destruct (process_template_files a b) as [? [?| |[| |]]]
         end.
    all: rewrite ?remove_template_files_run.
    all: cbn; rewrite ?app_nil_r;
      first [ left; by left
            | right; by left
            | right; apply elem_of_app; right; by left
            | left; apply elem_of_app; left; by left
            | idtac ].
Qed.

Lemma build_debian_pkg_package_count_witness :
  @main (Scenario.surroundings []) Scenario.no_args Scenario.get_subs
  = ([], 1%Z)
  ∧ ∃ ev view r,
      @build_debian_pkg (Scenario.surroundings Scenario.two_packages)
        Scenario.no_args Scenario.get_subs
      = (ev, r)
      ∧ (EvPlaceTemplateFiles "" "cmake" ∈ ev
         ∨ EvProcessTemplateFiles "" view ∈ ev).
Proof.
  split.
  - destruct (@build_debian_pkg_package_count (Scenario.surroundings [])
                Scenario.no_args Scenario.get_subs) as [Hnone _].
    apply Hnone. reflexivity.
  - destruct (@build_debian_pkg_package_count
                (Scenario.surroundings Scenario.two_packages)
                Scenario.no_args Scenario.get_subs) as [_ Hmany].
    destruct (Hmany ltac:(cbn; lia) [] _ eq_refl) as (ev' & r & Hrun & Hev).
    eexists ev', _, r. split; [exact Hrun | exact Hev].
Defined.

(** * Further properties *)

(** ** Sorting of strings *)

Section StringOrder.

Lemma ascii_compare_refl c : Ascii.compare c c = Eq.
Proof. unfold Ascii.compare. apply N.compare_refl. Qed.

Lemma ascii_compare_lt_trans x y z :
  Ascii.compare x y = Lt → Ascii.compare y z = Lt → Ascii.compare x z = Lt.
Proof.
  unfold Ascii.compare. rewrite !N.compare_lt_iff. apply N.lt_trans.
Qed.

Lemma string_compare_refl s : String.compare s s = Eq.
Proof.
  induction s as [|c s IH]; [done |].
  cbn [String.compare]. by rewrite ascii_compare_refl.
Qed.

Lemma string_compare_lt_trans a b c :
  String.compare a b = Lt → String.compare b c = Lt → String.compare a c = Lt.
Proof.
  revert b c. induction a as [|x a IH]; intros [|y b] [|z c];
    cbn [String.compare]; try done.
  destruct (Ascii.compare x y) eqn:Exy; [|intros _|done].
  - apply Ascii.compare_eq_iff in Exy as ->.
    destruct (Ascii.compare y z) eqn:Eyz; [by apply IH | done | done].
  - destruct (Ascii.compare y z) eqn:Eyz; [|intros _|done].
    + apply Ascii.compare_eq_iff in Eyz as <-. by rewrite Exy.
    + by rewrite (ascii_compare_lt_trans x y z).
Qed.

#[global] Instance str_le_total : Total str_le.
Proof. intros a b. apply String.leb_total. Qed.

#[global] Instance str_le_antisym : AntiSymm (=) str_le.
Proof. intros a b. apply String.leb_antisym. Qed.

#[global] Instance str_le_refl : Reflexive str_le.
Proof. intros a. unfold str_le, String.leb. by rewrite string_compare_refl. Qed.

#[global] Instance str_le_trans : Transitive str_le.
Proof.
  intros a b c. unfold str_le, String.leb.
  destruct (String.compare a b) eqn:Eab; [|intros _|done].
  - apply String.compare_eq_iff in Eab as ->. done.
  - destruct (String.compare b c) eqn:Ebc; [|intros _|done].
    + apply String.compare_eq_iff in Ebc as <-. by rewrite Eab.
    + by rewrite (string_compare_lt_trans a b c).
Qed.

End StringOrder.

Lemma sorted_set_facts (l : list string) :
  StronglySorted str_le (sorted_set l)
  ∧ NoDup (sorted_set l)
  ∧ (∀ x, x ∈ sorted_set l ↔ x ∈ l).
Proof.
  unfold sorted_set. split_and!.
  - apply Sorted_StronglySorted; [apply _ |]. apply Sorted_merge_sort. apply _.
  - rewrite merge_sort_Permutation. apply NoDup_remove_dups.
  - intros x. rewrite merge_sort_Permutation. apply elem_of_remove_dups.
Qed.

(** X1: [sorted(set(l))] is in ascending order of [str], holds no element
    twice and holds exactly the elements of [l]; it is the same list
    whatever the order in which the set is walked. *)
Theorem sorted_set_spec (l : list string) :
  StronglySorted str_le (sorted_set l)
  ∧ NoDup (sorted_set l)
  ∧ (∀ x, x ∈ sorted_set l ↔ x ∈ l)
  ∧ (∀ walk, walk ≡ₚ remove_dups l → merge_sort str_le walk = sorted_set l).
Proof.
  unfold sorted_set. split_and!.
  - apply Sorted_StronglySorted; [apply _ |]. apply Sorted_merge_sort. apply _.
  - rewrite merge_sort_Permutation. apply NoDup_remove_dups.
  - intros x. rewrite merge_sort_Permutation. apply elem_of_remove_dups.
  - intros walk Hwalk. apply (Sorted_unique str_le).
    + apply Sorted_merge_sort. apply _.
    + apply Sorted_merge_sort. apply _.
    + by rewrite !merge_sort_Permutation.
Qed.

(** ** Formatting of the dependencies *)

Section FormatFacts.
Context `{Externals} `{PackageSource}.

(** What [resolve_dependencies] returns for the keys [keys]. *)
Lemma resolve_dependencies_spec (keys : list Dependency)
    (os_name os_version : string) (ros_distro : option string)
    (peer_packages : option (list string))
    (fallback_resolver : option (string → list string → run (list string))) :
  ∃ resolved,
    resolve_dependencies keys os_name os_version ros_distro peer_packages
      fallback_resolver
    = ((λ key, EvResolveRosdepKey key os_name os_version
                 (str_or ros_distro "melodic") (dep_name <$> keys) true)
         <$> (dep_name <$> keys),
       Return resolved)
    ∧ ∀ key,
        PyDict.get resolved key
        = if decide (key ∈ dep_name <$> keys)
          then Some (default [key]
                       (resolve_rosdep_key key os_name os_version
                          (str_or ros_distro "melodic") (dep_name <$> keys)
                          true).1.1)
          else None.
Proof.
  unfold resolve_dependencies.
  destruct (resolve_dependencies_loop_spec (dep_name <$> keys) os_name
              os_version (str_or ros_distro "melodic") (dep_name <$> keys) [])
    as (resolved & Hrun & Hget).
  exists resolved. split; [exact Hrun |]. intros key. by rewrite Hget.
Qed.

Lemma format_depends_loop_ok depends resolved_deps formatted :
  (∀ d, d ∈ depends → is_Some (PyDict.get resolved_deps (dep_name d))) →
  format_depends_loop depends resolved_deps formatted
  = ([], Return (formatted ++ formatted_of depends resolved_deps)).
Proof.
  revert formatted. induction depends as [|d depends IH]; intros formatted Hall.
  - cbn. by rewrite app_nil_r.
  - cbn [format_depends_loop]. unfold resolved_getitem.
    destruct (Hall d) as [resolved Hd]; [by left |]. rewrite Hd, bind_mret.
    rewrite IH by (intros d' Hd'; apply Hall; by right).
    unfold formatted_of. csimpl. by rewrite Hd, app_assoc.
Qed.

Lemma format_depends_loop_KeyError pre d post resolved_deps formatted :
  (∀ d', d' ∈ pre → is_Some (PyDict.get resolved_deps (dep_name d'))) →
  PyDict.get resolved_deps (dep_name d) = None →
  format_depends_loop (pre ++ d :: post) resolved_deps formatted
  = ([], Raise (Exception "KeyError" (repr_str (dep_name d)))).
Proof.
  revert formatted. induction pre as [|d0 pre IH]; intros formatted Hall Hd.
  - cbn [app format_depends_loop]. unfold resolved_getitem. by rewrite Hd.
  - cbn [app format_depends_loop]. unfold resolved_getitem.
    destruct (Hall d0) as [resolved Hd0]; [by left |]. rewrite Hd0, bind_mret.
    apply IH; [|done]. intros d' Hd'. apply Hall. by right.
Qed.

(** A list splits at its first element that fails a decidable test. *)
Lemma first_failure {A} (P : A → Prop) `{∀ x, Decision (P x)} (l : list A) :
  (∃ x, x ∈ l ∧ ¬ P x) →
  ∃ pre x post, l = pre ++ x :: post ∧ (∀ y, y ∈ pre → P y) ∧ ¬ P x.
Proof.
  induction l as [|a l IH]; [by intros (x & ?%elem_of_nil & _) |].
  intros (x & Hx & Hnot). destruct (decide (P a)) as [Ha|Ha].
  - destruct IH as (pre & x' & post & -> & Hpre & Hx').
    { apply elem_of_cons in Hx as [->|Hx]; [done | by exists x]. }
    exists (a :: pre), x', post. split_and!; [done | | done].
    intros y [->|Hy]%elem_of_cons; [done | by apply Hpre].
  - exists [], a, l. split_and!; [done | | done]. by intros y ?%elem_of_nil.
Qed.

(** X2: [format_depends] gives, for each dependency in turn and each of its
    resolved names in turn, the strings of [format_resolved_dep], when every
    dependency has an entry in the mapping; otherwise it raises [KeyError]
    for the first dependency without an entry and gives nothing. *)
Theorem format_depends_spec (depends : list Dependency)
    (resolved_deps : dict string (list string)) :
  ((∀ d, d ∈ depends → is_Some (PyDict.get resolved_deps (dep_name d))) →
   format_depends depends resolved_deps
   = ([], Return (formatted_of depends resolved_deps)))
  ∧ (∀ pre d post,
       depends = pre ++ d :: post →
       (∀ d', d' ∈ pre → is_Some (PyDict.get resolved_deps (dep_name d'))) →
       PyDict.get resolved_deps (dep_name d) = None →
       format_depends depends resolved_deps
       = ([], Raise (Exception "KeyError" (repr_str (dep_name d))))).
Proof.
  unfold format_depends. split.
  - intros Hall. by rewrite format_depends_loop_ok.
  - intros pre d post -> Hpre Hd. by apply format_depends_loop_KeyError.
Qed.

Lemma format_depends_raises depends resolved_deps :
  (∃ d, d ∈ depends ∧ PyDict.get resolved_deps (dep_name d) = None) →
  ∃ d, d ∈ depends
    ∧ PyDict.get resolved_deps (dep_name d) = None
    ∧ format_depends depends resolved_deps
      = ([], Raise (Exception "KeyError" (repr_str (dep_name d)))).
Proof.
  intros (d & Hd & Hnone).
  destruct (first_failure
              (λ d, is_Some (PyDict.get resolved_deps (dep_name d))) depends)
    as (pre & x & post & -> & Hpre & Hx).
  { exists d. split; [done |]. rewrite Hnone. by intros [? ?]. }
  assert (PyDict.get resolved_deps (dep_name x) = None) as Hxn.
  { destruct (PyDict.get resolved_deps (dep_name x)); [|done].
    exfalso. apply Hx. by eexists. }
  exists x. split_and!; [| done |].
  - apply elem_of_app. right. by left.
  - unfold format_depends. by apply format_depends_loop_KeyError.
Qed.

(** X3: the dependencies among the keys handed to [resolve_dependencies]
    are formatted without [KeyError]: the strings are those of the answer of
    the service for each key, or of the key itself where the service knows
    no rule. *)
Theorem format_depends_after_resolve (keys depends : list Dependency)
    (os_name os_version : string) (ros_distro : option string)
    (peer_packages : option (list string))
    (fallback_resolver : option (string → list string → run (list string))) :
  (∀ d, d ∈ depends → dep_name d ∈ dep_name <$> keys) →
  ∃ ev resolved_deps,
    resolve_dependencies keys os_name os_version ros_distro peer_packages
      fallback_resolver = (ev, Return resolved_deps)
    ∧ format_depends depends resolved_deps
      = ([],
         Return
           (List.concat
              ((λ d, List.concat
                       (format_resolved_dep d
                          <$> resolution_of os_name os_version
                                (str_or ros_distro "melodic")
                                (dep_name <$> keys) (dep_name d)))
                 <$> depends))).
Proof.
  intros Hsub.
  destruct (resolve_dependencies_spec keys os_name os_version ros_distro
              peer_packages fallback_resolver) as (resolved & Hrun & Hget).
  eexists _, resolved. split; [exact Hrun |].
  unfold format_depends. rewrite format_depends_loop_ok.
  - f_equal. f_equal. unfold formatted_of. cbn [app]. f_equal.
    apply list_fmap_ext. intros i d Hd.
    rewrite Hget, decide_True; [done |].
    apply Hsub. by eapply list_elem_of_lookup_2.
  - intros d Hd. rewrite Hget, decide_True by (by apply Hsub). by eexists.
Qed.

End FormatFacts.

Lemma format_depends_after_resolve_witness :
  ∃ ev resolved_deps,
    @resolve_dependencies Cases.externals
      [Cases.dep "boost" None (Some "1.58") None; Cases.dep "foo_bar" None None None]
      "ubuntu" "bionic" None None None = (ev, Return resolved_deps)
    ∧ @format_depends (Cases.source "cmake" Cases.no_lists [] [])
        [Cases.dep "boost" None (Some "1.58") None;
         Cases.dep "foo_bar" None None None] resolved_deps
      = ([], Return ["libboost-all-dev (>= 1.58)"; "foo_bar"]).
Proof.
  destruct (@format_depends_after_resolve Cases.externals
              (Cases.source "cmake" Cases.no_lists [] [])
              [Cases.dep "boost" None (Some "1.58") None;
               Cases.dep "foo_bar" None None None]
              [Cases.dep "boost" None (Some "1.58") None;
               Cases.dep "foo_bar" None None None]
              "ubuntu" "bionic" None None None)
    as (ev & resolved_deps & Hrun & Hfmt).
  - intros d Hd. by apply list_elem_of_fmap_2.
  - exists ev, resolved_deps. split; [exact Hrun | exact Hfmt].
Defined.

Lemma format_depends_spec_witness :
  @format_depends (Cases.source "cmake" Cases.no_lists [] [])
    [Cases.dep "cmake" None None None; Cases.dep "old" None None None]
    [("cmake", ["cmake"])]
  = ([], Raise (Exception "KeyError" "'old'"))
  ∧ @format_depends (Cases.source "cmake" Cases.no_lists [] [])
      [Cases.dep "cmake" None None (Some "4")]
      [("cmake", ["cmake"; "cmake-data"])]
    = ([], Return ["cmake (<< 4)"; "cmake-data (<< 4)"]).
Proof.
  split.
  - destruct (@format_depends_spec (Cases.source "cmake" Cases.no_lists [] [])
                [Cases.dep "cmake" None None None; Cases.dep "old" None None None]
                [("cmake", ["cmake"])]) as [_ Hraise].
    apply (Hraise [Cases.dep "cmake" None None None]
             (Cases.dep "old" None None None) []); [reflexivity | | reflexivity].
    intros d' ->%list_elem_of_singleton. by eexists.
  - destruct (@format_depends_spec (Cases.source "cmake" Cases.no_lists [] [])
                [Cases.dep "cmake" None None (Some "4")]
                [("cmake", ["cmake"; "cmake-data"])]) as [Hok _].
    apply Hok. intros d ->%list_elem_of_singleton. by eexists.
Defined.

Lemma format_resolved_dep_constraints (d : Dependency) (name : string) :
  format_resolved_dep d name
  = match omap id [constraint name "<<" <$> dep_version_lt d;
                   constraint name "<=" <$> dep_version_lte d;
                   constraint name "=" <$> dep_version_eq d;
                   constraint name ">=" <$> dep_version_gte d;
                   constraint name ">>" <$> dep_version_gt d] with
    | [] => [name]
    | l => l
    end.
Proof.
  destruct d as [n [lt|] [lte|] [eq|] [gte|] [gt|] cond]; reflexivity.
Qed.

Lemma constraint_count_length (d : Dependency) (name : string) :
  length (omap id [constraint name "<<" <$> dep_version_lt d;
                   constraint name "<=" <$> dep_version_lte d;
                   constraint name "=" <$> dep_version_eq d;
                   constraint name ">=" <$> dep_version_gte d;
                   constraint name ">>" <$> dep_version_gt d])
  = constraint_count d.
Proof.
  destruct d as [n [lt|] [lte|] [eq|] [gte|] [gt|] cond]; reflexivity.
Qed.

(** X4: one resolved name of a dependency becomes the bare name when the
    dependency declares no version constraint, and otherwise one string
    [name (op value)] per declared constraint and nothing else, with [<<],
    [<=], [=], [>=] and [>>] for [version_lt], [version_lte], [version_eq],
    [version_gte] and [version_gt]. *)
Theorem format_resolved_dep_spec (d : Dependency) (name : string) :
  (constraint_count d = 0 → format_resolved_dep d name = [name])
  ∧ (0 < constraint_count d →
     length (format_resolved_dep d name) = constraint_count d
     ∧ ∀ x, x ∈ format_resolved_dep d name ↔
         (∃ v, dep_version_lt d = Some v ∧ x = constraint name "<<" v)
         ∨ (∃ v, dep_version_lte d = Some v ∧ x = constraint name "<=" v)
         ∨ (∃ v, dep_version_eq d = Some v ∧ x = constraint name "=" v)
         ∨ (∃ v, dep_version_gte d = Some v ∧ x = constraint name ">=" v)
         ∨ (∃ v, dep_version_gt d = Some v ∧ x = constraint name ">>" v)).
Proof.
  rewrite format_resolved_dep_constraints.
  pose proof (constraint_count_length d name) as Hlen.
  set (l := omap id _) in *.
  assert (∀ x, x ∈ l ↔
            (∃ v, dep_version_lt d = Some v ∧ x = constraint name "<<" v)
            ∨ (∃ v, dep_version_lte d = Some v ∧ x = constraint name "<=" v)
            ∨ (∃ v, dep_version_eq d = Some v ∧ x = constraint name "=" v)
            ∨ (∃ v, dep_version_gte d = Some v ∧ x = constraint name ">=" v)
            ∨ (∃ v, dep_version_gt d = Some v ∧ x = constraint name ">>" v))
    as Hin.
  { intros x. unfold l. rewrite list_elem_of_omap. split.
    - intros (o & Ho & Hx). unfold id in Hx. subst o.
      rewrite !elem_of_cons, elem_of_nil in Ho.
      destruct Ho as [Ho|[Ho|[Ho|[Ho|[Ho|[]]]]]];
        symmetry in Ho; apply fmap_Some in Ho as (v & Hv & ->); eauto 10.
    - intros Hx. exists (Some x). split; [|done].
      rewrite !elem_of_cons.
      destruct Hx as [(v & -> & ->)|[(v & -> & ->)|[(v & -> & ->)|
                     [(v & -> & ->)|(v & -> & ->)]]]]; tauto. }
  split.
  - intros Hc. rewrite <-Hlen in Hc. by destruct l.
  - intros Hc. rewrite <-Hlen in Hc. destruct l as [|y l']; [by inversion Hc |].
    split; [by rewrite <-Hlen | exact Hin].
Qed.

Lemma format_resolved_dep_spec_witness :
  format_resolved_dep (Cases.dep "boost" None (Some "1.58") (Some "2"))
    "libboost-all-dev"
  = ["libboost-all-dev (<< 2)"; "libboost-all-dev (>= 1.58)"]
  ∧ format_resolved_dep (Cases.dep "boost" None None None) "libboost-all-dev"
    = ["libboost-all-dev"].
Proof.
  split.
  - reflexivity.
  - destruct (format_resolved_dep_spec (Cases.dep "boost" None None None)
                "libboost-all-dev") as [Hbare _].
    apply Hbare. reflexivity.
Defined.

(** ** The substitutions of one package *)

Section SubstitutionFacts.
Context `{Externals} `{PackageSource}.

Lemma format_depends_Return_inv depends resolved_deps ev formatted :
  format_depends depends resolved_deps = (ev, Return formatted) →
  ev = []
  ∧ formatted = formatted_of depends resolved_deps
  ∧ ∀ d, d ∈ depends → is_Some (PyDict.get resolved_deps (dep_name d)).
Proof.
  intros Hrun.
  destruct (decide (Forall (λ d, is_Some (PyDict.get resolved_deps (dep_name d)))
                      depends)) as [Hall|Hnot].
  - rewrite Forall_forall in Hall. unfold format_depends in Hrun.
    rewrite format_depends_loop_ok in Hrun by done.
    injection Hrun as <- <-. done.
  - apply not_Forall_Exists in Hnot; [|apply _].
    apply Exists_exists in Hnot as (d & Hd & Hnone).
    destruct (format_depends_raises depends resolved_deps) as (d' & _ & _ & Hr).
    { exists d. split; [done |]. cbn in Hnone.
      destruct (PyDict.get resolved_deps (dep_name d)); [|done].
      exfalso. apply Hnone. by eexists. }
    rewrite Hr in Hrun. done.
Qed.

Lemma active_depends_unresolved lists d :
  d ∈ active_depends lists → d ∈ unresolved_keys lists.
Proof.
  intros Hd. unfold unresolved_keys. apply list_elem_of_filter.
  split; [|apply elem_of_app; by left].
  unfold active_depends in Hd. by apply list_elem_of_filter in Hd as [? _].
Qed.

Lemma active_build_depends_unresolved lists d :
  d ∈ active_build_depends lists → d ∈ unresolved_keys lists.
Proof.
  intros Hd. unfold unresolved_keys. apply list_elem_of_filter.
  split; [|rewrite !elem_of_app; by right; left].
  unfold active_build_depends in Hd.
  by apply list_elem_of_filter in Hd as [? _].
Qed.

Lemma homepage_warning_run (homepage : string) :
  ∃ evh,
    (if String.eqb homepage "" then warning "No homepage set, defaulting to ''"
     else skip) = (evh, Return ())
    ∧ ∀ e, e ∈ evh → e = EvWarning "No homepage set, defaulting to ''".
Proof.
  destruct (String.eqb homepage ""); eexists; (split; [reflexivity |]).
  - by intros e ->%list_elem_of_singleton.
  - by intros e ?%elem_of_nil.
Qed.

(** How a run of [generate_substitutions_from_package] that returns is
    made. *)
Lemma generate_substitutions_inv package os_name os_version ros_distro
    installation_prefix deb_inc peer_packages releaser_history
    fallback_resolver native ev s :
  generate_substitutions_from_package package os_name os_version ros_distro
    installation_prefix deb_inc peer_packages releaser_history
    fallback_resolver native = (ev, Return s) →
  let lists := evaluate_package_conditions package ros_distro in
  ∃ evr resolved_deps evb pass_install_scripts evm Maintainer Maintainers evc
    changelogs evl licenses,
    resolve_dependencies (unresolved_keys lists) os_name os_version
      (Some ros_distro)
      (Some (default [] peer_packages
             ++ (dep_name <$> (replaces lists ++ conflicts lists))))
      fallback_resolver = (evr, Return resolved_deps)
    ∧ (∀ d, d ∈ replaces lists ++ conflicts lists →
         is_Some (PyDict.get resolved_deps (dep_name d)))
    ∧ build_type_substitutions package = (evb, Return pass_install_scripts)
    ∧ package_maintainers package = (evm, Return (Maintainer, Maintainers))
    ∧ package_changelogs package releaser_history = (evc, Return changelogs)
    ∧ read_licenses package (pkg_licenses package) [] = (evl, Return licenses)
    ∧ s = {| s_Name := pkg_name package;
             s_Version := pkg_version package;
             s_Description := format_description (pkg_description package);
             s_Homepage :=
               default ""
                 (head (url_str <$> filter (λ url, url_type url = "website")
                                      (pkg_urls package)));
             s_DebianInc := if native then "" else "-" +:+ str_of_int deb_inc;
             s_format := if native then "native" else "quilt";
             s_Package := sanitize_package_name (pkg_name package);
             s_InstallationPrefix := installation_prefix;
             s_Depends :=
               sorted_set (formatted_of (active_depends lists) resolved_deps);
             s_BuildDepends :=
               sorted_set
                 (formatted_of (active_build_depends lists) resolved_deps);
             s_Replaces :=
               sorted_set (formatted_of (replaces lists) resolved_deps);
             s_Conflicts :=
               sorted_set (formatted_of (conflicts lists) resolved_deps);
             s_pass_install_scripts := pass_install_scripts;
             s_Distribution := os_version;
             s_Date := stamp_strftime "%a, %d %b %Y %T %z";
             s_YYYY := stamp_strftime "%Y";
             s_Maintainer := Maintainer;
             s_Maintainers := Maintainers;
             s_changelogs := changelogs;
             s_debhelper_version :=
               if bool_decide (os_version ∈ ["oneiric"]) then 7%Z else 9%Z;
             s_Copyright := PyStr.join license_separator licenses |}.
Proof.
  intros Hrun lists. unfold generate_substitutions_from_package in Hrun.
  cbv zeta in Hrun.
  apply bind_inv_Return in Hrun as (evh & [] & ev1 & _ & Hrun & ->).
  apply bind_inv_Return in Hrun as (evr & resolved & ev2 & Hres & Hrun & ->).
  apply bind_inv_Return in Hrun as (e1 & f1 & ev3 & Hf1 & Hrun & ->).
  apply bind_inv_Return in Hrun as (e2 & f2 & ev4 & Hf2 & Hrun & ->).
  apply bind_inv_Return in Hrun as (e3 & f3 & ev5 & Hf3 & Hrun & ->).
  apply bind_inv_Return in Hrun as (e4 & f4 & ev6 & Hf4 & Hrun & ->).
  apply bind_inv_Return in Hrun as (evb & pass & ev7 & Hb & Hrun & ->).
  apply bind_inv_Return in Hrun as (evm & [M Ms] & ev8 & Hm & Hrun & ->).
  apply bind_inv_Return in Hrun as (evc & cls & ev9 & Hc & Hrun & ->).
  apply bind_inv_Return in Hrun as (evs & [] & ev10 & _ & Hrun & ->).
  apply bind_inv_Return in Hrun as (evl & licenses & ev11 & Hl & Hrun & ->).
  injection Hrun as _ <-.
  apply format_depends_Return_inv in Hf1 as (_ & -> & _).
  apply format_depends_Return_inv in Hf2 as (_ & -> & _).
  apply format_depends_Return_inv in Hf3 as (_ & -> & Hr3).
  apply format_depends_Return_inv in Hf4 as (_ & -> & Hr4).
  exists evr, resolved, evb, pass, evm, M, Ms, evc, cls, evl, licenses.
  split_and!; try done.
  intros d [Hd|Hd]%elem_of_app; [by apply Hr3 | by apply Hr4].
Qed.

End SubstitutionFacts.

Section RunSteps.
Context {A B : Type}.

Lemma bind_run_Return (m : run A) (f : A → run B) ev a ev' r :
  m = (ev, Return a) → f a = (ev', r) → (m ≫= f) = (ev ++ ev', r).
Proof. intros -> Hf. rewrite bind_Return. by rewrite Hf. Qed.

Lemma bind_pure (a : A) (f : A → run B) : (([], Return a) ≫= f) = f a.
Proof. apply bind_mret. Qed.

Lemma bind_stop_Raise ev e (f : A → run B) :
  ((ev, Raise e) ≫= f) = (ev, Raise e).
Proof. reflexivity. Qed.

Lemma bind_stop_SysExit ev arg (f : A → run B) :
  ((ev, SysExit arg) ≫= f) = (ev, SysExit arg).
Proof. reflexivity. Qed.

Lemma bind_run_SysExit (m : run A) (f : A → run B) ev arg :
  m = (ev, SysExit arg) → (m ≫= f) = (ev, SysExit arg).
Proof. by intros ->. Qed.

Lemma bind_run_Raise (m : run A) (f : A → run B) ev e :
  m = (ev, Raise e) → (m ≫= f) = (ev, Raise e).
Proof. by intros ->. Qed.

End RunSteps.

Section SubstitutionRuns.
Context `{Externals} `{PackageSource}.

Lemma formatted_of_elem depends resolved_deps x :
  x ∈ formatted_of depends resolved_deps
  ↔ ∃ d r, d ∈ depends
      ∧ r ∈ default [] (PyDict.get resolved_deps (dep_name d))
      ∧ x ∈ format_resolved_dep d r.
Proof.
  unfold formatted_of. rewrite list_elem_of_In, in_concat. split.
  - intros (l & Hl & Hx). apply list_elem_of_In, list_elem_of_fmap in Hl
      as (d & -> & Hd).
    apply in_concat in Hx as (l' & Hl' & Hx).
    apply list_elem_of_In, list_elem_of_fmap in Hl' as (r & -> & Hr).
    exists d, r. split_and!; [done.. |]. by apply list_elem_of_In.
  - intros (d & r & Hd & Hr & Hx). eexists. split.
    + apply list_elem_of_In. by apply (list_elem_of_fmap_2 _ _ d).
    + apply in_concat. eexists. split.
      * apply list_elem_of_In. by apply (list_elem_of_fmap_2 _ _ r).
      * by apply list_elem_of_In.
Qed.

(** The first four steps of [generate_substitutions_from_package] when every
    name of the replaces and conflicts is among the keys that are resolved:
    the run reaches the build type. *)
Lemma generate_substitutions_reaches_build_type package os_name os_version
    ros_distro installation_prefix deb_inc peer_packages releaser_history
    fallback_resolver native :
  let lists := evaluate_package_conditions package ros_distro in
  (∀ d, d ∈ replaces lists ++ conflicts lists →
     dep_name d ∈ dep_name <$> unresolved_keys lists) →
  ∃ ev0 k,
    generate_substitutions_from_package package os_name os_version ros_distro
      installation_prefix deb_inc peer_packages releaser_history
      fallback_resolver native
    = (ev0 ++ (build_type_substitutions package ≫= k).1,
       (build_type_substitutions package ≫= k).2)
    ∧ (∀ e, e ∈ ev0 → template_event e = false)
    ∧ (∀ default msg, EvMaybeContinue default msg ∉ ev0)
    ∧ (∀ msg, EvError msg ∉ ev0).
Proof.
  intros lists Hnames. unfold generate_substitutions_from_package. cbv zeta.
  fold lists. fold (active_depends lists). fold (active_build_depends lists).
  fold (unresolved_keys lists).
  match goal with |- context [String.eqb ?h ""] =>
    destruct (homepage_warning_run h) as (evh & Hh & Hevh) end.
  match goal with |- context [resolve_dependencies ?k ?a ?b ?c ?d ?e] =>
    destruct (resolve_dependencies_spec k a b c d e)
      as (resolved & Hres & Hget) end.
  assert (∀ d, dep_name d ∈ dep_name <$> unresolved_keys lists →
            is_Some (PyDict.get resolved (dep_name d))) as Hsome.
  { intros d Hd. rewrite Hget, decide_True by done. by eexists. }
  rewrite Hh, bind_Return, Hres, bind_Return. cbn [fst snd].
  unfold format_depends.
  rewrite !format_depends_loop_ok.
  - rewrite !bind_pure. eexists _, _. rewrite app_assoc.
    split; [reflexivity |].
    assert (∀ e, e ∈ evh ++ ((λ key, EvResolveRosdepKey key os_name os_version
                                (str_or (Some ros_distro) "melodic")
                                (dep_name <$> unresolved_keys lists) true)
                              <$> (dep_name <$> unresolved_keys lists)) →
              (∃ msg, e = EvWarning msg)
              ∨ ∃ key a b c l r, e = EvResolveRosdepKey key a b c l r) as Hev.
    { intros e [He|He]%elem_of_app.
      - left. eexists. by apply Hevh.
      - right. apply list_elem_of_fmap in He as (key & -> & _). by eauto 10. }
    split_and!.
    + intros e [[msg ->]|(? & ? & ? & ? & ? & ? & ->)]%Hev; done.
    + intros d m [[msg ?]|(? & ? & ? & ? & ? & ? & ?)]%Hev; done.
    + intros m [[msg ?]|(? & ? & ? & ? & ? & ? & ?)]%Hev; done.
  - intros d Hd. apply Hsome. apply list_elem_of_fmap_2.
    by apply active_depends_unresolved.
  - intros d Hd. apply Hsome. apply list_elem_of_fmap_2.
    by apply active_build_depends_unresolved.
  - intros d Hd. apply Hsome, Hnames. apply elem_of_app. by left.
  - intros d Hd. apply Hsome, Hnames. apply elem_of_app. by right.
Qed.

End SubstitutionRuns.

Section SubstitutionTheorems.
Context `{Externals} `{PackageSource}.

(** X5: in the map that [generate_substitutions_from_package] returns, the
    runtime and the build dependencies are in ascending order without
    duplicates, and they are exactly the strings that [format_resolved_dep]
    gives for a dependency of the role whose condition holds and for a name
    that the dependency resolves to: an answer of the service, or the key
    where the service knows no rule. *)
Theorem generate_substitutions_depends (package : Package)
    (os_name os_version ros_distro installation_prefix : string) (deb_inc : Z)
    (peer_packages : option (list string))
    (releaser_history : option (dict string (string * string)))
    (fallback_resolver : option (string → list string → run (list string)))
    (native : bool) (ev : list event) (s : Subs) :
  generate_substitutions_from_package package os_name os_version ros_distro
    installation_prefix deb_inc peer_packages releaser_history
    fallback_resolver native = (ev, Return s) →
  let lists := evaluate_package_conditions package ros_distro in
  let resolution :=
    resolution_of os_name os_version (str_or (Some ros_distro) "melodic")
      (dep_name <$> unresolved_keys lists) in
  StronglySorted str_le (s_Depends s) ∧ NoDup (s_Depends s)
  ∧ StronglySorted str_le (s_BuildDepends s) ∧ NoDup (s_BuildDepends s)
  ∧ (∀ x, x ∈ s_Depends s ↔
       ∃ d r, d ∈ run_depends lists ++ buildtool_export_depends lists
         ∧ condition_holds d = true
         ∧ r ∈ resolution (dep_name d)
         ∧ x ∈ format_resolved_dep d r)
  ∧ (∀ x, x ∈ s_BuildDepends s ↔
       ∃ d r, d ∈ build_depends lists ++ buildtool_depends lists
                  ++ test_depends lists
         ∧ condition_holds d = true
         ∧ r ∈ resolution (dep_name d)
         ∧ x ∈ format_resolved_dep d r).
Proof.
  intros Hrun lists resolution.
  apply generate_substitutions_inv in Hrun
    as (evr & resolved & evb & pass & evm & M & Ms & evc & cls & evl & lic
        & Hres & _ & _ & _ & _ & _ & ->).
  fold lists in Hres. cbn [s_Depends s_BuildDepends]. fold lists.
  destruct (resolve_dependencies_spec (unresolved_keys lists) os_name
              os_version (Some ros_distro)
              (Some (default [] peer_packages
                     ++ (dep_name <$> (replaces lists ++ conflicts lists))))
              fallback_resolver) as (resolved' & Hres' & Hget).
  rewrite Hres in Hres'. injection Hres' as _ <-.
  assert (∀ d, d ∈ unresolved_keys lists →
            default [] (PyDict.get resolved (dep_name d))
            = resolution (dep_name d)) as Hresolved.
  { intros d Hd. rewrite Hget, decide_True; [done |].
    by apply list_elem_of_fmap_2. }
  destruct (sorted_set_facts (formatted_of (active_depends lists) resolved))
    as (Hs1 & Hn1 & He1).
  destruct (sorted_set_facts (formatted_of (active_build_depends lists) resolved))
    as (Hs2 & Hn2 & He2).
  split_and!; [done.. | |].
  - intros x. rewrite He1, formatted_of_elem. split.
    + intros (d & r & Hd & Hr & Hx). exists d, r.
      rewrite <-Hresolved by (by apply active_depends_unresolved).
      unfold active_depends in Hd. apply list_elem_of_filter in Hd as [? ?].
      done.
    + intros (d & r & Hd & Hc & Hr & Hx). exists d, r.
      assert (d ∈ active_depends lists) as Hact.
      { unfold active_depends. by apply list_elem_of_filter. }
      rewrite Hresolved by (by apply active_depends_unresolved). done.
  - intros x. rewrite He2, formatted_of_elem. split.
    + intros (d & r & Hd & Hr & Hx). exists d, r.
      rewrite <-Hresolved by (by apply active_build_depends_unresolved).
      unfold active_build_depends in Hd.
      apply list_elem_of_filter in Hd as [? ?]. done.
    + intros (d & r & Hd & Hc & Hr & Hx). exists d, r.
      assert (d ∈ active_build_depends lists) as Hact.
      { unfold active_build_depends. by apply list_elem_of_filter. }
      rewrite Hresolved by (by apply active_build_depends_unresolved). done.
Qed.

(** X6: a replaces or conflicts entry whose condition is false is left out
    of the keys that are resolved but not out of the formatting: when its
    name is no key of a dependency whose condition holds,
    [generate_substitutions_from_package] raises [KeyError] for such an
    entry, before the build type is looked at. *)
Theorem generate_substitutions_inactive_replaces (package : Package)
    (os_name os_version ros_distro installation_prefix : string) (deb_inc : Z)
    (peer_packages : option (list string))
    (releaser_history : option (dict string (string * string)))
    (fallback_resolver : option (string → list string → run (list string)))
    (native : bool) (d : Dependency) :
  let lists := evaluate_package_conditions package ros_distro in
  d ∈ replaces lists ++ conflicts lists →
  dep_name d ∉ dep_name <$> unresolved_keys lists →
  ∃ ev d',
    generate_substitutions_from_package package os_name os_version ros_distro
      installation_prefix deb_inc peer_packages releaser_history
      fallback_resolver native
    = (ev, Raise (Exception "KeyError" (repr_str (dep_name d'))))
    ∧ d' ∈ replaces lists ++ conflicts lists
    ∧ condition_holds d' = false
    ∧ ∀ msg, EvError msg ∉ ev.
Proof.
  intros lists Hd Hname. unfold generate_substitutions_from_package. cbv zeta.
  fold lists. fold (active_depends lists). fold (active_build_depends lists).
  fold (unresolved_keys lists).
  match goal with |- context [String.eqb ?h ""] =>
    destruct (homepage_warning_run h) as (evh & Hh & Hevh) end.
  match goal with |- context [resolve_dependencies ?k ?a ?b ?c ?d ?e] =>
    destruct (resolve_dependencies_spec k a b c d e)
      as (resolved & Hres & Hget) end.
  assert (∀ d, PyDict.get resolved (dep_name d) = None →
            d ∈ replaces lists ++ conflicts lists →
            condition_holds d = false) as Hfalse.
  { intros d0 Hnone Hin. destruct (condition_holds d0) eqn:Hc; [|done].
    exfalso. rewrite Hget in Hnone.
    rewrite decide_True in Hnone; [done |]. apply list_elem_of_fmap_2.
    unfold unresolved_keys. apply list_elem_of_filter. split; [done |].
    rewrite !elem_of_app in *. tauto. }
  assert (PyDict.get resolved (dep_name d) = None) as Hdnone.
  { rewrite Hget. by rewrite decide_False. }
  assert (∀ e, e ∈ evh ++ ((λ key, EvResolveRosdepKey key os_name os_version
                              (str_or (Some ros_distro) "melodic")
                              (dep_name <$> unresolved_keys lists) true)
                            <$> (dep_name <$> unresolved_keys lists)) →
            ∀ msg, e ≠ EvError msg) as Hev.
  { intros e [He|He]%elem_of_app msg.
    - by rewrite (Hevh e He).
    - by apply list_elem_of_fmap in He as (key & -> & _). }
  rewrite Hh, bind_Return, Hres, bind_Return. cbn [fst snd].
  unfold format_depends.
  rewrite (format_depends_loop_ok (active_depends lists)), bind_pure.
  2:{ intros d0 Hd0. rewrite Hget, decide_True; [by eexists |].
      by apply list_elem_of_fmap_2, active_depends_unresolved. }
  rewrite (format_depends_loop_ok (active_build_depends lists)), bind_pure.
  2:{ intros d0 Hd0. rewrite Hget, decide_True; [by eexists |].
      by apply list_elem_of_fmap_2, active_build_depends_unresolved. }
  destruct (decide (Forall (λ d, is_Some (PyDict.get resolved (dep_name d)))
                      (replaces lists))) as [Hall|Hnot].
  - rewrite Forall_forall in Hall.
    rewrite (format_depends_loop_ok (replaces lists)), bind_pure by done.
    destruct (format_depends_raises (conflicts lists) resolved)
      as (d' & Hd' & Hnone & Hr).
    { apply elem_of_app in Hd as [Hd|Hd]; [|by exists d].
      destruct (Hall d Hd) as [? Hsome]. by rewrite Hsome in Hdnone. }
    unfold format_depends in Hr. rewrite Hr, bind_stop_Raise.
    eexists _, d'. split; [reflexivity |]. split_and!.
    + apply elem_of_app. by right.
    + apply Hfalse; [done |]. apply elem_of_app. by right.
    + intros msg Hin. cbn [fst] in Hin. rewrite app_nil_r in Hin.
      by eapply Hev.
  - apply not_Forall_Exists in Hnot; [|apply _].
    apply Exists_exists in Hnot as (d0 & Hd0 & Hnone0). cbn in Hnone0.
    destruct (format_depends_raises (replaces lists) resolved)
      as (d' & Hd' & Hnone & Hr).
    { exists d0. split; [done |].
      destruct (PyDict.get resolved (dep_name d0)); [|done].
      exfalso. apply Hnone0. by eexists. }
    unfold format_depends in Hr. rewrite Hr, bind_stop_Raise.
    eexists _, d'. split; [reflexivity |]. split_and!.
    + apply elem_of_app. by left.
    + apply Hfalse; [done |]. apply elem_of_app. by left.
    + intros msg Hin. cbn [fst] in Hin. rewrite app_nil_r in Hin.
      by eapply Hev.
Qed.

Lemma build_type_substitutions_spec (package : Package) :
  let build_type := pkg_get_build_type package in
  (build_type ∉ supported_build_types →
   build_type_substitutions package
   = ([EvError (unsupported_text build_type)],
      SysExit (ExitMsg (unsupported_text build_type))))
  ∧ (build_type ∈ supported_build_types →
     build_type_substitutions package
     = ([],
        Return
          (if String.eqb build_type "ament_python"
           then Some (negb (setup_cfg_isfile package
                            && (setup_cfg_has_option package "install"
                                  "install-scripts"
                                || setup_cfg_has_option package "install"
                                     "install_scripts")))
           else None))).
Proof.
  intros build_type. unfold build_type_substitutions. fold build_type.
  unfold supported_build_types.
  destruct (String.eqb_spec build_type "catkin") as [->|H1].
  { split; [intros Hn; exfalso; apply Hn; by left | done]. }
  destruct (String.eqb_spec build_type "cmake") as [->|H2].
  { split; [intros Hn; exfalso; apply Hn; by right; left | done]. }
  destruct (String.eqb_spec build_type "ament_cmake") as [->|H3].
  { split; [intros Hn; exfalso; apply Hn; by right; right; left | done]. }
  destruct (String.eqb_spec build_type "ament_python") as [->|H4].
  { split; [intros Hn; exfalso; apply Hn; by right; right; right; left |].
    intros _. destruct (setup_cfg_isfile package); [|done].
    by destruct (setup_cfg_has_option package "install" "install-scripts"),
         (setup_cfg_has_option package "install" "install_scripts"). }
  split; [done |]. rewrite !elem_of_cons, elem_of_nil. tauto.
Qed.

(** X7: a build type other than [catkin], [cmake], [ament_cmake] and
    [ament_python] ends [generate_substitutions_from_package] with the error
    line that names the build type and a failure status, once the
    dependencies are resolved and formatted: no map is returned and the
    operator is not asked anything. *)
Theorem generate_substitutions_unsupported_build_type (package : Package)
    (os_name os_version ros_distro installation_prefix : string) (deb_inc : Z)
    (peer_packages : option (list string))
    (releaser_history : option (dict string (string * string)))
    (fallback_resolver : option (string → list string → run (list string)))
    (native : bool) :
  let lists := evaluate_package_conditions package ros_distro in
  let build_type := pkg_get_build_type package in
  build_type ∉ supported_build_types →
  (∀ d, d ∈ replaces lists ++ conflicts lists →
     dep_name d ∈ dep_name <$> unresolved_keys lists) →
  ∃ ev,
    generate_substitutions_from_package package os_name os_version ros_distro
      installation_prefix deb_inc peer_packages releaser_history
      fallback_resolver native
    = (ev ++ [EvError (unsupported_text build_type)],
       SysExit (ExitMsg (unsupported_text build_type)))
    ∧ (∀ default msg, EvMaybeContinue default msg ∉ ev)
    ∧ (∀ msg, EvError msg ∉ ev).
Proof.
  intros lists build_type Hbt Hnames.
  destruct (generate_substitutions_reaches_build_type package os_name
              os_version ros_distro installation_prefix deb_inc peer_packages
              releaser_history fallback_resolver native Hnames)
    as (ev0 & k & Hrun & _ & Hprompt & Herr).
  destruct (build_type_substitutions_spec package) as [Hbad _].
  rewrite (Hbad Hbt), bind_stop_SysExit in Hrun. by exists ev0.
Qed.

(** X8: a map is returned only for a build type that the generator knows;
    its ['pass_install_scripts'] is set for [ament_python] alone, to [False]
    when the [setup.cfg] beside the manifest is a file that has the option
    [install-scripts] or [install_scripts] in its section [install], and to
    [True] otherwise. *)
Theorem generate_substitutions_install_scripts (package : Package)
    (os_name os_version ros_distro installation_prefix : string) (deb_inc : Z)
    (peer_packages : option (list string))
    (releaser_history : option (dict string (string * string)))
    (fallback_resolver : option (string → list string → run (list string)))
    (native : bool) (ev : list event) (s : Subs) :
  generate_substitutions_from_package package os_name os_version ros_distro
    installation_prefix deb_inc peer_packages releaser_history
    fallback_resolver native = (ev, Return s) →
  pkg_get_build_type package ∈ supported_build_types
  ∧ s_pass_install_scripts s
    = if String.eqb (pkg_get_build_type package) "ament_python"
      then Some (negb (setup_cfg_isfile package
                       && (setup_cfg_has_option package "install"
                             "install-scripts"
                           || setup_cfg_has_option package "install"
                                "install_scripts")))
      else None.
Proof.
  intros Hrun.
  apply generate_substitutions_inv in Hrun
    as (evr & resolved & evb & pass & evm & M & Ms & evc & cls & evl & lic
        & _ & _ & Hb & _ & _ & _ & ->).
  cbn [s_pass_install_scripts].
  destruct (build_type_substitutions_spec package) as [Hbad Hgood].
  destruct (decide (pkg_get_build_type package ∈ supported_build_types))
    as [Hin|Hnot].
  - split; [done |]. rewrite (Hgood Hin) in Hb. by injection Hb as _ <-.
  - rewrite (Hbad Hnot) in Hb. done.
Qed.

(** X9: the map that [generate_substitutions_from_package] returns carries the
    package under both its names, ['Package'] being the ['Name'] with every
    underscore turned into a hyphen; its format is [native] with an empty
    increment, or [quilt] with a hyphen and the increment; its distribution
    is the version of the target system, and its version of debhelper is 7
    for [oneiric] and 9 for every other one. *)
Theorem generate_substitutions_fields (package : Package)
    (os_name os_version ros_distro installation_prefix : string) (deb_inc : Z)
    (peer_packages : option (list string))
    (releaser_history : option (dict string (string * string)))
    (fallback_resolver : option (string → list string → run (list string)))
    (native : bool) (ev : list event) (s : Subs) :
  generate_substitutions_from_package package os_name os_version ros_distro
    installation_prefix deb_inc peer_packages releaser_history
    fallback_resolver native = (ev, Return s) →
  s_Name s = pkg_name package
  ∧ s_Version s = pkg_version package
  ∧ s_Package s = sanitize_package_name (s_Name s)
  ∧ PyStr.has_char "_" (s_Package s) = false
  ∧ s_Description s = format_description (pkg_description package)
  ∧ (s_format s, s_DebianInc s)
    = (if native then ("native", "") else ("quilt", "-" +:+ str_of_int deb_inc))
  ∧ s_InstallationPrefix s = installation_prefix
  ∧ s_Distribution s = os_version
  ∧ s_debhelper_version s = (if String.eqb os_version "oneiric" then 7 else 9)%Z.
Proof.
  intros Hrun.
  apply generate_substitutions_inv in Hrun
    as (evr & resolved & evb & pass & evm & M & Ms & evc & cls & evl & lic
        & _ & _ & _ & _ & _ & _ & ->).
  cbn. split_and!; try done.
  - unfold sanitize_package_name. by apply replace_has_char.
  - by destruct native.
  - destruct (String.eqb_spec os_version "oneiric") as [->|Hne]; [done |].
    rewrite bool_decide_eq_false_2; [done |].
    by intros ->%list_elem_of_singleton.
Qed.

(** X10: a package without maintainers makes
    [generate_substitutions_from_package] raise [IndexError] once the
    dependencies are formatted and the build type is found among the known
    ones: no map is returned and no changelog is read. *)
Theorem generate_substitutions_no_maintainer (package : Package)
    (os_name os_version ros_distro installation_prefix : string) (deb_inc : Z)
    (peer_packages : option (list string))
    (releaser_history : option (dict string (string * string)))
    (fallback_resolver : option (string → list string → run (list string)))
    (native : bool) :
  let lists := evaluate_package_conditions package ros_distro in
  pkg_maintainers package = [] →
  pkg_get_build_type package ∈ supported_build_types →
  (∀ d, d ∈ replaces lists ++ conflicts lists →
     dep_name d ∈ dep_name <$> unresolved_keys lists) →
  ∃ ev,
    generate_substitutions_from_package package os_name os_version ros_distro
      installation_prefix deb_inc peer_packages releaser_history
      fallback_resolver native
    = (ev, Raise (Exception "IndexError" "list index out of range"))
    ∧ (∀ msg, EvError msg ∉ ev)
    ∧ (∀ msg, EvWarning msg ∈ ev → msg = "No homepage set, defaulting to ''").
Proof.
  intros lists Hm Hbt Hnames.
  unfold generate_substitutions_from_package. cbv zeta.
  fold lists. fold (active_depends lists). fold (active_build_depends lists).
  fold (unresolved_keys lists).
  match goal with |- context [String.eqb ?h ""] =>
    destruct (homepage_warning_run h) as (evh & Hh & Hevh) end.
  match goal with |- context [resolve_dependencies ?k ?a ?b ?c ?d ?e] =>
    destruct (resolve_dependencies_spec k a b c d e)
      as (resolved & Hres & Hget) end.
  assert (∀ d, dep_name d ∈ dep_name <$> unresolved_keys lists →
            is_Some (PyDict.get resolved (dep_name d))) as Hsome.
  { intros d Hd. rewrite Hget, decide_True by done. by eexists. }
  rewrite Hh, bind_Return, Hres, bind_Return. cbn [fst snd].
  unfold format_depends. rewrite !format_depends_loop_ok.
  2:{ intros d Hd. apply Hsome. apply list_elem_of_fmap_2.
      by apply active_depends_unresolved. }
  2:{ intros d Hd. apply Hsome. apply list_elem_of_fmap_2.
      by apply active_build_depends_unresolved. }
  2:{ intros d Hd. apply Hsome, Hnames. apply elem_of_app. by left. }
  2:{ intros d Hd. apply Hsome, Hnames. apply elem_of_app. by right. }
  rewrite !bind_pure.
  destruct (build_type_substitutions_spec package) as [_ Hgood].
  rewrite (Hgood Hbt), bind_pure.
  unfold package_maintainers. rewrite Hm. cbn [fmap list_fmap].
  unfold raise. rewrite bind_stop_Raise. cbn [fst snd].
  eexists. split; [reflexivity |]. rewrite app_nil_r. split.
  - intros msg [Hin|Hin]%elem_of_app.
    + apply Hevh in Hin. discriminate Hin.
    + by apply list_elem_of_fmap in Hin as (key & ? & _).
  - intros msg [Hin|Hin]%elem_of_app.
    + apply Hevh in Hin. by injection Hin as ->.
    + by apply list_elem_of_fmap in Hin as (key & ? & _).
Qed.

End SubstitutionTheorems.

Lemma generate_substitutions_depends_witness :
  ∃ ev s,
    @get_subs Cases.externals (Cases.source "cmake" Cases.some_lists [] [])
      Cases.alpha "ubuntu" "bionic" "melodic" "/opt" false
    = (ev, Return s)
    ∧ s_Depends s
      = ["foo_bar"; "libboost-all-dev (<< 2)"; "libboost-all-dev (>= 1.58)"]
    ∧ s_BuildDepends s = ["cmake"; "libboost-all-dev"]
    ∧ NoDup (s_Depends s) ∧ NoDup (s_BuildDepends s).
Proof.
  eexists _, _. split; [reflexivity |].
  destruct (@generate_substitutions_depends Cases.externals
              (Cases.source "cmake" Cases.some_lists [] []) Cases.alpha
              "ubuntu" "bionic" "melodic" "/opt" 0 None None None false _ _
              eq_refl)
    as (_ & Hn1 & _ & Hn2 & _).
  split; [reflexivity |]. split; [reflexivity |]. split; [exact Hn1 | exact Hn2].
Defined.

Lemma generate_substitutions_inactive_replaces_witness :
  ∃ ev,
    @get_subs Cases.externals
      (Cases.source "cmake" Cases.inactive_replaces [] [])
      Cases.alpha "ubuntu" "bionic" "melodic" "/opt" false
    = (ev, Raise (Exception "KeyError" "'old_alpha'")).
Proof.
  destruct (@generate_substitutions_inactive_replaces Cases.externals
              (Cases.source "cmake" Cases.inactive_replaces [] []) Cases.alpha
              "ubuntu" "bionic" "melodic" "/opt" 0 None None None false
              (Cases.dep "old_alpha" (Some false) None None))
    as (ev & d' & Hrun & Hd' & _).
  - by left.
  - by intros ?%elem_of_nil.
  - exists ev. unfold get_subs. rewrite Hrun.
    apply list_elem_of_singleton in Hd' as ->. reflexivity.
Defined.

Lemma generate_substitutions_unsupported_build_type_witness :
  ∃ ev,
    @get_subs Cases.externals (Cases.source "scons" Cases.some_lists [] [])
      Cases.alpha "ubuntu" "bionic" "melodic" "/opt" false
    = (ev ++ [EvError "Build type 'scons' is not supported by this version of bloom."],
       SysExit
         (ExitMsg "Build type 'scons' is not supported by this version of bloom.")).
Proof.
  destruct (@generate_substitutions_unsupported_build_type Cases.externals
              (Cases.source "scons" Cases.some_lists [] []) Cases.alpha
              "ubuntu" "bionic" "melodic" "/opt" 0 None None None false)
    as (ev & Hrun & _).
  - intros Hin. repeat (apply elem_of_cons in Hin as [Hin|Hin];
                        [discriminate Hin |]).
    by apply elem_of_nil in Hin.
  - intros d Hd. apply list_elem_of_fmap_2.
    rewrite app_nil_r in Hd. apply list_elem_of_singleton in Hd as ->.
    apply list_elem_of_In. vm_compute. tauto.
  - exists ev. exact Hrun.
Defined.

Lemma generate_substitutions_install_scripts_witness :
  ∃ ev s,
    @get_subs Cases.externals
      (Cases.source "ament_python" Cases.some_lists [] [])
      Cases.alpha "ubuntu" "bionic" "melodic" "/opt" false
    = (ev, Return s)
    ∧ s_pass_install_scripts s = Some true.
Proof.
  eexists _, _. split; [reflexivity |].
  destruct (@generate_substitutions_install_scripts Cases.externals
              (Cases.source "ament_python" Cases.some_lists [] []) Cases.alpha
              "ubuntu" "bionic" "melodic" "/opt" 0 None None None false _ _
              eq_refl)
    as (_ & Hflag).
  exact Hflag.
Defined.

Lemma generate_substitutions_fields_witness :
  ∃ ev s,
    @get_subs Cases.externals (Cases.source "cmake" Cases.some_lists [] [])
      (Scenario.package "tesseract_core" "1.2.0" [Scenario.ann])
      "ubuntu" "oneiric" "melodic" "/opt" false
    = (ev, Return s)
    ∧ s_Package s = "tesseract-core"
    ∧ (s_format s, s_DebianInc s) = ("quilt", "-0")
    ∧ s_debhelper_version s = 7%Z.
Proof.
  eexists _, _. split; [reflexivity |].
  destruct (@generate_substitutions_fields Cases.externals
              (Cases.source "cmake" Cases.some_lists [] [])
              (Scenario.package "tesseract_core" "1.2.0" [Scenario.ann])
              "ubuntu" "oneiric" "melodic" "/opt" 0 None None None false _ _
              eq_refl)
    as (_ & _ & Hp & _ & _ & Hf & _ & _ & Hd).
  split; [exact Hp |]. split; [exact Hf | exact Hd].
Defined.

Lemma generate_substitutions_no_maintainer_witness :
  ∃ ev,
    @get_subs Cases.externals (Cases.source "cmake" Cases.no_lists [] [])
      Cases.orphan "ubuntu" "bionic" "melodic" "/opt" false
    = (ev, Raise (Exception "IndexError" "list index out of range")).
Proof.
  destruct (@generate_substitutions_no_maintainer Cases.externals
              (Cases.source "cmake" Cases.no_lists [] []) Cases.orphan
              "ubuntu" "bionic" "melodic" "/opt" 0 None None None false)
    as (ev & Hrun & _).
  - reflexivity.
  - right. by left.
  - by intros d ?%elem_of_nil.
  - exists ev. exact Hrun.
Defined.

(** ** Licenses *)

Section LicenseFacts.
Context `{PackageSource}.

Lemma read_licenses_inv package todo acc ev licenses :
  read_licenses package todo acc = (ev, Return licenses) →
  ∃ texts,
    licenses = acc ++ texts
    ∧ Forall (λ text, PyPath.ends_with_char PyStr.LF text = true) texts
    ∧ length texts = length (omap license_file todo)
    ∧ ∀ file, file ∈ omap license_file todo →
        path_exists (license_path package file) = true.
Proof.
  revert acc ev. induction todo as [|l todo IH]; intros acc ev.
  - intros [= <- <-]. exists []. rewrite app_nil_r. split_and!; [done.. |].
    by intros file ?%elem_of_nil.
  - cbn [read_licenses]. destruct l as [[file|]]; cbn [license_file omap].
    + fold (license_path package file).
      destruct (path_exists (license_path package file)) eqn:Hex;
        cbn [negb]; [|by intros [= _ ?]].
      intros Hrun.
      apply bind_inv_Return in Hrun as (ev1 & text & ev2 & Hread & Hrun & ->).
      apply IH in Hrun as (texts & -> & Hends & Hlen & Hpaths).
      eexists (_ :: texts). rewrite <-app_assoc. split_and!; [done | | |].
      * constructor; [|done].
        destruct (PyPath.ends_with_char PyStr.LF text) eqn:He; cbn [negb];
          [done |].
        clear. induction text as [|c [|d text] IH]; [done | done |].
        exact IH.
      * cbn. by rewrite Hlen.
      * intros f [->|Hf]%elem_of_cons; [done | by apply Hpaths].
    + intros Hrun. by apply IH in Hrun.
Qed.

Lemma read_licenses_missing package pre l post file acc :
  license_file l = Some file →
  path_exists (license_path package file) = false →
  (∀ l' file', l' ∈ pre → license_file l' = Some file' →
     path_exists (license_path package file') = true
     ∧ ∃ text, read_file (license_path package file') = ([], Return text)) →
  read_licenses package (pre ++ l :: post) acc
  = ([EvError (license_missing_text (license_path package file))],
     SysExit (ExitMsg (license_missing_text (license_path package file)))).
Proof.
  intros Hl Hex. revert acc. induction pre as [|l0 pre IH]; intros acc Hpre.
  - cbn [app read_licenses]. rewrite Hl. fold (license_path package file).
    by rewrite Hex.
  - cbn [app read_licenses]. destruct (license_file l0) as [file0|] eqn:Hl0.
    + fold (license_path package file0).
      destruct (Hpre l0 file0) as (Hex0 & text & Hread); [by left | done |].
      rewrite Hex0, Hread, bind_pure. cbn [negb].
      apply IH. intros l' file' Hin. apply Hpre. by right.
    + apply IH. intros l' file' Hin. apply Hpre. by right.
Qed.

(** X11: the loop over the licenses returns one text for each license that
    names a file, each ending with a line feed, and only when every such
    file exists; the first license file that does not exist ends the run
    with the error line that names its path, the directory of the manifest
    joined with the file name. *)
Theorem read_licenses_spec (package : Package) (todo : list License) :
  (∀ ev licenses,
     read_licenses package todo [] = (ev, Return licenses) →
     Forall (λ text, PyPath.ends_with_char PyStr.LF text = true) licenses
     ∧ length licenses = length (omap license_file todo)
     ∧ ∀ file, file ∈ omap license_file todo →
         path_exists (license_path package file) = true)
  ∧ (∀ pre l post file,
       todo = pre ++ l :: post →
       license_file l = Some file →
       path_exists (license_path package file) = false →
       (∀ l' file', l' ∈ pre → license_file l' = Some file' →
          path_exists (license_path package file') = true
          ∧ ∃ text, read_file (license_path package file') = ([], Return text)) →
       read_licenses package todo []
       = ([EvError (license_missing_text (license_path package file))],
          SysExit (ExitMsg (license_missing_text (license_path package file))))).
Proof.
  split.
  - intros ev licenses Hrun.
    apply read_licenses_inv in Hrun as (texts & -> & ? & ? & ?). done.
  - intros pre l post file -> Hl Hex Hpre. by apply read_licenses_missing.
Qed.

End LicenseFacts.

Lemma read_licenses_spec_witness :
  let src :=
    Cases.source "cmake" Cases.no_lists
      [ {| license_file := Some "LICENSE" |}; {| license_file := None |};
        {| license_file := Some "NOTICE" |} ]
      [("/ws/src/alpha/LICENSE", "MIT")] in
  @read_licenses src Cases.alpha (@pkg_licenses src Cases.alpha) []
  = ([EvError "License file '/ws/src/alpha/NOTICE' is not found."],
     SysExit (ExitMsg "License file '/ws/src/alpha/NOTICE' is not found."))
  ∧ @read_licenses src Cases.alpha [ {| license_file := Some "LICENSE" |} ] []
    = ([], Return ["MIT" +:+ String PyStr.LF ""]).
Proof.
  intros src. split.
  - destruct (@read_licenses_spec src Cases.alpha (@pkg_licenses src Cases.alpha))
      as [_ Hmissing].
    apply (Hmissing [ {| license_file := Some "LICENSE" |};
                      {| license_file := None |} ]
             {| license_file := Some "NOTICE" |} [] "NOTICE");
      [reflexivity.. |].
    intros l' file' Hin Hfile.
    apply elem_of_cons in Hin as [->|Hin].
    + injection Hfile as <-. split; [reflexivity | by eexists].
    + apply list_elem_of_singleton in Hin as ->. discriminate Hfile.
  - reflexivity.
Defined.

(** ** Changelog of a package *)

Section ChangelogInvariant.
Context `{Externals}.

Lemma assemble_changelogs_inv package history ev changelogs :
  assemble_changelogs package history = (ev, Return changelogs) →
  pkg_version package ∈ cl_version <$> changelogs
  ∧ ((pkg_version package ∈ cl_version <$> history ∧ changelogs = history)
     ∨ ∃ synthesized, cl_version synthesized = pkg_version package
         ∧ changelogs = synthesized :: history).
Proof.
  unfold assemble_changelogs.
  destruct (decide (pkg_version package ∉ cl_version <$> history)) as [Hn|Hy].
  - rewrite (bool_decide_eq_true_2 _ Hn). unfold first_maintainer.
    destruct (pkg_maintainers package) as [|m ms]; [done |].
    rewrite bind_mret. intros [= <- <-]. split; [csimpl; by left |].
    right. eexists. split; [|reflexivity]. reflexivity.
  - rewrite (bool_decide_eq_false_2 _ Hy). intros [= <- <-].
    apply dec_stable in Hy. split; [done | by left].
Qed.

(** X12: the changelog that [generate_substitutions_from_package] attaches to
    the map always holds an entry for the version being released; and when
    the operator does not choose to continue, that entry is the first one
    and no entry has a newer version. *)
Theorem package_changelogs_invariant (package : Package)
    (releaser_history : option (dict string (string * string)))
    (ev : list event) (changelogs : list ChangelogEntry) :
  package_changelogs package releaser_history = (ev, Return changelogs) →
  pkg_version package ∈ cl_version <$> changelogs
  ∧ (maybe_continue "n" "Continue anyways" = false →
     head (cl_version <$> changelogs) = Some (pkg_version package)
     ∧ ∀ entry, entry ∈ changelogs →
         parse_version_lt (pkg_version package) (cl_version entry) = false).
Proof.
  intros Hrun. unfold package_changelogs in Hrun.
  apply bind_inv_Return in Hrun as (ev1 & history & ev2 & _ & Hrun & ->).
  apply bind_inv_Return in Hrun as (ev3 & [] & ev4 & _ & Hrun & ->).
  apply bind_inv_Return in Hrun as (ev5 & cls & ev6 & Hasm & Hrun & ->).
  apply bind_inv_Return in Hrun as (ev7 & [] & ev8 & Hval & Hrun & ->).
  injection Hrun as _ <-.
  destruct (assemble_changelogs_inv _ _ _ _ Hasm) as [Hin _].
  split; [done |]. intros Hno.
  destruct cls as [|first rest]; [by apply elem_of_nil in Hin |].
  destruct (validate_changelogs_spec package first rest) as (evv & Hspec).
  cbv zeta in Hspec. rewrite Hval, Hno in Hspec.
  destruct (bool_decide (pkg_version package ≠ cl_version first)) eqn:Hfirst;
    [discriminate Hspec |].
  destruct (has_newer package (first :: rest)) eqn:Hnewer;
    [discriminate Hspec |].
  apply bool_decide_eq_false in Hfirst. apply dec_stable in Hfirst.
  split; [csimpl; by rewrite Hfirst |].
  intros entry Hentry.
  destruct (parse_version_lt (pkg_version package) (cl_version entry)) eqn:Hlt;
    [|done].
  assert (has_newer package (first :: rest) = true) as Hcontra.
  { apply has_newer_true. by exists entry. }
  by rewrite Hcontra in Hnewer.
Qed.

(** X13: [get_changelogs] gives no entry, and a warning that names the
    package, when there is no changelog file; it raises [IndexError] when
    there is one and the package has no maintainer; otherwise it gives one
    entry per version of the file, in the order of the file, each with the
    releaser that the history holds for its version, or the first maintainer
    of the package when the history holds none. *)
Theorem get_changelogs_spec (package : Package)
    (releaser_history : option (dict string (string * string))) :
  (read_changelog package = None →
   ∃ ev,
     get_changelogs package releaser_history = (ev, Return [])
     ∧ EvWarning ("No CHANGELOG.rst found for package '" +:+ pkg_name package
                  +:+ "'") ∈ ev)
  ∧ (∀ changelog,
       read_changelog package = Some changelog →
       pkg_maintainers package = [] →
       ∃ ev,
         get_changelogs package releaser_history
         = (ev, Raise (Exception "IndexError" "list index out of range")))
  ∧ (∀ changelog m ms,
       read_changelog package = Some changelog →
       pkg_maintainers package = m :: ms →
       ∃ ev entries,
         get_changelogs package releaser_history = (ev, Return entries)
         ∧ cl_version <$> entries = (λ v, v.1.1) <$> changelog
         ∧ ∀ i entry,
             entries !! i = Some entry →
             (cl_releaser entry, cl_email entry)
             = default (person_name m, person_email m)
                 (PyDict.get (default [] releaser_history) (cl_version entry))).
Proof.
  split_and!.
  - intros Hnone. unfold get_changelogs. rewrite Hnone.
    destruct releaser_history; run_unfold; cbn; eexists;
      (split; [reflexivity |]).
    + by left.
    + right. by left.
  - intros changelog Hsome Hm. unfold get_changelogs, first_maintainer.
    rewrite Hsome, Hm. destruct releaser_history; run_unfold; cbn; by eexists.
  - intros changelog m ms Hsome Hm. unfold get_changelogs, first_maintainer.
    rewrite Hsome, Hm.
    assert (∀ history,
              cl_version <$> (changelog_entry history
                                (person_name m, person_email m) <$> changelog)
              = (λ v, v.1.1) <$> changelog
              ∧ ∀ i entry,
                  (changelog_entry history (person_name m, person_email m)
                     <$> changelog) !! i = Some entry →
                  (cl_releaser entry, cl_email entry)
                  = default (person_name m, person_email m)
                      (PyDict.get history (cl_version entry))) as Hentries.
    { intros history. split.
      - rewrite <-list_fmap_compose. apply list_fmap_ext.
        intros i [[version date] changes] _. unfold compose, changelog_entry.
        by destruct (default _ (PyDict.get history version)).
      - intros i entry Hi. apply list_lookup_fmap_Some in Hi
          as ([[version date] changes] & -> & _).
        unfold changelog_entry.
        destruct (default _ (PyDict.get history version)) as [r e] eqn:Hd.
        cbn [cl_version cl_releaser cl_email]. by rewrite Hd. }
    destruct releaser_history as [history|]; run_unfold; cbn [fst snd app];
      eexists _, _; (split; [reflexivity |]); apply Hentries.
Qed.

End ChangelogInvariant.

Lemma package_changelogs_invariant_witness :
  let ext :=
    Scenario.externals (λ _, None) false
      (Some [("1.2.0", "Mon, 02 Nov 2026 09:00:00 -0000", ["* new planner"]);
             ("1.1.0", "Mon, 05 Oct 2026 09:00:00 -0000", ["* first"])]) in
  ∃ ev changelogs,
    @package_changelogs ext Cases.alpha None = (ev, Return changelogs)
    ∧ cl_version <$> changelogs = ["1.2.0"; "1.1.0"].
Proof.
  intros ext. eexists _, _. split; [reflexivity |].
  destruct (@package_changelogs_invariant ext Cases.alpha None _ _ eq_refl)
    as [_ Hhead].
  destruct (Hhead eq_refl) as [_ _]. reflexivity.
Defined.

Lemma get_changelogs_spec_witness :
  let ext :=
    Scenario.externals (λ _, None) false
      (Some [("1.2.0", "Mon, 02 Nov 2026 09:00:00 -0000", ["* new planner"]);
             ("1.1.0", "Mon, 05 Oct 2026 09:00:00 -0000", ["* first"])]) in
  ∃ ev entries,
    @get_changelogs ext Cases.alpha (Some [("1.1.0", ("Bob", "bob@example.org"))])
    = (ev, Return entries)
    ∧ cl_releaser <$> entries = ["Ann"; "Bob"].
Proof.
  intros ext.
  destruct (@get_changelogs_spec ext Cases.alpha
              (Some [("1.1.0", ("Bob", "bob@example.org"))]))
    as (_ & _ & Hsome).
  destruct (Hsome _ Scenario.ann [] eq_refl eq_refl)
    as (ev & entries & Hrun & _ & _).
  exists ev, entries. split; [exact Hrun |].
  injection Hrun as _ <-. reflexivity.
Defined.

(** ** Aggregation: errors and the contents of the view *)

Section MergeRuns.
Context {A B : Type}.

Lemma try_except_not_Raise (m : run A) ev e : try_except m ≠ (ev, Raise e).
Proof. by destruct m as [ev1 [a|arg|[ty msg| |]]]. Qed.

Lemma bind_inv_Raise (m : run A) (f : A → run B) ev e :
  (m ≫= f) = (ev, Raise e) →
  m = (ev, Raise e)
  ∨ ∃ ev1 a ev2, m = (ev1, Return a) ∧ f a = (ev2, Raise e) ∧ ev = ev1 ++ ev2.
Proof.
  rewrite bind_unfold. destruct m as [ev1 [a|arg|e1]]; simpl.
  - destruct (f a) as [ev2 r] eqn:E. intros [= <- ->]. right.
    by exists ev1, a, ev2.
  - done.
  - intros [= <- <-]. by left.
Qed.

Lemma bind_ext (m : run A) (f g : A → run B) :
  (∀ a, f a = g a) → (m ≫= f) = (m ≫= g).
Proof.
  intros Hfg. rewrite !bind_unfold. destruct m as [ev [a|arg|e]]; simpl;
    [|done..].
  by rewrite Hfg.
Qed.

Lemma bind_assoc {C} (m : run A) (f : A → run B) (g : B → run C) :
  ((m ≫= f) ≫= g) = (m ≫= λ a, f a ≫= g).
Proof.
  rewrite !bind_unfold. destruct m as [ev [a|arg|e]]; simpl; [|done..].
  destruct (f a) as [ev1 [b|arg|e]]; simpl; [|by rewrite ?app_nil_r..].
  destruct (g b) as [ev2 r]. by rewrite app_assoc.
Qed.

Lemma try_except_Exception (m : run A) ev ty msg :
  m = (ev, Raise (Exception ty msg)) →
  try_except m
  = (ev ++ [EvError (exception_text ty msg)],
     SysExit (ExitMsg (exception_text ty msg))).
Proof. by intros ->. Qed.

Lemma try_except_SysExit (m : run A) ev arg :
  m = (ev, SysExit arg) → try_except m = (ev, SysExit arg).
Proof. by intros ->. Qed.

End MergeRuns.

Section MergeErrors.
Variable get_subs_fn : get_subs_fn_t.
Variables os_name os_version ros_distro install_prefix : string.
Variable native : bool.

Lemma merge_packages_collect_not_Raise items acc ev e :
  merge_packages_collect items get_subs_fn os_name os_version ros_distro
    install_prefix native acc ≠ (ev, Raise e).
Proof.
  revert acc ev. induction items as [|[path pkg] items IH]; intros acc ev;
    [done |].
  cbn [merge_packages_collect]. intros Hrun.
  apply bind_inv_Raise in Hrun as [Hrun|(ev1 & a & ev2 & _ & Hrun & _)].
  - by apply try_except_not_Raise in Hrun.
  - by apply IH in Hrun.
Qed.

Lemma merge_packages_header_not_Raise items h cnt ev e :
  merge_packages_header items h cnt ≠ (ev, Raise e).
Proof.
  revert h cnt ev. induction items as [|[name sub] items IH]; intros h cnt ev;
    [done |].
  cbn [merge_packages_header]. intros Hrun.
  apply bind_inv_Raise in Hrun as [Hrun|(ev1 & a & ev2 & _ & Hrun & _)].
  - by apply try_except_not_Raise in Hrun.
  - by apply IH in Hrun.
Qed.

Lemma merge_packages_collect_app pre post acc :
  merge_packages_collect (pre ++ post) get_subs_fn os_name os_version ros_distro
    install_prefix native acc = merge_packages_collect pre get_subs_fn os_name os_version ros_distro
    install_prefix native acc ≫= λ acc', merge_packages_collect post get_subs_fn os_name os_version ros_distro
    install_prefix native acc'.
Proof.
  revert acc. induction pre as [|[path pkg] pre IH]; intros acc.
  - cbn [app merge_packages_collect]. by rewrite bind_mret.
  - cbn [app merge_packages_collect]. rewrite bind_assoc.
    apply bind_ext. intros acc'. apply IH.
Qed.

(** What the first loop returns: the maps of the packages, each written
    under its name. *)
Lemma merge_packages_collect_inv items acc ev all_subs :
  merge_packages_collect items get_subs_fn os_name os_version ros_distro
    install_prefix native acc = (ev, Return all_subs) →
  ∃ maps,
    maps_of_packages get_subs_fn os_name os_version ros_distro install_prefix
      native items maps
    ∧ all_subs = foldl (λ d sub, PyDict.setitem d (s_Name sub) sub) acc maps.
Proof.
  revert acc ev. induction items as [|[path pkg] items IH]; intros acc ev.
  - intros [= <- <-]. exists []. split; [constructor | done].
  - cbn [merge_packages_collect]. intros Hrun.
    apply bind_inv_Return in Hrun as (ev1 & acc' & ev2 & Htry & Hrest & ->).
    apply try_except_inv_Return in Htry.
    apply bind_inv_Return in Htry as (ev3 & sub & ev4 & Hsub & Hret & ->).
    injection Hret as <- <-.
    apply IH in Hrest as (maps & Hmaps & ->).
    exists (sub :: maps). split; [|done].
    constructor; [by exists ev3 | done].
Qed.

Lemma get_foldl_setitem (maps : list Subs) acc name :
  PyDict.get (foldl (λ d sub, PyDict.setitem d (s_Name sub) sub) acc maps) name
  = match last_named name maps with
    | Some sub => Some sub
    | None => PyDict.get acc name
    end.
Proof.
  revert acc. induction maps as [|m maps IH]; intros acc; [done |].
  cbn [foldl]. rewrite IH, get_setitem. unfold last_named.
  rewrite filter_cons.
  destruct (decide (s_Name m = name)) as [Heq|Hne]; [|done].
  rewrite last_cons. by destruct (last _).
Qed.

Lemma keys_foldl_setitem (maps : list Subs) acc :
  PyDict.keys (foldl (λ d sub, PyDict.setitem d (s_Name sub) sub) acc maps)
  = foldl (λ ks k, if decide (k ∈ ks) then ks else ks ++ [k])
      (PyDict.keys acc) (s_Name <$> maps).
Proof.
  revert acc. induction maps as [|m maps IH]; intros acc; csimpl; [done |].
  by rewrite IH, keys_setitem.
Qed.

(** X14: an exception of [get_subs_fn] or of the loop over the maps never
    leaves [merge_packages]: it raises only for the empty collection of
    packages, and then the [KeyError] of the key ['BuildDepends'] that the
    empty header lacks. *)
Theorem merge_packages_raises_only_when_empty
    (pkgs_dict : dict string Package) :
  merge_packages [] get_subs_fn os_name os_version ros_distro
    install_prefix native = ([], Raise (Exception "KeyError" "'BuildDepends'"))
  ∧ ∀ ev e, merge_packages pkgs_dict get_subs_fn os_name os_version ros_distro
    install_prefix native = (ev, Raise e) → pkgs_dict = [].
Proof.
  split; [done |]. intros ev e Hrun. unfold merge_packages in Hrun.
  apply bind_inv_Raise in Hrun
    as [Hrun|(ev1 & all_subs & ev2 & Hcollect & Hrun & _)];
    [by apply merge_packages_collect_not_Raise in Hrun |].
  apply bind_inv_Raise in Hrun
    as [Hrun|(ev3 & repo_header & ev4 & Hheader & Hrun & _)];
    [by apply merge_packages_header_not_Raise in Hrun |].
  destruct repo_header as [h|]; [done |].
  apply merge_packages_header_inv in Hheader
    as [[-> _]|(? & ? & ? & ? & _ & _ & [=])].
  apply merge_packages_collect_inv in Hcollect as (maps & Hmaps & Hall).
  destruct Hmaps as [|[path pkg] sub items maps _ _]; [done |].
  exfalso. cbn [foldl] in Hall.
  assert (is_Some (PyDict.get
            (foldl (λ d sub, PyDict.setitem d (s_Name sub) sub)
               (PyDict.setitem [] (s_Name sub) sub) maps) (s_Name sub)))
    as [x Hx].
  { rewrite get_foldl_setitem. destruct (last_named _ _); [by eexists |].
    rewrite get_setitem, decide_True by done. by eexists. }
  by rewrite <-Hall in Hx.
Qed.

(** X15: the first loop of [merge_packages] writes the map of each package
    under its ['Name']: the names come in the order of their first
    occurrence, and under a name that several packages share the map of the
    last of them is kept. *)
Theorem merge_packages_collect_spec (pkgs_dict : dict string Package)
    (ev : list event) (all_subs : dict string Subs) :
  merge_packages_collect pkgs_dict get_subs_fn os_name os_version ros_distro
    install_prefix native [] = (ev, Return all_subs) →
  ∃ maps,
    maps_of_packages get_subs_fn os_name os_version ros_distro install_prefix
      native pkgs_dict maps
    ∧ PyDict.keys all_subs = PyDict.keys (PyDict.fromkeys (s_Name <$> maps))
    ∧ ∀ name, PyDict.get all_subs name = last_named name maps.
Proof.
  intros Hrun.
  apply merge_packages_collect_inv in Hrun as (maps & Hmaps & ->).
  exists maps. split_and!; [done | |].
  - unfold PyDict.fromkeys. by rewrite keys_foldl_setitem, keys_fromkeys_acc.
  - intros name. rewrite get_foldl_setitem. by destruct (last_named _ _).
Qed.

Lemma get_fmap_entry (d : dict string Subs) name :
  PyDict.get (prod_map id PkgEntry <$> d) name = PkgEntry <$> PyDict.get d name.
Proof.
  induction d as [|[k v] d IH]; [done |]. csimpl.
  by destruct (decide (k = name)).
Qed.

Lemma keys_fmap_entry (d : dict string Subs) :
  PyDict.keys (prod_map id PkgEntry <$> d) = PyDict.keys d.
Proof.
  unfold PyDict.keys. rewrite <-list_fmap_compose. by apply list_fmap_ext.
Qed.

(** X16: the view that [merge_packages] returns holds, under every package
    name other than ["tesseract-core"], the map collected for that name, and
    the header under ["tesseract-core"], last unless a package has that
    name.  The map of the first name is the one exception: its list of build
    dependencies is the list that the loop extended, so it holds the build
    dependencies of all the maps. *)
Theorem merge_packages_view (pkgs_dict : dict string Package)
    (ev0 ev : list event) (all_subs : dict string Subs)
    (view : AggregatedView) :
  merge_packages_collect pkgs_dict get_subs_fn os_name os_version ros_distro
    install_prefix native [] = (ev0, Return all_subs) →
  merge_packages pkgs_dict get_subs_fn os_name os_version ros_distro
    install_prefix native = (ev, Return view) →
  PyDict.keys view
  = PyDict.keys all_subs
    ++ (if decide ("tesseract-core" ∈ PyDict.keys all_subs) then []
        else ["tesseract-core"])
  ∧ ∀ name sub,
      name ≠ "tesseract-core" →
      PyDict.get all_subs name = Some sub →
      PyDict.get view name
      = Some (PkgEntry
                (if decide (head (PyDict.keys all_subs) = Some name)
                 then s_set_BuildDepends sub (merged_build_depends all_subs)
                 else sub)).
Proof.
  intros Hcollect Hrun.
  destruct (merge_packages_inv _ _ _ _ _ _ _ _ _ _ _ Hcollect Hrun)
    as (name0 & sub0 & rest & h0 & Hall & Hseed & ->).
  split.
  - rewrite keys_setitem, keys_fmap_entry, keys_alias_first.
    destruct (decide ("tesseract-core" ∈ PyDict.keys all_subs));
      by rewrite ?app_nil_r.
  - intros name sub Hname Hget.
    rewrite get_setitem, decide_False by done.
    rewrite get_fmap_entry. rewrite Hall in Hget |- *.
    cbn [alias_first PyDict.get] in Hget |- *. csimpl.
    destruct (decide (name0 = name)) as [->|Hne].
    + injection Hget as ->. by rewrite decide_True.
    + rewrite Hget. rewrite decide_False; [done |]. by intros [= ?].
Qed.

Lemma merge_packages_stops pre post path pkg ev0 ev1 acc arg :
  merge_packages_collect pre get_subs_fn os_name os_version ros_distro
    install_prefix native [] = (ev0, Return acc) →
  get_subs_fn pkg os_name os_version ros_distro install_prefix native
  = (ev1, SysExit arg) →
  merge_packages (pre ++ (path, pkg) :: post) get_subs_fn os_name os_version
    ros_distro install_prefix native = (ev0 ++ ev1, SysExit arg).
Proof.
  intros Hpre Hfail. unfold merge_packages.
  rewrite merge_packages_collect_app, Hpre, bind_Return.
  cbn [merge_packages_collect]. rewrite Hfail.
  rewrite bind_stop_SysExit.
  rewrite (try_except_SysExit _ ev1 arg eq_refl).
  by rewrite !bind_stop_SysExit.
Qed.

(** X17: when [get_subs_fn] raises an exception for a package,
    [merge_packages] logs the line made of the type and the message of the
    exception and ends with a failure status; when [get_subs_fn] exits, so
    does [merge_packages], with the same argument.  Either way the packages
    that follow are not looked at. *)
Theorem merge_packages_get_subs_fails
    (pre post : dict string Package) (path : string) (pkg : Package)
    (ev0 ev1 : list event) (acc : dict string Subs) :
  merge_packages_collect pre get_subs_fn os_name os_version ros_distro
    install_prefix native [] = (ev0, Return acc) →
  (∀ type_name msg,
     get_subs_fn pkg os_name os_version ros_distro install_prefix native
     = (ev1, Raise (Exception type_name msg)) →
     merge_packages (pre ++ (path, pkg) :: post) get_subs_fn os_name os_version ros_distro
    install_prefix native
     = (ev0 ++ ev1 ++ [EvError (exception_text type_name msg)],
        SysExit (ExitMsg (exception_text type_name msg))))
  ∧ (∀ arg,
       get_subs_fn pkg os_name os_version ros_distro install_prefix native
       = (ev1, SysExit arg) →
       merge_packages (pre ++ (path, pkg) :: post) get_subs_fn os_name os_version ros_distro
    install_prefix native = (ev0 ++ ev1, SysExit arg)).
Proof.
  intros Hpre. split.
  - intros ty msg Hfail. unfold merge_packages.
    rewrite merge_packages_collect_app, Hpre, bind_Return.
    cbn [merge_packages_collect]. rewrite Hfail.
    rewrite bind_stop_Raise.
    rewrite (try_except_Exception _ ev1 ty msg eq_refl).
    by rewrite !bind_stop_SysExit.
  - intros arg Hfail. by eapply merge_packages_stops.
Qed.

(** X18: when the ['Maintainers'] string of the first map is empty, the
    header cannot take its first character: [merge_packages] logs the
    [IndexError] and ends with a failure status, whatever the other maps
    are. *)
Theorem merge_packages_empty_maintainers (pkgs_dict : dict string Package)
    (ev0 : list event) (name : string) (sub : Subs)
    (rest : dict string Subs) :
  merge_packages_collect pkgs_dict get_subs_fn os_name os_version ros_distro
    install_prefix native [] = (ev0, Return ((name, sub) :: rest)) →
  s_Maintainers sub = "" →
  merge_packages pkgs_dict get_subs_fn os_name os_version ros_distro
    install_prefix native
  = (ev0 ++ [EvError "IndexError: string index out of range"],
     SysExit (ExitMsg "IndexError: string index out of range")).
Proof.
  intros Hcollect HM. unfold merge_packages. rewrite Hcollect, bind_Return.
  cbn [merge_packages_header Nat.eqb]. unfold seed_header. rewrite HM.
  done.
Qed.

End MergeErrors.

Lemma merge_packages_raises_only_when_empty_witness :
  ∃ ev e,
    merge_packages [] Scenario.get_subs "ubuntu" "bionic" "melodic" "/opt" false
    = (ev, Raise e)
    ∧ @nil (string * Package) = [].
Proof.
  destruct (merge_packages_raises_only_when_empty Scenario.get_subs "ubuntu"
              "bionic" "melodic" "/opt" false []) as [Hrun Hempty].
  eexists _, _. split; [exact Hrun |]. exact (Hempty _ _ Hrun).
Defined.

Lemma merge_packages_collect_spec_witness :
  ∃ ev all_subs,
    merge_packages_collect MergeCases.twice MergeCases.by_version "ubuntu"
      "bionic" "melodic" "/opt" false [] = (ev, Return all_subs)
    ∧ PyDict.keys all_subs = ["alpha"; "beta"]
    ∧ s_BuildDepends <$> PyDict.get all_subs "alpha" = Some ["0.9.0"].
Proof.
  eexists _, _. split; [reflexivity |].
  destruct (merge_packages_collect_spec MergeCases.by_version "ubuntu" "bionic"
              "melodic" "/opt" false MergeCases.twice _ _ eq_refl)
    as (maps & _ & _ & _).
  split; reflexivity.
Defined.

Lemma merge_packages_view_witness :
  ∃ ev view sub,
    merge_packages Scenario.two_packages Scenario.get_subs "ubuntu" "bionic"
      "melodic" "/opt" false = (ev, Return view)
    ∧ PyDict.keys view = ["alpha"; "beta"; "tesseract-core"]
    ∧ PyDict.get view "alpha" = Some (PkgEntry sub)
    ∧ s_BuildDepends sub = ["beta"; "cmake"; "alpha"; "boost"; "cmake"].
Proof.
  eexists _, _, _. split; [reflexivity |].
  destruct (merge_packages_view Scenario.get_subs "ubuntu" "bionic" "melodic"
              "/opt" false Scenario.two_packages _ _ _ _ eq_refl eq_refl)
    as [Hkeys Hget].
  split; [exact Hkeys |].
  split; [exact (Hget "alpha" Scenario.alpha_subs ltac:(discriminate) eq_refl) |].
  reflexivity.
Defined.

Lemma merge_packages_get_subs_fails_witness :
  merge_packages Scenario.two_packages MergeCases.failing "ubuntu" "bionic"
    "melodic" "/opt" false
  = ([EvError "KeyError: 'old_beta'"],
     SysExit (ExitMsg "KeyError: 'old_beta'")).
Proof.
  destruct (merge_packages_get_subs_fails MergeCases.failing "ubuntu" "bionic"
              "melodic" "/opt" false
              [("src/alpha", Scenario.package "alpha" "1.2.0" [Scenario.ann])]
              [] "src/beta" (Scenario.package "beta" "1.2.0" [Scenario.bob])
              [] [] _ eq_refl) as [Hraise _].
  exact (Hraise "KeyError" "'old_beta'" eq_refl).
Defined.

Lemma merge_packages_empty_maintainers_witness :
  merge_packages Scenario.two_packages MergeCases.anonymous "ubuntu" "bionic"
    "melodic" "/opt" false
  = ([EvError "IndexError: string index out of range"],
     SysExit (ExitMsg "IndexError: string index out of range")).
Proof.
  exact (merge_packages_empty_maintainers MergeCases.anonymous "ubuntu"
           "bionic" "melodic" "/opt" false Scenario.two_packages [] "alpha" _ _
           eq_refl eq_refl).
Defined.

(** ** The command: templates *)

Section CommandFacts.
Context `{Surroundings}.

(** Once the packages are aggregated, the command ends as the handling of
    the templates does. *)
Lemma build_debian_pkg_after_merge args get_subs_fn ev view :
  merge_packages (find_packages (str_or (args_package_path args) getcwd))
    get_subs_fn
    (str_or (args_os_name args) get_os_name_and_version.1)
    (str_or (args_os_version args) get_os_name_and_version.2)
    (str_or (args_ros_distro args) (default "indigo" environ_ROS_DISTRO))
    (str_or (args_install_prefix args) "/opt") (args_native args)
  = (ev, Return view) →
  build_debian_pkg args get_subs_fn
  = (ev ++ (try_except
              (expand_templates (args_place_template_files args)
                 (args_process_template_files args) "" "cmake" view)).1,
     (try_except
        (expand_templates (args_place_template_files args)
           (args_process_template_files args) "" "cmake" view)).2).
Proof.
  intros Hmerge. unfold build_debian_pkg.
  destruct (find_packages (str_or (args_package_path args) getcwd))
    as [|item items] eqn:E; [done |].
  cbn [length Nat.eqb].
  destruct get_os_name_and_version as [os_name0 os_version0].
  cbn [fst snd] in Hmerge. by rewrite Hmerge, bind_Return.
Qed.

Lemma build_debian_pkg_merge_exits args get_subs_fn ev arg :
  merge_packages (find_packages (str_or (args_package_path args) getcwd))
    get_subs_fn
    (str_or (args_os_name args) get_os_name_and_version.1)
    (str_or (args_os_version args) get_os_name_and_version.2)
    (str_or (args_ros_distro args) (default "indigo" environ_ROS_DISTRO))
    (str_or (args_install_prefix args) "/opt") (args_native args)
  = (ev, SysExit arg) →
  find_packages (str_or (args_package_path args) getcwd) ≠ [] →
  build_debian_pkg args get_subs_fn = (ev, SysExit arg).
Proof.
  intros Hmerge Hne. unfold build_debian_pkg.
  destruct (find_packages (str_or (args_package_path args) getcwd))
    as [|item items] eqn:E; [done |].
  cbn [length Nat.eqb].
  destruct get_os_name_and_version as [os_name0 os_version0].
  cbn [fst snd] in Hmerge. by rewrite Hmerge.
Qed.

Lemma expand_templates_place_only view ev a :
  try_except (expand_templates true false "" "cmake" view) ≠ (ev, Return a).
Proof.
  unfold expand_templates, call_place_template_files. cbn [negb andb].
  run_unfold.
  destruct (place_template_files "" "cmake") as [evp [[]|arg|[ty msg| |]]];
    by cbn.
Qed.

(** X19: with [--place-template-files] alone the command never ends
    normally: once the templates are placed, the name [template_files] is
    read before anything was assigned to it, and the command logs the
    [UnboundLocalError] and ends with a failure status. *)
Theorem build_debian_pkg_place_only (args : Args) (get_subs_fn : get_subs_fn_t) :
  args_place_template_files args = true →
  args_process_template_files args = false →
  (∀ ev a, build_debian_pkg args get_subs_fn ≠ (ev, Return a))
  ∧ ∀ ev view evp,
      merge_packages (find_packages (str_or (args_package_path args) getcwd))
        get_subs_fn
        (str_or (args_os_name args) get_os_name_and_version.1)
        (str_or (args_os_version args) get_os_name_and_version.2)
        (str_or (args_ros_distro args) (default "indigo" environ_ROS_DISTRO))
        (str_or (args_install_prefix args) "/opt") (args_native args)
      = (ev, Return view) →
      place_template_files "" "cmake" = (evp, Return ()) →
      ∃ msg,
        build_debian_pkg args get_subs_fn
        = (ev ++ EvPlaceTemplateFiles "" "cmake" :: evp
              ++ [EvError (exception_text "UnboundLocalError" msg)],
           SysExit (ExitMsg (exception_text "UnboundLocalError" msg)))
        ∧ (main args get_subs_fn).2 = 1%Z.
Proof.
  intros Hplace Hprocess. split.
  - intros ev a Hrun. unfold build_debian_pkg in Hrun.
    rewrite Hplace, Hprocess in Hrun.
    destruct (Nat.eqb _ 0); [done |].
    destruct get_os_name_and_version as [os_name0 os_version0].
    apply bind_inv_Return in Hrun as (ev1 & view & ev2 & _ & Hrun & _).
    by apply expand_templates_place_only in Hrun.
  - intros ev view evp Hmerge Hplaced.
    pose proof (build_debian_pkg_after_merge _ _ _ _ Hmerge) as Hrun.
    rewrite Hplace, Hprocess in Hrun. unfold main. rewrite Hrun. clear Hrun.
    unfold expand_templates, call_place_template_files. cbn [negb andb].
    rewrite Hplaced. run_unfold. cbn. eexists. split; [|done].
    by rewrite app_nil_r.
Qed.


End CommandFacts.

Lemma build_debian_pkg_place_only_witness :
  @main (Scenario.surroundings Scenario.two_packages) MergeCases.place_only
    Scenario.get_subs
  = ([EvPlaceTemplateFiles "" "cmake";
      EvError ("UnboundLocalError: "
               +:+ "local variable 'template_files' referenced before assignment")],
     1%Z).
Proof.
  destruct (@build_debian_pkg_place_only
              (Scenario.surroundings Scenario.two_packages)
              MergeCases.place_only Scenario.get_subs eq_refl eq_refl)
    as [_ Hrun].
  destruct (Hrun [] _ [] eq_refl eq_refl) as (msg & _ & _).
  reflexivity.
Defined.


(** ** The command with its own [get_subs] *)

Section CommandRuns.
Context `{Externals} `{PackageSource} `{Surroundings}.

(** X21: when the first package found has a build type that the generator
    does not know, the command with its own [get_subs] ends with the error
    line that names the build type and with status 1, before any template
    is placed, processed or removed, whatever the other packages are. *)
Theorem build_debian_pkg_unsupported_build_type (args : Args)
    (path0 : string) (pkg0 : Package) (rest : dict string Package) :
  let ros_distro :=
    str_or (args_ros_distro args) (default "indigo" environ_ROS_DISTRO) in
  let lists := evaluate_package_conditions pkg0 ros_distro in
  let build_type := pkg_get_build_type pkg0 in
  find_packages (str_or (args_package_path args) getcwd)
  = (path0, pkg0) :: rest →
  build_type ∉ supported_build_types →
  (∀ d, d ∈ replaces lists ++ conflicts lists →
     dep_name d ∈ dep_name <$> unresolved_keys lists) →
  ∃ ev,
    build_debian_pkg args get_subs
    = (ev ++ [EvError (unsupported_text build_type)],
       SysExit (ExitMsg (unsupported_text build_type)))
    ∧ (∀ e, e ∈ ev → template_event e = false)
    ∧ main args get_subs = (ev ++ [EvError (unsupported_text build_type)], 1%Z).
Proof.
  intros ros_distro lists build_type Hfound Hbt Hnames.
  destruct (generate_substitutions_reaches_build_type pkg0
              (str_or (args_os_name args) get_os_name_and_version.1)
              (str_or (args_os_version args) get_os_name_and_version.2)
              ros_distro (str_or (args_install_prefix args) "/opt") 0 None
              None None (args_native args) Hnames)
    as (ev0 & k & Hsubs & Htemplate & _ & _).
  destruct (build_type_substitutions_spec pkg0) as [Hbad _].
  rewrite (Hbad Hbt), bind_stop_SysExit in Hsubs. cbn [fst snd] in Hsubs.
  assert (build_debian_pkg args get_subs
          = (ev0 ++ [EvError (unsupported_text build_type)],
             SysExit (ExitMsg (unsupported_text build_type)))) as Hrun.
  { apply build_debian_pkg_merge_exits; [|by rewrite Hfound].
    rewrite Hfound.
    apply (merge_packages_stops get_subs _ _ _ _ _ [] rest path0 pkg0 [] _ []);
      [done |].
    exact Hsubs. }
  exists ev0. split_and!; [done | done |]. unfold main. by rewrite Hrun.
Qed.

End CommandRuns.

Lemma build_debian_pkg_unsupported_build_type_witness :
  (@main (Scenario.surroundings
            [("src/alpha", Cases.alpha);
             ("src/beta", Scenario.package "beta" "1.2.0" [Scenario.bob])])
     Scenario.no_args
     (@get_subs Cases.externals (Cases.source "scons" Cases.no_lists [] []))).2
  = 1%Z.
Proof.
  destruct (@build_debian_pkg_unsupported_build_type Cases.externals
              (Cases.source "scons" Cases.no_lists [] [])
              (Scenario.surroundings
                 [("src/alpha", Cases.alpha);
                  ("src/beta", Scenario.package "beta" "1.2.0" [Scenario.bob])])
              Scenario.no_args "src/alpha" Cases.alpha
              [("src/beta", Scenario.package "beta" "1.2.0" [Scenario.bob])]
              eq_refl)
    as (ev & _ & _ & Hmain).
  - unfold supported_build_types. cbn.
    rewrite !elem_of_cons, elem_of_nil. intros [?|[?|[?|[?|[]]]]]; discriminate.
  - intros d Hd. by apply elem_of_nil in Hd.
  - by rewrite Hmain.
Defined.

(** ** Branches *)

Section BranchFacts.
Variable list_of_set : list string → list string.
Variable upstream_pkg_names : run (list string).
Hypothesis list_of_set_NoDup : ∀ l, NoDup (list_of_set l).
Hypothesis list_of_set_elem : ∀ l x, x ∈ list_of_set l ↔ x ∈ l.

Lemma split2_last_remote branch rest :
  PyStr.strip_prefix "remotes/origin/" branch = Some rest →
  PyStr2.split2_last branch = rest.
Proof. intros ->%strip_prefix_Some. reflexivity. Qed.

Lemma matching_branches_elem prefix existing_branches branches b :
  b ∈ matching_branches prefix existing_branches branches
  ↔ b ∈ branches
    ∨ (PyStr2.startswith prefix b = true
       ∧ ∃ e, e ∈ existing_branches
           ∧ b = default e (PyStr.strip_prefix "remotes/origin/" e)).
Proof.
  revert branches.
  induction existing_branches as [|e existing IH]; intros branches.
  - cbn [matching_branches]. split; [by left |].
    intros [?|(_ & e & ?%elem_of_nil & _)]; done.
  - cbn [matching_branches]. rewrite IH. clear IH.
    assert ((if PyStr2.startswith "remotes/origin/" e
             then PyStr2.split2_last e else e)
            = default e (PyStr.strip_prefix "remotes/origin/" e)) as ->.
    { unfold PyStr2.startswith.
      destruct (PyStr.strip_prefix "remotes/origin/" e) as [rest|] eqn:E;
        [|done].
      by apply split2_last_remote. }
    set (local := default e (PyStr.strip_prefix "remotes/origin/" e)).
    split.
    + intros [Hb|(Hp & e' & He' & ->)].
      * destruct (PyStr2.startswith prefix local) eqn:Hl; [|by left].
        apply elem_of_app in Hb as [?|Hb]; [by left |].
        apply list_elem_of_singleton in Hb as ->.
        right. split; [done |]. exists e. split; [by left | done].
      * right. split; [done |]. exists e'. split; [by right | done].
    + intros [Hb|(Hp & e' & [->|He']%elem_of_cons & ->)].
      * left. destruct (PyStr2.startswith prefix local); [|done].
        apply elem_of_app. by left.
      * left. fold local in Hp |- *. rewrite Hp. apply elem_of_app. right.
        by left.
      * right. split; [done |]. by exists e'.
Qed.

(** X22: without [prune], [match_branches_with_prefix] returns, each once,
    the names that start with the prefix among the names of
    [get_branches()], where a name that starts with [remotes/origin/] is
    taken without that start. *)
Theorem match_branches_with_prefix_spec (prefix : string)
    (get_branches : list string) :
  ∃ branches,
    match_branches_with_prefix list_of_set upstream_pkg_names prefix
      get_branches false
    = ([], Return branches)
    ∧ NoDup branches
    ∧ ∀ b, b ∈ branches
           ↔ PyStr2.startswith prefix b = true
             ∧ ∃ e, e ∈ get_branches
                 ∧ b = default e (PyStr.strip_prefix "remotes/origin/" e).
Proof.
  eexists. split; [reflexivity |]. split; [apply list_of_set_NoDup |].
  intros b. rewrite list_of_set_elem, matching_branches_elem.
  split; [intros [?%elem_of_nil|?]; done | by right].
Qed.

Lemma prune_loop_end fuel prefix pkg_names (branches : list string) (i : nat) :
  (length branches ≤ i)%nat →
  prune_loop fuel prefix pkg_names branches i = branches.
Proof.
  intros Hi. destruct fuel as [|fuel]; [done |]. cbn [prune_loop].
  by rewrite lookup_ge_None_2.
Qed.

Lemma list_remove_first_middle kept b rest :
  b ∉ kept → list_remove_first b (kept ++ b :: rest) = kept ++ rest.
Proof.
  induction kept as [|k kept IH]; intros Hb; cbn [app list_remove_first].
  - by rewrite decide_True.
  - apply not_elem_of_cons in Hb as [Hne Hb].
    rewrite decide_False by done. by rewrite IH.
Qed.

(** The iteration over the list that shrinks under it, from the position
    behind [kept]. *)
Lemma prune_loop_scan (fuel : nat) prefix pkg_names
    (kept branches : list string) :
  NoDup (kept ++ branches) →
  (length branches ≤ fuel)%nat →
  prune_loop fuel prefix pkg_names (kept ++ branches) (length kept)
  = kept ++ prune_scan prefix pkg_names branches.
Proof.
  revert kept branches. induction fuel as [|fuel IH]; intros kept branches.
  - intros _ Hlen. destruct branches; [done | cbn in Hlen; lia].
  - intros Hnd Hlen. destruct branches as [|b rest].
    + by rewrite prune_loop_end by (rewrite app_nil_r; lia).
    + cbn [prune_loop prune_scan].
      rewrite lookup_app_r, Nat.sub_diag by lia. cbn [lookup list_lookup].
      assert (length (kept ++ [b]) = length kept + 1) as Hpos
        by (rewrite length_app; cbn; lia).
      destruct (not_a_package prefix pkg_names b).
      * rewrite list_remove_first_middle.
        2: { apply NoDup_app in Hnd as (_ & Hnd & _). intros Hb.
             apply (Hnd b Hb). by left. }
        destruct rest as [|passed rest].
        { by rewrite prune_loop_end by (rewrite app_nil_r; lia). }
        assert (length (kept ++ [passed]) = length kept + 1) as Hpos'
          by (rewrite length_app; cbn; lia).
        rewrite <-Hpos', (cons_middle passed kept rest), app_assoc.
        rewrite IH.
        -- by rewrite <-app_assoc.
        -- rewrite <-app_assoc. cbn [app].
           apply NoDup_app in Hnd as (Hk & Hnd & Hr).
           apply NoDup_app. split_and!; [done | |].
           ++ intros x Hx Hin. apply (Hnd x Hx). by right.
           ++ by apply NoDup_cons in Hr as [_ Hr].
        -- cbn in Hlen. lia.
      * rewrite <-Hpos, (cons_middle b kept rest), app_assoc. rewrite IH.
        -- by rewrite <-app_assoc.
        -- by rewrite <-app_assoc.
        -- cbn in Hlen. lia.
Qed.

Lemma prune_scan_cons prefix pkg_names b rest :
  prune_scan prefix pkg_names (b :: rest)
  = if not_a_package prefix pkg_names b then
      match rest with
      | [] => []
      | passed :: rest => passed :: prune_scan prefix pkg_names rest
      end
    else b :: prune_scan prefix pkg_names rest.
Proof. reflexivity. Qed.

Lemma prune_scan_sublist prefix pkg_names branches :
  sublist (prune_scan prefix pkg_names branches) branches.
Proof.
  remember (length branches) as n eqn:Hn.
  assert (length branches ≤ n)%nat as Hlen by lia. clear Hn.
  revert branches Hlen. induction n as [|n IH]; intros branches Hlen.
  - destruct branches; [constructor | cbn in Hlen; lia].
  - destruct branches as [|b [|passed rest]]; [constructor | |].
    + cbn. destruct (not_a_package prefix pkg_names b); repeat constructor.
    + rewrite prune_scan_cons. cbn in Hlen.
      destruct (not_a_package prefix pkg_names b).
      * apply sublist_cons, sublist_skip, IH. lia.
      * apply sublist_skip, IH. cbn. lia.
Qed.

Lemma prune_scan_keeps prefix pkg_names branches b :
  b ∈ branches →
  not_a_package prefix pkg_names b = false →
  b ∈ prune_scan prefix pkg_names branches.
Proof.
  intros Hin Hb. remember (length branches) as n eqn:Hn.
  assert (length branches ≤ n)%nat as Hlen by lia. clear Hn.
  revert branches Hlen Hin. induction n as [|n IH]; intros branches Hlen Hin.
  - destruct branches; [by apply elem_of_nil in Hin | cbn in Hlen; lia].
  - destruct branches as [|b0 [|passed rest]]; [by apply elem_of_nil in Hin | |].
    + apply list_elem_of_singleton in Hin as ->. cbn. rewrite Hb. by left.
    + rewrite prune_scan_cons. cbn in Hlen.
      destruct (not_a_package prefix pkg_names b0) eqn:Hb0.
      * apply elem_of_cons in Hin as [->|Hin]; [congruence |].
        apply elem_of_cons in Hin as [->|Hin]; [by left |].
        right. apply IH; [lia | done].
      * apply elem_of_cons in Hin as [->|Hin]; [by left |].
        right. apply IH; [cbn; lia | done].
Qed.

(** X23: with [prune], the loop that removes from the list it iterates over
    examines the branches in turn but passes over the branch that follows a
    removed one: what it returns is what that scan leaves.  So every branch
    that stands for a package of upstream is kept, nothing is added and the
    order is kept; but when the first branch is removed, the second one
    stays, whether it stands for a package or not. *)
Theorem match_branches_with_prefix_prune (prefix : string)
    (get_branches : list string) (ev : list event) (pkg_names : list string) :
  upstream_pkg_names = (ev, Return pkg_names) →
  prefix ≠ "" →
  let branches := list_of_set (matching_branches prefix get_branches []) in
  let kept := prune_scan prefix pkg_names branches in
  match_branches_with_prefix list_of_set upstream_pkg_names prefix
    get_branches true
  = (ev, Return kept)
  ∧ sublist kept branches
  ∧ (∀ b, b ∈ branches → not_a_package prefix pkg_names b = false → b ∈ kept)
  ∧ (∀ b1 b2 rest,
       branches = b1 :: b2 :: rest →
       not_a_package prefix pkg_names b1 = true →
       b2 ∈ kept).
Proof.
  intros Hnames Hprefix branches kept. unfold match_branches_with_prefix.
  rewrite Hnames, bind_Return. fold branches.
  assert (prune_loop (length branches) prefix pkg_names branches 0 = kept)
    as ->.
  { apply (prune_loop_scan _ _ _ [] branches); [|done].
    apply list_of_set_NoDup. }
  split_and!.
  - destruct prefix as [|c prefix]; [done |].
    destruct branches; cbn [fst snd]; by rewrite app_nil_r.
  - apply prune_scan_sublist.
  - intros b. apply prune_scan_keeps.
  - intros b1 b2 rest Heq Hb1. unfold kept.
    rewrite Heq, prune_scan_cons, Hb1. by left.
Qed.

(** X24: with [prune] and the empty prefix, every name matches, and the
    first round of the loop raises the [ValueError] of [str.split] with an
    empty separator, unless there is no branch at all. *)
Theorem match_branches_with_prefix_empty_prefix (get_branches : list string)
    (ev : list event) (pkg_names : list string) :
  upstream_pkg_names = (ev, Return pkg_names) →
  match_branches_with_prefix list_of_set upstream_pkg_names "" get_branches
    true
  = (ev,
     if decide (get_branches = []) then Return []
     else Raise (Exception "ValueError" "empty separator")).
Proof.
  intros Hnames. unfold match_branches_with_prefix.
  rewrite Hnames, bind_Return.
  destruct (list_of_set (matching_branches "" get_branches [])) as [|b l] eqn:E.
  - rewrite decide_True; [cbn; by rewrite app_nil_r |].
    destruct get_branches as [|e rest]; [done |]. exfalso.
    assert (default e (PyStr.strip_prefix "remotes/origin/" e) ∈ @nil string)
      as Hin; [|by apply elem_of_nil in Hin].
    rewrite <-E. apply list_of_set_elem, matching_branches_elem. right.
    split; [done |]. exists e. split; [by left | done].
  - rewrite decide_False; [cbn; by rewrite app_nil_r |].
    intros ->. cbn in E.
    assert (b ∈ list_of_set []) as Hin by (rewrite E; by left).
    by apply list_of_set_elem, elem_of_nil in Hin.
Qed.

End BranchFacts.

Lemma filter_always (l : list string) : filter (λ _ : string, True) l = l.
Proof.
  induction l as [|x l IH]; [done |]. by rewrite filter_cons_True, IH.
Qed.

Lemma first_seen_NoDup (l : list string) : NoDup (Cases.list_of_set l).
Proof.
  unfold Cases.list_of_set.
  destruct (keys_fromkeys_filter_spec (λ _ : string, True) l) as (Hnd & _).
  by rewrite filter_always in Hnd.
Qed.

Lemma first_seen_elem (l : list string) x : x ∈ Cases.list_of_set l ↔ x ∈ l.
Proof.
  unfold Cases.list_of_set.
  destruct (keys_fromkeys_filter_spec (λ _ : string, True) l) as (_ & Hin & _).
  rewrite filter_always in Hin. rewrite Hin. tauto.
Qed.

Lemma match_branches_with_prefix_spec_witness :
  match_branches_with_prefix Cases.list_of_set (mret ["foo"]) "debian/melodic"
    BranchCases.remote_and_local false
  = ([], Return ["debian/melodic/foo"; "debian/melodic/bar"]).
Proof.
  destruct (match_branches_with_prefix_spec Cases.list_of_set (mret ["foo"])
              first_seen_NoDup first_seen_elem "debian/melodic"
              BranchCases.remote_and_local)
    as (branches & Hrun & _).
  reflexivity.
Defined.

Lemma match_branches_with_prefix_prune_witness :
  match_branches_with_prefix Cases.list_of_set (mret ["foo"]) "debian/melodic"
    BranchCases.three true
  = ([], Return ["debian/melodic/qux"; "debian/melodic/foo"])
  ∧ "debian/melodic/foo" ∈ ["debian/melodic/qux"; "debian/melodic/foo"].
Proof.
  destruct (match_branches_with_prefix_prune Cases.list_of_set (mret ["foo"])
              first_seen_NoDup "debian/melodic" BranchCases.three [] ["foo"]
              eq_refl ltac:(discriminate))
    as (Hrun & _ & Hkeeps & _).
  split; [exact Hrun |].
  apply (Hkeeps "debian/melodic/foo"); [|reflexivity]. right. right. by left.
Defined.

Lemma match_branches_with_prefix_empty_prefix_witness :
  match_branches_with_prefix Cases.list_of_set (mret ["foo"]) ""
    BranchCases.three true
  = ([], Raise (Exception "ValueError" "empty separator")).
Proof.
  exact (match_branches_with_prefix_empty_prefix Cases.list_of_set
           (mret ["foo"]) first_seen_elem BranchCases.three [] ["foo"] eq_refl).
Defined.

(** ** Conversion of the values *)

Lemma pyobj_ind' (P : pyobj → Prop) :
  (∀ s, P (PStr s)) → (∀ b, P (PBytes b)) →
  (∀ l, Forall P l → P (PList l)) → P PNone →
  (∀ l, Forall P l → P (PTuple l)) →
  (∀ n, P (PInt n)) → (∀ b, P (PBool b)) → (∀ t, P (POther t)) →
  ∀ obj, P obj.
Proof.
  intros HStr HBytes HList HNone HTuple HInt HBool HOther.
  fix IH 1. intros [s|b|l| |l|n|b|t].
  - apply HStr.
  - apply HBytes.
  - apply HList. induction l as [|o l IHl]; constructor; [apply IH | exact IHl].
  - apply HNone.
  - apply HTuple. induction l as [|o l IHl]; constructor; [apply IH | exact IHl].
  - apply HInt.
  - apply HBool.
  - apply HOther.
Qed.

Section ConversionFacts.
Variable decode_utf8 : string → run string.

Lemma convertToUnicode_fixed obj :
  unicode_only obj = true → convertToUnicode decode_utf8 obj = ([], Return obj).
Proof.
  induction obj as [s|b|l IH| |l IH|n|b|t] using pyobj_ind'; try done.
  all: cbn [unicode_only convertToUnicode]; intros Hl.
  all: match goal with |- (?each ?l0 ≫= _) = _ =>
         assert (each l0 = ([], Return l0)) as -> end; [|done].
  all: induction IH as [|o l Ho _ IHl]; [done |].
  all: cbn [forallb] in Hl; apply andb_true_iff in Hl as [Hobj Hl].
  all: by rewrite (Ho Hobj), bind_pure, (IHl Hl), bind_pure.
Qed.

Lemma convertToUnicode_result obj ev obj' :
  convertToUnicode decode_utf8 obj = (ev, Return obj') →
  unicode_only obj' = true.
Proof.
  revert ev obj'.
  induction obj as [s|b|l IH| |l IH|n|b|t] using pyobj_ind'; intros ev obj'.
  1, 4, 6, 7: by intros [= _ <-].
  - cbn [convertToUnicode]. intros Hrun.
    apply bind_inv_Return in Hrun as (? & s & ? & _ & [= _ <-] & _). done.
  - cbn [convertToUnicode]. intros Hrun.
    apply bind_inv_Return in Hrun as (ev1 & l' & ? & Heach & [= _ <-] & _).
    cbn [unicode_only]. clear ev. revert ev1 l' Heach.
    induction IH as [|o l Ho _ IHl]; intros ev1 l'; [by intros [= _ <-] |].
    intros Hrun.
    apply bind_inv_Return in Hrun as (? & o' & ? & Hobj & Hrun & _).
    apply bind_inv_Return in Hrun as (? & l'' & ? & Hrest & [= _ <-] & _).
    cbn [forallb]. by rewrite (Ho _ _ Hobj), (IHl _ _ Hrest).
  - cbn [convertToUnicode]. intros Hrun.
    apply bind_inv_Return in Hrun as (ev1 & l' & ? & Heach & [= _ <-] & _).
    cbn [unicode_only]. clear ev. revert ev1 l' Heach.
    induction IH as [|o l Ho _ IHl]; intros ev1 l'; [by intros [= _ <-] |].
    intros Hrun.
    apply bind_inv_Return in Hrun as (? & o' & ? & Hobj & Hrun & _).
    apply bind_inv_Return in Hrun as (? & l'' & ? & Hrest & [= _ <-] & _).
    cbn [forallb]. by rewrite (Ho _ _ Hobj), (IHl _ _ Hrest).
  - done.
Qed.

Lemma subs_values_unicode_only (s : Subs) v :
  v ∈ subs_values s → unicode_only v = true.
Proof.
  assert (∀ l, unicode_only (pyobj_of_strings l) = true) as Hstrings.
  { intros l. cbn. by induction l. }
  assert (unicode_only (PList (pyobj_of_changelog <$> s_changelogs s)) = true)
    as Hchangelogs.
  { cbn. by induction (s_changelogs s). }
  unfold subs_values. rewrite !elem_of_app, !elem_of_cons, elem_of_nil.
  intros [Hv|[Hv|Hv]].
  - repeat destruct Hv as [->|Hv]; done.
  - destruct (s_pass_install_scripts s);
      [apply list_elem_of_singleton in Hv | apply elem_of_nil in Hv];
      by subst.
  - repeat destruct Hv as [->|Hv]; done.
Qed.

(** X25: [convertToUnicode] changes nothing in a value made of [str],
    [None], [int] and [bool] in lists and tuples, as every value of the map
    of a package is; and whatever it returns is such a value, so that
    converting a converted value changes nothing. *)
Theorem convertToUnicode_idempotent :
  (∀ obj, unicode_only obj = true →
          convertToUnicode decode_utf8 obj = ([], Return obj))
  ∧ (∀ (s : Subs) v, v ∈ subs_values s →
       convertToUnicode decode_utf8 v = ([], Return v))
  ∧ (∀ obj ev obj',
       convertToUnicode decode_utf8 obj = (ev, Return obj') →
       convertToUnicode decode_utf8 obj' = ([], Return obj')).
Proof.
  split_and!.
  - apply convertToUnicode_fixed.
  - intros s v Hv. by apply convertToUnicode_fixed, (subs_values_unicode_only s).
  - intros obj ev obj' Hrun.
    by apply convertToUnicode_fixed, (convertToUnicode_result obj ev).
Qed.

(** X26: the copy of [convertToUnicode] in the command file gives what the
    one of the generator gives for every value that holds no value of
    another type than the ones both test for; for a value of another type
    the generator's raises [RuntimeError] and the copy returns [None]. *)
Theorem convertToUnicode_copies :
  (∀ obj, known_types obj = true →
          convertToUnicode_cmd decode_utf8 obj
          = convertToUnicode decode_utf8 obj)
  ∧ ∀ type_text,
      convertToUnicode decode_utf8 (POther type_text)
      = ([], Raise (Exception "RuntimeError"
                      ("need to deal with type " +:+ type_text)))
      ∧ convertToUnicode_cmd decode_utf8 (POther type_text)
        = ([], Return PNone).
Proof.
  split; [|done].
  induction obj as [s|b|l IH| |l IH|n|b|t] using pyobj_ind'; try done.
  all: cbn [known_types convertToUnicode convertToUnicode_cmd]; intros Hl.
  all: match goal with |- (?each_cmd ?l0 ≫= _) = (?each ?l0 ≫= _) =>
         assert (each_cmd l0 = each l0) as -> end; [|done].
  all: induction IH as [|o l Ho _ IHl]; [done |].
  all: cbn [forallb] in Hl; apply andb_true_iff in Hl as [Hobj Hl].
  all: by rewrite (Ho Hobj), (IHl Hl).
Qed.

End ConversionFacts.

Lemma convertToUnicode_idempotent_witness :
  convertToUnicode (λ b, mret b)
    (PList [PStr "alpha"; PTuple [PInt 9; PNone; PBool true]])
  = ([], Return (PList [PStr "alpha"; PTuple [PInt 9; PNone; PBool true]])).
Proof.
  destruct (convertToUnicode_idempotent (λ b, mret b)) as [Hfixed _].
  apply Hfixed. reflexivity.
Defined.

Lemma convertToUnicode_copies_witness :
  convertToUnicode_cmd (λ b, mret b) (PTuple [PBytes "alpha"; PNone])
  = convertToUnicode (λ b, mret b) (PTuple [PBytes "alpha"; PNone]).
Proof.
  destruct (convertToUnicode_copies (λ b, mret b)) as [Hsame _].
  apply Hsame. reflexivity.
Defined.

(** ** Descriptions *)

Section DescriptionFacts.

Lemma spaced_cons prev c r :
  spaced prev (String c r)
  = if PyStr.is_space c then Ascii.eqb c " " && negb prev && spaced true r
    else spaced false r.
Proof. reflexivity. Qed.

Lemma last_is_space_cons c d r :
  last_is_space (String c (String d r)) = last_is_space (String d r).
Proof. reflexivity. Qed.

Lemma is_space_space : PyStr.is_space " " = true.
Proof. reflexivity. Qed.

Lemma is_space_dot : PyStr.is_space "." = false.
Proof. reflexivity. Qed.

Lemma sub_spaces_spaced in_run s :
  spaced in_run (PyStr.sub_spaces in_run s) = true.
Proof.
  revert in_run. induction s as [|c s IH]; intros in_run; [done |].
  cbn [PyStr.sub_spaces]. destruct (PyStr.is_space c) eqn:E.
  - destruct in_run; [apply IH |].
    by rewrite spaced_cons, is_space_space, Ascii.eqb_refl, IH.
  - by rewrite spaced_cons, E, IH.
Qed.

Lemma spaced_true_lstrip s : spaced true s = true → PyStr.lstrip s = s.
Proof.
  destruct s as [|c s]; [done |]. rewrite spaced_cons. cbn [PyStr.lstrip].
  destruct (PyStr.is_space c); [|done].
  by rewrite andb_false_r.
Qed.

Lemma spaced_lstrip s :
  spaced false s = true → spaced true (PyStr.lstrip s) = true.
Proof.
  destruct s as [|c s]; [done |]. rewrite spaced_cons. cbn [PyStr.lstrip].
  destruct (PyStr.is_space c) eqn:E.
  - intros [_ Hs]%andb_true_iff. by rewrite spaced_true_lstrip.
  - intros Hs. by rewrite spaced_cons, E.
Qed.

Lemma spaced_rstrip prev s :
  spaced prev s = true → spaced prev (PyStr.rstrip s) = true.
Proof.
  revert prev. induction s as [|c s IH]; intros prev; [done |].
  rewrite spaced_cons. cbn [PyStr.rstrip].
  destruct (PyStr.rstrip s) as [|d r] eqn:Er.
  - destruct (PyStr.is_space c) eqn:E; [done |].
    intros _. by rewrite spaced_cons, E.
  - rewrite spaced_cons. destruct (PyStr.is_space c).
    + intros [Hc Hs]%andb_true_iff. rewrite Hc. by apply IH.
    + apply IH.
Qed.

Lemma rstrip_last s : last_is_space (PyStr.rstrip s) = false.
Proof.
  induction s as [|c s IH]; [done |]. cbn [PyStr.rstrip].
  destruct (PyStr.rstrip s) as [|d r] eqn:Er.
  - by destruct (PyStr.is_space c) eqn:E; cbn; rewrite ?E.
  - by rewrite last_is_space_cons.
Qed.

Lemma rstrip_fixed s : last_is_space s = false → PyStr.rstrip s = s.
Proof.
  induction s as [|c [|d r] IH]; [done | |].
  - cbn. by intros ->.
  - rewrite last_is_space_cons. intros Hs. specialize (IH Hs).
    change (PyStr.rstrip (String c (String d r)))
      with (match PyStr.rstrip (String d r) with
            | "" => if PyStr.is_space c then "" else String c ""
            | r' => String c r'
            end).
    by rewrite IH.
Qed.

(** The text that [debianize_string] returns is spaced and ends with no
    white space. *)
Lemma debianize_string_tidy value :
  spaced true (debianize_string value) = true
  ∧ last_is_space (debianize_string value) = false.
Proof.
  unfold debianize_string, PyStr.strip. split; [|apply rstrip_last].
  apply spaced_rstrip, spaced_lstrip, sub_spaces_spaced.
Qed.

Lemma join_cons_char c w ws :
  String c (PyStr.join " " (w :: ws)) = PyStr.join " " (String c w :: ws).
Proof. by destruct ws. Qed.

Lemma spaced_words (n : nat) (s : string) :
  (String.length s ≤ n)%nat →
  spaced true s = true →
  last_is_space s = false →
  ∃ words,
    s = PyStr.join " " words
    ∧ Forall (λ w, w ≠ "" ∧ no_space w = true) words
    ∧ (s ≠ "" → words ≠ []).
Proof.
  revert s. induction n as [|n IH]; intros s Hlen Hs Hlast.
  { destruct s; [by exists [] | cbn in Hlen; lia]. }
  destruct s as [|c [|d r]]; [by exists [] | |].
  - rewrite spaced_cons in Hs.
    destruct (PyStr.is_space c) eqn:E; [by rewrite andb_false_r in Hs |].
    exists [String c ""]. split_and!; [done | | done].
    constructor; [|done]. split; [done |]. cbn. by rewrite E.
  - rewrite spaced_cons in Hs.
    destruct (PyStr.is_space c) eqn:E; [by rewrite andb_false_r in Hs |].
    rewrite last_is_space_cons in Hlast. cbn [String.length] in Hlen.
    destruct (PyStr.is_space d) eqn:Ed.
    + rewrite spaced_cons, Ed in Hs.
      apply andb_true_iff in Hs as [Hd Hs].
      apply andb_true_iff in Hd as [Hd _]. apply Ascii.eqb_eq in Hd as ->.
      destruct r as [|e r]; [cbn in Hlast; congruence |].
      rewrite last_is_space_cons in Hlast.
      destruct (IH (String e r)) as (words & Hjoin & Hwords & Hne);
        [cbn [String.length] in *; lia | done | done |].
      destruct words as [|w ws]; [by destruct Hne |].
      exists (String c "" :: w :: ws). split_and!; [| | done].
      * rewrite Hjoin. reflexivity.
      * constructor; [|done]. split; [done |]. cbn. by rewrite E.
    + assert (spaced true (String d r) = true) as Hs'
        by (rewrite spaced_cons, Ed in Hs |- *; done).
      destruct (IH (String d r)) as (words & Hjoin & Hwords & Hne);
        [cbn [String.length] in *; lia | done | done |].
      destruct words as [|w ws]; [by destruct Hne |].
      exists (String c w :: ws). split_and!; [| | done].
      * by rewrite Hjoin, join_cons_char.
      * apply Forall_cons in Hwords as [[_ Hw] Hws].
        constructor; [|done]. split; [done |]. cbn. by rewrite E, Hw.
Qed.

Lemma spaced_suffix prev a b :
  spaced prev (a +:+ b) = true → ∃ prev', spaced prev' b = true.
Proof.
  revert prev. induction a as [|c a IH]; intros prev.
  - rewrite append_nil_l. by exists prev.
  - rewrite append_cons, spaced_cons. destruct (PyStr.is_space c).
    + intros [_ Hs]%andb_true_iff. by apply IH in Hs.
    + apply IH.
Qed.

Lemma last_is_space_app a c b :
  last_is_space (a +:+ String c b) = last_is_space (String c b).
Proof.
  induction a as [|d a IH]; [done |]. rewrite append_cons.
  destruct a as [|e a]; [done |].
  rewrite append_cons in IH |- *. by rewrite last_is_space_cons.
Qed.

(** X27: the text that [debianize_string] returns is a sequence of words
    joined by single spaces, where a word is not empty and holds no white
    space: no white space at either end, none doubled, and none but the
    space. *)
Theorem debianize_string_words (value : string) :
  ∃ words,
    debianize_string value = PyStr.join " " words
    ∧ Forall (λ w, w ≠ "" ∧ no_space w = true) words.
Proof.
  destruct (debianize_string_tidy value) as [Hs Hlast].
  destruct (spaced_words _ _ (le_n _) Hs Hlast) as (words & Hjoin & Hwords & _).
  by exists words.
Qed.

(** X28: [format_description] returns the text of [debianize_string] with
    its first [". "] turned into a full stop, a line feed and a space: since
    that text ends with no white space and doubles none, what follows the
    first [". "] is never empty and [strip] leaves it as it is. *)
Theorem format_description_first_sentence (value : string) :
  match PyStr.find_sep ". " (debianize_string value) with
  | Some (synopsis, rest) =>
      debianize_string value = synopsis +:+ ". " +:+ rest
      ∧ rest ≠ ""
      ∧ format_description value
        = synopsis +:+ "." +:+ String PyStr.LF " " +:+ rest
  | None => format_description value = debianize_string value
  end.
Proof.
  unfold format_description, PyStr.split1.
  destruct (debianize_string_tidy value) as [Hs Hlast].
  destruct (PyStr.find_sep ". " (debianize_string value)) as [[p0 p1]|] eqn:E;
    [|done].
  apply find_sep_Some in E. split; [done |].
  rewrite E in Hs, Hlast.
  change (p0 +:+ ". " +:+ p1) with (p0 +:+ String "." (String " " p1))
    in Hs, Hlast.
  rewrite last_is_space_app, last_is_space_cons in Hlast.
  apply spaced_suffix in Hs as [prev Hs].
  rewrite spaced_cons, is_space_dot, spaced_cons, is_space_space in Hs.
  apply andb_true_iff in Hs as [_ Hs].
  destruct p1 as [|c p1]; [done |].
  split; [done |]. cbn [String.length Nat.eqb].
  change (last_is_space (String " " (String c p1)))
    with (last_is_space (String c p1)) in Hlast.
  unfold PyStr.strip. by rewrite (spaced_true_lstrip _ Hs), rstrip_fixed.
Qed.

End DescriptionFacts.

Lemma debianize_string_words_witness :
  debianize_string "  A <b>fast</b>   planner. "
  = PyStr.join " " ["A"; "fast"; "planner."].
Proof.
  destruct (debianize_string_words "  A <b>fast</b>   planner. ")
    as (words & _ & _).
  reflexivity.
Defined.

Lemma format_description_first_sentence_witness :
  format_description "A <b>fast</b>   planner. It plans.   Twice. "
  = "A fast planner." +:+ String PyStr.LF " " +:+ "It plans. Twice.".
Proof.
  pose proof (format_description_first_sentence
                "A <b>fast</b>   planner. It plans.   Twice. ") as Hspec.
  cbv beta in Hspec. reflexivity.
Defined.

(** ** Templates *)

Section TemplateRuns.
Context {A B : Type}.

Lemma fs_bind_unfold (m : Templates.fsrun A) (f : A → Templates.fsrun B) fs :
  (m ≫= f) fs
  = match m fs with
    | (fs', (ev, Return a)) =>
        let '(fs'', (ev', r)) := f a fs' in (fs'', (ev ++ ev', r))
    | (fs', (ev, SysExit arg)) => (fs', (ev, SysExit arg))
    | (fs', (ev, Raise e)) => (fs', (ev, Raise e))
    end.
Proof. reflexivity. Qed.

Lemma fs_bind_quiet (m : Templates.fsrun A) (f : A → Templates.fsrun B)
    fs fs1 a :
  m fs = (fs1, ([], Return a)) → (m ≫= f) fs = f a fs1.
Proof.
  intros Hm. rewrite fs_bind_unfold, Hm. by destruct (f a fs1) as [fs2 [ev r]].
Qed.

Lemma fs_bind_pure (m : Templates.fsrun A) (f : A → Templates.fsrun B) fs a :
  m fs = (fs, ([], Return a)) → (m ≫= f) fs = f a fs.
Proof. apply fs_bind_quiet. Qed.

Lemma fs_bind_inv_Return (m : Templates.fsrun A) (f : A → Templates.fsrun B)
    fs fs' ev b :
  (m ≫= f) fs = (fs', (ev, Return b)) →
  ∃ fs1 ev1 a ev2,
    m fs = (fs1, (ev1, Return a))
    ∧ f a fs1 = (fs', (ev2, Return b))
    ∧ ev = ev1 ++ ev2.
Proof.
  rewrite fs_bind_unfold. destruct (m fs) as [fs1 [ev1 [a|arg|e]]]; [|done..].
  destruct (f a fs1) as [fs2 [ev2 r]] eqn:E. intros [= <- <- ->].
  by exists fs1, ev1, a, ev2.
Qed.

End TemplateRuns.

Section TemplateFacts.
Context `{Templates.TemplateSystem}.

Lemma append_assoc (a b c : string) : (a +:+ b) +:+ c = a +:+ (b +:+ c).
Proof.
  induction a as [|x a IH]; [done |]. by rewrite !append_cons, IH.
Qed.

Lemma append_nil_r (a : string) : a +:+ "" = a.
Proof. induction a as [|x a IH]; [done |]. by rewrite append_cons, IH. Qed.

Lemma length_append (a b : string) :
  String.length (a +:+ b) = (String.length a + String.length b)%nat.
Proof.
  induction a as [|x a IH]; [done |]. rewrite append_cons. cbn. by rewrite IH.
Qed.

Lemma drop_last_append (a b : string) :
  Templates.drop_last (String.length b) (a +:+ b) = a.
Proof.
  unfold Templates.drop_last. rewrite length_append.
  replace (String.length a + String.length b - String.length b)%nat
    with (String.length a) by lia.
  induction a as [|x a IH]; [by destruct b |].
  rewrite append_cons. cbn [String.length String.substring]. by rewrite IH.
Qed.

Lemma stanza_entries_cons key entry subs :
  stanza_entries ((key, entry) :: subs)
  = if String.eqb (Templates.entry_Package entry) "tesseract-core"
    then stanza_entries subs
    else entry :: stanza_entries subs.
Proof.
  unfold stanza_entries. cbn [PyDict.values fmap list_fmap snd].
  rewrite filter_cons.
  destruct (String.eqb_spec (Templates.entry_Package entry) "tesseract-core");
    [by rewrite decide_False by auto | by rewrite decide_True].
Qed.

(** The loop that writes the texts of the packages. *)
Lemma append_packages_run template control stanza subs fs :
  (∀ mode, PyDict.get fs control ≠ Some (Templates.Dir mode)) →
  (∀ entry, entry ∈ stanza_entries subs →
     Templates.em_expand template entry = ([], Return (stanza entry))) →
  ∃ fs',
    Templates.append_packages template control subs fs = (fs', ([], Return ()))
    ∧ (∀ p, p ≠ control → PyDict.get fs' p = PyDict.get fs p)
    ∧ (stanza_entries subs = [] → fs' = fs)
    ∧ (stanza_entries subs ≠ [] →
       PyDict.get fs' control
       = Some (Templates.File
                 (file_text fs control
                  +:+ texts_in_a_row (stanza <$> stanza_entries subs))
                 (file_mode fs control))).
Proof.
  revert fs. induction subs as [|[key entry] subs IH]; intros fs Hdir Hexp.
  { exists fs. by split_and!. }
  cbn [Templates.append_packages]. rewrite stanza_entries_cons in Hexp |- *.
  destruct (String.eqb (Templates.entry_Package entry) "tesseract-core").
  - cbn [negb]. rewrite (fs_bind_pure _ _ _ ()) by done. by apply IH.
  - cbn [negb].
    assert (∃ fs1,
              (Templates.fs_lift (Templates.em_expand template entry)
                 ≫= λ result : string, Templates.fs_append control result) fs
              = (fs1, ([], Return ()))
              ∧ (∀ mode, PyDict.get fs1 control ≠ Some (Templates.Dir mode))
              ∧ (∀ p, p ≠ control → PyDict.get fs1 p = PyDict.get fs p)
              ∧ PyDict.get fs1 control
                = Some (Templates.File (file_text fs control +:+ stanza entry)
                          (file_mode fs control)))
      as (fs1 & Hrun & Hdir1 & Hother1 & Hget1).
    { rewrite (fs_bind_pure _ _ _ (stanza entry)).
      2: { unfold Templates.fs_lift. rewrite Hexp; [done | by left]. }
      unfold Templates.fs_append, file_text, file_mode.
      destruct (PyDict.get fs control) as [[old mode|mode]|] eqn:Hc;
        [| by destruct (Hdir mode) |].
      all: eexists; split; [reflexivity |]; split_and!.
      all: try (intros m; rewrite get_setitem, decide_True by done; done).
      all: try (intros p Hp; by rewrite get_setitem, decide_False).
      all: by rewrite get_setitem, decide_True. }
    rewrite (fs_bind_quiet _ _ _ _ () Hrun).
    destruct (IH fs1 Hdir1) as (fs' & Hrest & Hother & Hnil & Hcons).
    { intros e He. apply Hexp. by right. }
    exists fs'. split_and!; [done | | done |].
    + intros p Hp. by rewrite Hother, Hother1.
    + intros _. cbn [fmap list_fmap texts_in_a_row foldr].
      destruct (stanza_entries subs) as [|e es] eqn:Hes.
      * rewrite (Hnil eq_refl), Hget1. cbn. by rewrite append_nil_r.
      * rewrite Hcons by done. unfold file_text at 1, file_mode at 1.
        rewrite Hget1. cbn [Templates.node_mode]. by rewrite append_assoc.
Qed.

(** X29: when [control_package.em] is a file of the folder, its expansion
    for every value of the view whose ['Package'] is not ["tesseract-core"]
    goes behind what the file [control] of the folder holds, in the order
    of the view; no other file changes, and the path of the template joins
    the paths that are returned. *)
Theorem control_package_block_spec (dir template : string) (mode : N)
    (stanza : ViewEntry → string) (path : string) (subs : AggregatedView)
    (processed_items : list string) (fs : Templates.FS) :
  Templates.abspath (PyPath.join path "control_package.em")
  = dir +:+ "/control_package.em" →
  PyDict.get fs (dir +:+ "/control_package.em")
  = Some (Templates.File template mode) →
  (∀ mode, PyDict.get fs (dir +:+ "/control") ≠ Some (Templates.Dir mode)) →
  (∀ entry, entry ∈ stanza_entries subs →
     Templates.em_expand template entry = ([], Return (stanza entry))) →
  ∃ fs',
    Templates.control_package_block path subs processed_items fs
    = (fs', ([], Return (processed_items ++ [dir +:+ "/control_package.em"])))
    ∧ (∀ p, p ≠ dir +:+ "/control" → PyDict.get fs' p = PyDict.get fs p)
    ∧ (stanza_entries subs = [] → fs' = fs)
    ∧ (stanza_entries subs ≠ [] →
       PyDict.get fs' (dir +:+ "/control")
       = Some (Templates.File
                 (file_text fs (dir +:+ "/control")
                  +:+ texts_in_a_row (stanza <$> stanza_entries subs))
                 (file_mode fs (dir +:+ "/control")))).
Proof.
  intros Habs Htemplate Hdir Hexp. unfold Templates.control_package_block.
  cbv zeta. rewrite Habs.
  rewrite (fs_bind_pure _ _ _ true)
    by (unfold Templates.fs_exists; by rewrite Htemplate).
  rewrite (fs_bind_pure _ _ _ template)
    by (unfold Templates.fs_read; by rewrite Htemplate).
  assert (Templates.drop_last (String.length "_package.em")
            (dir +:+ "/control_package.em") = dir +:+ "/control") as ->.
  { change "/control_package.em" with ("/control" +:+ "_package.em").
    rewrite <-append_assoc. apply drop_last_append. }
  destruct (append_packages_run template (dir +:+ "/control") stanza subs fs
              Hdir Hexp) as (fs' & Hrun & Hother & Hnil & Hcons).
  exists fs'. split_and!; [|done..].
  by rewrite (fs_bind_quiet _ _ _ _ () Hrun).
Qed.

Lemma substring_full (s : string) : String.substring 0 (String.length s) s = s.
Proof. induction s as [|c s IH]; [done |]. cbn. by rewrite IH. Qed.

Lemma substring_split (s : string) (k : nat) :
  (k ≤ String.length s)%nat →
  s = String.substring 0 k s +:+ String.substring k (String.length s - k) s.
Proof.
  revert k. induction s as [|c s IH]; intros k Hk.
  - by destruct k.
  - destruct k as [|k].
    + cbn [String.length Nat.sub String.substring]. by rewrite substring_full.
    + cbn [String.length Nat.sub String.substring]. rewrite append_cons.
      rewrite <-IH; [done |]. cbn in Hk. lia.
Qed.

Lemma endswith_is_template p :
  Templates.endswith ".em" p = true → is_template p.
Proof.
  unfold Templates.endswith. intros [Hlen Heq]%andb_true_iff.
  apply Nat.leb_le in Hlen. apply String.eqb_eq in Heq.
  exists (String.substring 0 (String.length p - String.length ".em") p).
  rewrite (substring_split p (String.length p - String.length ".em")) at 1
    by lia.
  replace (String.length p - (String.length p - String.length ".em"))%nat
    with (String.length ".em") by lia.
  by rewrite Heq.
Qed.

Lemma join_cases a b :
  PyPath.join a b = b
  ∨ PyPath.join a b = a +:+ b
  ∨ PyPath.join a b = a +:+ "/" +:+ b.
Proof.
  unfold PyPath.join.
  destruct ((String.length a =? 0)%nat || PyPath.ends_with_char "/" a).
  - destruct b as [|[[] [] [] [] [] [] [] []] b]; auto.
  - destruct b as [|[[] [] [] [] [] [] [] []] b]; auto.
Qed.

Lemma join_is_template a b : is_template b → is_template (PyPath.join a b).
Proof.
  intros [stem ->].
  destruct (join_cases a (stem +:+ ".em")) as [->|[->| ->]].
  - by exists stem.
  - exists (a +:+ stem). by rewrite append_assoc.
  - exists (a +:+ "/" +:+ stem). by rewrite !append_assoc.
Qed.

(** The loop over the names of a folder adds paths of templates alone. *)
Lemma process_items_templates recurse path master items processed_items
    fs fs' ev out :
  (∀ p fs fs' ev items,
     recurse p fs = (fs', (ev, Return items)) → Forall is_template items) →
  Forall is_template processed_items →
  Templates.process_items recurse path master items processed_items fs
  = (fs', (ev, Return out)) →
  Forall is_template out.
Proof.
  intros Hrec. revert processed_items fs ev.
  induction items as [|item items IH]; intros processed_items fs ev Hall.
  { by intros [= _ _ <-]. }
  cbn [Templates.process_items].
  destruct (String.eqb item "control_package.em"); cbn [negb]; [by apply IH |].
  cbv zeta.
  destruct (bool_decide _); [by apply IH |].
  intros Hrun.
  apply fs_bind_inv_Return in Hrun as (fs1 & ev1 & isdir & ev2 & _ & Hrun & _).
  apply fs_bind_inv_Return in Hrun
    as (fs2 & ev3 & processed & ev4 & Hsub & Hrun & _).
  assert (Forall is_template processed) as Hall'.
  { destruct isdir; [|by injection Hsub as _ _ <-].
    apply fs_bind_inv_Return in Hsub
      as (? & ? & sub_items & ? & Hsub & [= _ _ <-] & _).
    apply Forall_app. split; [done |].
    apply Hrec in Hsub. apply Forall_fmap.
    eapply Forall_impl; [exact Hsub |]. intros s Hs. by apply join_is_template. }
  destruct (Templates.endswith ".em" _) eqn:Hem; cbn [negb] in Hrun;
    [|by eapply IH].
  assert (Forall is_template
            (processed ++ [Templates.abspath (PyPath.join path item)]))
    as Hall''.
  { apply Forall_app. split; [done |]. constructor; [|done].
    by apply endswith_is_template. }
  apply fs_bind_inv_Return in Hrun as (? & ? & template & ? & _ & Hrun & _).
  apply fs_bind_inv_Return in Hrun as (? & ? & result & ? & _ & Hrun & _).
  destruct (_ && _); [by eapply IH |].
  apply fs_bind_inv_Return in Hrun as (? & ? & [] & ? & _ & Hrun & _).
  apply fs_bind_inv_Return in Hrun as (? & ? & [] & ? & _ & Hrun & _).
  by eapply IH.
Qed.

Lemma process_template_folder_templates depth path subs fs fs' ev items :
  (∀ p, is_template (Templates.abspath (PyPath.join p "control_package.em"))) →
  Templates.process_template_folder depth path subs fs
  = (fs', (ev, Return items)) →
  Forall is_template items.
Proof.
  intros Habs. revert path fs fs' ev items.
  induction depth as [|depth IH]; intros path fs fs' ev items Hrun.
  all: cbn [Templates.process_template_folder] in Hrun.
  all: apply fs_bind_inv_Return in Hrun as (? & ? & names & ? & _ & Hrun & _).
  all: apply fs_bind_inv_Return in Hrun as (? & ? & master & ? & _ & Hrun & _).
  all: apply fs_bind_inv_Return in Hrun
         as (? & ? & processed & ? & Hitems & Hrun & _).
  1: apply process_items_templates in Hitems; [|done..].
  2: apply process_items_templates in Hitems;
       [| intros p fs0 fs0' ev0 items0 Hrec; exact (IH _ _ _ _ _ Hrec) | done].
  all: unfold Templates.control_package_block in Hrun.
  all: apply fs_bind_inv_Return in Hrun as (? & ? & found & ? & _ & Hrun & _).
  all: destruct found; [|by injection Hrun as _ _ <-].
  all: apply fs_bind_inv_Return in Hrun as (? & ? & template & ? & _ & Hrun & _).
  all: apply fs_bind_inv_Return in Hrun as (? & ? & [] & ? & _ & Hrun & _).
  all: injection Hrun as _ _ <-.
  all: apply Forall_app; split; [done |]; constructor; [apply Habs | done].
Qed.

(** X30: [process_template_files] ends with the message that names the
    folder when there is no [debian] folder at the path; and every path
    that it returns, which are the paths that the command removes, is the
    path of a template: it ends with [.em]. *)
Theorem process_template_files_returns_templates (depth : nat)
    (path : string) (subs : AggregatedView) (fs : Templates.FS) :
  (∀ p, is_template (Templates.abspath (PyPath.join p "control_package.em"))) →
  (PyDict.get fs (PyPath.join path "debian") = None →
   Templates.process_template_files depth path subs fs
   = (fs, ([], SysExit (ExitMsg ("No debian directory found at '"
                                 +:+ PyPath.join path "debian"
                                 +:+ "', cannot process templates.")))))
  ∧ ∀ fs' ev items,
      Templates.process_template_files depth path subs fs
      = (fs', (ev, Return items)) →
      is_Some (PyDict.get fs (PyPath.join path "debian"))
      ∧ Forall is_template items.
Proof.
  intros Habs. unfold Templates.process_template_files. cbv zeta. split.
  - intros Hnone.
    rewrite (fs_bind_pure _ _ _ false)
      by (unfold Templates.fs_exists; by rewrite Hnone).
    done.
  - intros fs' ev items Hrun.
    remember (PyPath.join path "debian") as debian_dir eqn:Hdir. clear Hdir.
    apply fs_bind_inv_Return in Hrun as (? & ? & found & ? & Hfound & Hrun & _).
    unfold Templates.fs_exists in Hfound. injection Hfound as <- _ <-.
    destruct (PyDict.get fs debian_dir) as [n|] eqn:E; [|done].
    split; [done |]. rewrite bool_decide_eq_true_2 in Hrun by done.
    cbn [negb] in Hrun. by eapply process_template_folder_templates.
Qed.

End TemplateFacts.

Lemma control_package_block_spec_witness :
  ∃ fs',
    @Templates.control_package_block TemplateCases.system "debian"
      ViewCases.view ["/ws/debian/control_header.em"] TemplateCases.files
    = (fs', ([], Return ["/ws/debian/control_header.em";
                         "/ws/debian/control_package.em"]))
    ∧ PyDict.get fs' "/ws/debian/control"
      = Some (Templates.File
                "Package: @(Package);alpha;Package: @(Package);beta;" 420).
Proof.
  destruct (@control_package_block_spec TemplateCases.system "/ws/debian"
              "Package: @(Package);" 420
              (λ entry, "Package: @(Package);"
                        +:+ Templates.entry_Package entry +:+ ";")
              "debian" ViewCases.view ["/ws/debian/control_header.em"]
              TemplateCases.files eq_refl eq_refl)
    as (fs' & Hrun & _ & _ & Hcontrol).
  - intros mode. discriminate.
  - intros entry _. reflexivity.
  - exists fs'. split; [exact Hrun |]. apply Hcontrol. discriminate.
Defined.

Lemma example_abspath_keeps_template (p : string) :
  is_template
    (@Templates.abspath TemplateCases.system
       (PyPath.join p "control_package.em")).
Proof.
  destruct (join_is_template p "control_package.em") as [stem Hstem];
    [by exists "control_package" |].
  cbn [Templates.abspath TemplateCases.system]. rewrite Hstem.
  destruct (PyStr2.startswith "/" (stem +:+ ".em")); [by exists stem |].
  exists ("/ws/" +:+ stem). by rewrite append_assoc.
Qed.

Lemma process_template_files_returns_templates_witness :
  ∃ fs' items,
    @Templates.process_template_files TemplateCases.system 5 "" ViewCases.view
      TemplateCases.files
    = (fs', ([], Return items))
    ∧ Forall is_template items
    ∧ length items = 5.
Proof.
  eexists _, _. split; [reflexivity |].
  destruct (@process_template_files_returns_templates TemplateCases.system 5
              "" ViewCases.view TemplateCases.files
              example_abspath_keeps_template) as [_ Hitems].
  destruct (Hitems _ _ _ eq_refl) as [_ Hall]. split; [exact Hall |].
  reflexivity.
Defined.
